(** * URL risk analysis pipeline: a shallow embedding of
      [backend/app/services/url_analyzer.py] and
      [backend/app/services/ml_classifier.py].

    Python values are modelled as follows.
    - [str] is a sequence of Unicode code points ([pystr]); literals of the
      source are written with [lit].
    - [float] is IEEE binary64, here Rocq's primitive [float]; the [int]
      constants that the source adds to a float score are the floats of the
      same value.
    - An exception is a value of [exn]; a function that can raise returns a
      [result], and [try ... except] is a [match] on it.
    - The dictionaries the stages build always have keys from a fixed set, so
      each is a record; a key that a stage sets only on some paths is a field
      of type [option], [None] meaning that the key is absent.
    - Library calls ([urllib.parse], [tldextract], [idna], [socket],
      [BeautifulSoup], the fitted scikit-learn model, string case folding and
      float formatting) are parameters of the sections that use them. *)

From Stdlib Require Import List Bool Arith ZArith NArith Lia String Ascii.
From Stdlib Require Import DecimalString Floats.
Import ListNotations.

Set Warnings "-inexact-float".

(* ------------------------------------------------------------------ *)
(** ** Python strings *)

Module PyStr.

Definition pystr := list N.

Definition lit (s : string) : pystr :=
  List.map N_of_ascii (list_ascii_of_string s).

Fixpoint eqb (a b : pystr) : bool :=
  match a, b with
  | [], [] => true
  | x :: a', y :: b' => N.eqb x y && eqb a' b'
  | _, _ => false
  end.

(** [s.startswith(p)] *)
Fixpoint startswith (s p : pystr) {struct p} : bool :=
  match p, s with
  | [], _ => true
  | _ :: _, [] => false
  | y :: p', x :: s' => N.eqb x y && startswith s' p'
  end.

(** [p in s] for strings: [p] occurs as a contiguous slice of [s]. *)
Fixpoint contains (s p : pystr) : bool :=
  startswith s p ||
  match s with
  | [] => false
  | _ :: s' => contains s' p
  end.

(** [s.count(c)] for a one-character [c]. *)
Definition count (s : pystr) (c : N) : nat :=
  List.length (List.filter (N.eqb c) s).

(** [s.replace(c, '')] for a one-character [c]. *)
Definition remove_char (s : pystr) (c : N) : pystr :=
  List.filter (fun x => negb (N.eqb x c)) s.

(** [s.split(c)] for a one-character separator. *)
Fixpoint split (s : pystr) (c : N) : list pystr :=
  match s with
  | [] => [[]]
  | x :: s' =>
      if N.eqb x c then [] :: split s' c
      else match split s' c with
           | [] => [[x]]
           | w :: ws => (x :: w) :: ws
           end
  end.

(** The characters [str.strip()] removes: those for which [str.isspace]
    holds. *)
Definition isspace (c : N) : bool :=
  ((9 <=? c) && (c <=? 13) || (28 <=? c) && (c <=? 32)
   || (c =? 133) || (c =? 160) || (c =? 5760)
   || (8192 <=? c) && (c <=? 8202)
   || (c =? 8232) || (c =? 8233) || (c =? 8239) || (c =? 8287)
   || (c =? 12288))%N.

Fixpoint lstrip (s : pystr) : pystr :=
  match s with
  | [] => []
  | x :: s' => if isspace x then lstrip s' else s
  end.

Definition rstrip (s : pystr) : pystr := List.rev (lstrip (List.rev s)).

Definition strip (s : pystr) : pystr := rstrip (lstrip s).

(** [sep.join(xs)] *)
Fixpoint join (sep : pystr) (xs : list pystr) : pystr :=
  match xs with
  | [] => []
  | [x] => x
  | x :: xs' => x ++ sep ++ join sep xs'
  end.

(** [str(n)] for a non-negative [int]. *)
Definition of_nat (n : nat) : pystr :=
  lit (NilEmpty.string_of_uint (Nat.to_uint n)).

Definition is_ascii_digit (c : N) : bool := ((48 <=? c) && (c <=? 57))%N.

(** [s.encode('ascii')]: defined exactly when every code point is below
    128. *)
Definition is_ascii (s : pystr) : bool := List.forallb (fun c => (c <? 128)%N) s.

End PyStr.

Import PyStr.

(* ------------------------------------------------------------------ *)
(** ** Exceptions *)

Inductive exn_class :=
| ValueError | UnicodeError | OSError | TypeError | LookupError | OtherError.

Record exn := Exn { exn_cls : exn_class; exn_msg : pystr }.

(** [except socket.error] ([socket.error] is [OSError]). *)
Definition is_socket_error (e : exn) : bool :=
  match exn_cls e with OSError => true | _ => false end.

Inductive result (A : Type) :=
| Ok (a : A)
| Raise (e : exn).
Arguments Ok {A} a.
Arguments Raise {A} e.

Definition bind {A B} (r : result A) (k : A -> result B) : result B :=
  match r with
  | Ok a => k a
  | Raise e => Raise e
  end.

Notation "x <- c ;; k" := (bind c (fun x => k))
  (at level 61, c at next level, right associativity).

Definition returns {A} (r : result A) : Prop := exists a, r = Ok a.
Definition raises {A} (r : result A) : Prop := exists e, r = Raise e.


(* ------------------------------------------------------------------ *)
(** ** Python arithmetic on floats *)

Module PyFloat.

Local Open Scope float_scope.

(** [a >= b] and [a < b] *)
Definition ge (a b : float) : bool := b <=? a.
Definition lt (a b : float) : bool := a <? b.

(** [min(a, b)] and [max(a, b)]: the first argument is kept unless the
    second is strictly smaller (strictly larger). *)
Definition min (a b : float) : float := if b <? a then b else a.
Definition max (a b : float) : float := if a <? b then b else a.

(** The float of an [int] that is a length or a small multiple of one. *)
Definition of_nat (n : nat) : float := PrimFloat.of_uint63 (Uint63.of_Z (Z.of_nat n)).

End PyFloat.

(* ------------------------------------------------------------------ *)
(** ** Data model: the dictionaries of the pipeline *)

(** [urllib.parse.ParseResult], the fields the pipeline reads. *)
Record ParseResult := {
  scheme : pystr;
  netloc : pystr;
  path : pystr;
  query : pystr
}.

(** [tldextract.ExtractResult] *)
Record ExtractResult := {
  ext_subdomain : pystr;
  ext_domain : pystr;
  ext_suffix : pystr;
  ext_registered_domain : pystr
}.

(** [steps["normalization"]] *)
Record NormalizationResult := {
  original_url : pystr;
  domain : pystr;
  subdomain : pystr;
  suffix : pystr;
  is_ip : bool;
  has_punycode : bool;
  url_length : nat;
  path_length : nat;
  query_length : nat
}.

(** [steps["dns_whois"]].  [creation_date] and [registrar] hold [None] of
    Python when the WHOIS record lacks them, hence the inner [option].
    [domain_age_days] is read by the feature extractor; the lookup never
    sets it. *)
Record DnsWhoisResult := {
  a_records : option (list pystr);
  dns_error : option pystr;
  creation_date : option (option pystr);
  registrar : option (option pystr);
  name_servers : option (list pystr);
  whois_error : option pystr;
  domain_age_days : option Z
}.

(** One entry of [redirect_chain]. *)
Record Hop := {
  hop_url : pystr;
  hop_status : Z;
  hop_location : pystr
}.

(** [steps["http_analysis"]] *)
Record HttpResult := {
  redirect_chain : list Hop;
  final_url : pystr;
  status_code : option Z;
  headers : list (pystr * pystr);
  html_content : pystr;
  http_error : option pystr
}.

Record InputData := { input_type : pystr; input_name : pystr }.

Record FormData := {
  form_action : pystr;
  form_method : pystr;
  form_inputs : list InputData
}.

(** [steps["content_analysis"]].  [meta_description] is read by the text
    extractor; the content analyzer never sets it. *)
Record ContentResult := {
  content_error : option pystr;
  content_analysis_error : option pystr;
  title : option (option pystr);
  forms : option (list FormData);
  external_links : option (list pystr);
  suspicious_elements : option (list pystr);
  has_login_form : option bool;
  content_meta_description : option pystr
}.

(** [steps["token_analysis"]], the key the risk compiler reads. *)
Record TokenResult := {
  suspicious_keywords : option (list pystr)
}.

(** [steps["screenshot_analysis"]], the keys the classifier and the risk
    compiler read. *)
Record ScreenshotResult := {
  page_title : option pystr;
  meta_description : option pystr;
  viewport_content : option pystr;
  phishing_indicators : option (list pystr)
}.

(** [analysis_result["steps"]]: a stage whose key is absent is [None]
    (the readers use [steps.get(key, {})]). *)
Record Steps := {
  normalization : option NormalizationResult;
  dns_whois : option DnsWhoisResult;
  http_analysis : option HttpResult;
  token_analysis : option TokenResult;
  content_analysis : option ContentResult;
  screenshot_analysis : option ScreenshotResult
}.

Record AnalysisResult := {
  job_id : pystr;
  url : pystr;
  steps : Steps
}.

(** Reading a key of a stage dictionary that may itself be absent:
    [steps.get(stage, {}).get(key)] *)
Definition get {S A} (stage : option S) (key : S -> option A) : option A :=
  match stage with
  | Some s => key s
  | None => None
  end.

(** [steps.get(stage, {}).get(key)] for a key the stage always sets. *)
Definition get1 {S A} (stage : option S) (key : S -> A) : option A :=
  match stage with
  | Some s => Some (key s)
  | None => None
  end.

(** Truth value of an optional bool or int, as [if x:] tests it: an absent
    key gives [None], which is false. *)
Definition truthy_bool (x : option bool) : bool :=
  match x with Some b => b | None => false end.
Definition truthy_int (x : option Z) : bool :=
  match x with Some z => negb (Z.eqb z 0) | None => false end.

(** [len(d.get(key, []))] *)
Definition len_or_empty {A} (x : option (list A)) : nat :=
  match x with Some l => List.length l | None => 0 end.

(* ------------------------------------------------------------------ *)
(** ** The network as the stages see it *)

(** What [whois.whois(domain)] returns; a field is [None] when the record's
    value is missing or empty (the source tests its truth value), else the
    text [str] gives for it. *)
Record WhoisRecord := {
  w_creation_date : option pystr;
  w_registrar : option pystr;
  w_name_servers : option (list pystr)
}.

(** An [aiohttp] response: [resp_location] is
    [response.headers.get('Location')], [resp_headers] is
    [dict(response.headers)], [resp_text] the outcome of
    [await response.text()]. *)
Record Response := {
  resp_url : pystr;
  resp_status : Z;
  resp_location : option pystr;
  resp_headers : list (pystr * pystr);
  resp_text : result pystr
}.

(** The client session of one job: the outcomes of its successive
    [session.get] calls, in order.  When the script is exhausted the call
    times out. *)
Definition Session := list (result Response).

Definition session_get (session : Session) : result Response * Session :=
  match session with
  | r :: rest => (r, rest)
  | [] => (Raise (Exn OtherError (lit "timeout")), [])
  end.

(** What [BeautifulSoup(html, 'html.parser')] exposes to the content
    analyzer.  An attribute that the tag lacks is [None]. *)
Record InputTag := { tag_type : option pystr; tag_name : option pystr }.

Record FormTag := {
  tag_action : option pystr;
  tag_method : option pystr;
  tag_inputs : list InputTag
}.

(** [soup_title] is [None] when there is no [<title>]; otherwise it holds
    [soup.title.string], which Python may leave [None]. *)
Record Soup := {
  soup_title : option (option pystr);
  soup_forms : list FormTag
}.

(* ------------------------------------------------------------------ *)
(** ** MLClassifier *)

Module MLClassifier.

Inductive Classification := Legitimate | Suspicious | Phishing.

(** The dictionary [classify] returns. *)
Record ClassificationResult := {
  classification : Classification;
  phishing_score : float;
  confidence : float;
  url_score : float;
  text_score : float;
  features_used : list Z
}.

(** What [__init__] leaves behind.  [_initialize_pretrained_model] fits the
    scaler and the random forest on [np.random.rand(100, 15)] and
    [np.random.randint(0, 2, 100)], drawn from NumPy's global, unseeded
    generator, so the fitted model is an outcome of that draw.
    [predict_phishing] stands for
    [url_model.predict_proba(scaler.transform(x))[0][1]]; [is_trained] is
    false when fitting raised. *)
Record Fitted := {
  is_trained : bool;
  predict_phishing : list Z -> result float
}.

(** [re.search(r'[0-9]{1,3}\.[0-9]{1,3}\.[0-9]{1,3}\.[0-9]{1,3}', s)] *)
Definition digits_1_3 (k : pystr -> bool) (s : pystr) : bool :=
  match s with
  | d1 :: s1 =>
      is_ascii_digit d1 &&
      (k s1 ||
       match s1 with
       | d2 :: s2 =>
           is_ascii_digit d2 &&
           (k s2 ||
            match s2 with
            | d3 :: s3 => is_ascii_digit d3 && k s3
            | [] => false
            end)
       | [] => false
       end)
  | [] => false
  end.

Definition dot (k : pystr -> bool) (s : pystr) : bool :=
  match s with
  | c :: s' => N.eqb c 46 && k s'
  | [] => false
  end.

Definition ipv4_at (s : pystr) : bool :=
  digits_1_3 (dot (digits_1_3 (dot (digits_1_3 (dot
    (digits_1_3 (fun _ => true))))))) s.

Fixpoint search_ipv4 (s : pystr) : bool :=
  ipv4_at s ||
  match s with
  | [] => false
  | _ :: s' => search_ipv4 s'
  end.

(** The keyword table of [_analyze_text_content], in the order of the
    dictionary literal. *)
Definition phishing_keywords : list (pystr * float) :=
  [ (lit "verify", 0.3); (lit "suspended", 0.4); (lit "urgent", 0.3);
    (lit "account", 0.2); (lit "login", 0.25); (lit "update", 0.2);
    (lit "confirm", 0.25); (lit "secure", 0.2); (lit "immediately", 0.3);
    (lit "expire", 0.3); (lit "click here", 0.4); (lit "limited time", 0.3);
    (lit "act now", 0.35); (lit "paypal", 0.3); (lit "amazon", 0.3);
    (lit "apple", 0.3); (lit "microsoft", 0.3); (lit "google", 0.3);
    (lit "bank", 0.4); (lit "credit card", 0.4); (lit "ssn", 0.5);
    (lit "social security", 0.5) ]%float.

Section Classifier.

Variable urlparse : pystr -> result ParseResult.
Variable lower : pystr -> pystr.
(** [str.isdigit] on one character (a Unicode property). *)
Variable isdigit : N -> bool.

Definition str_isdigit (s : pystr) : bool :=
  match s with
  | [] => false
  | _ :: _ => List.forallb isdigit s
  end.

Definition int_of_bool (b : bool) : Z := if b then 1%Z else 0%Z.

(** The statements inside the [try] of [extract_url_features]: fifteen
    [features.append(...)] calls after [urlparse]. *)
Definition url_features_body (url : pystr) (analysis_data : AnalysisResult)
  : result (list Z) :=
  parsed <- urlparse url ;;
  let steps := steps analysis_data in
  let dns_data := dns_whois steps in
  let http_data := http_analysis steps in
  let content_data := content_analysis steps in
  Ok [ Z.of_nat (List.length url);
       Z.of_nat (List.length (netloc parsed));
       Z.of_nat (List.length (path parsed));
       Z.of_nat (List.length (query parsed));
       Z.of_nat (count url 46);
       Z.of_nat (count url 45);
       Z.of_nat (count url 95);
       Z.of_nat (count url 47);
       int_of_bool (str_isdigit (remove_char (netloc parsed) 46));
       int_of_bool (4 <? List.length (split (netloc parsed) 46));
       int_of_bool (contains url (lit "bit.ly") || contains url (lit "tinyurl")
                    || contains url (lit "short"));
       int_of_bool (search_ipv4 url);
       (if truthy_int (get dns_data domain_age_days)
        then match get dns_data domain_age_days with
             | Some d => d
             | None => 365%Z
             end
        else 365%Z);
       Z.of_nat (len_or_empty (get1 http_data redirect_chain));
       int_of_bool (truthy_bool (get content_data has_login_form)) ].

(** <<
        except Exception as e:
            features = [0] * 15
        return np.array(features).reshape(1, -1)
>> *)
Definition extract_url_features (url : pystr) (analysis_data : AnalysisResult)
  : list Z :=
  match url_features_body url analysis_data with
  | Ok features => features
  | Raise _ => List.repeat 0%Z 15
  end.

(** [text_content += s + " "] when [s] is a non-empty string. *)
Definition add_text (s : option pystr) (text_content : pystr) : pystr :=
  match s with
  | Some (c :: s') => text_content ++ (c :: s') ++ lit " "
  | _ => text_content
  end.

Definition flatten {A} (x : option (option A)) : option A :=
  match x with Some y => y | None => None end.

Definition extract_text_features (analysis_data : AnalysisResult) : pystr :=
  let steps := steps analysis_data in
  let screenshot_data := screenshot_analysis steps in
  let content_data := content_analysis steps in
  let text_content := [] in
  let text_content := add_text (get screenshot_data page_title) text_content in
  let text_content := add_text (get screenshot_data meta_description) text_content in
  let text_content :=
    add_text (option_map (List.firstn 500) (get screenshot_data viewport_content))
      text_content in
  let text_content := add_text (flatten (get content_data title)) text_content in
  let text_content :=
    add_text (get content_data content_meta_description) text_content in
  match strip text_content with
  | [] => lit "no content"
  | c :: s => c :: s
  end.

Definition _analyze_text_content (text : pystr) : float :=
  match text with
  | [] => 0%float
  | _ :: _ =>
      let text_lower := lower text in
      let score :=
        List.fold_left
          (fun score kw =>
             if contains text_lower (fst kw) then (score + snd kw)%float
             else score)
          phishing_keywords 0%float in
      PyFloat.min 1 (score / 2)
  end.

Definition _fallback_classification (url : pystr)
    (analysis_data : AnalysisResult) : ClassificationResult :=
  let risk_score := 0%float in
  let risk_score :=
    if 100 <? List.length url then (risk_score + 0.2)%float else risk_score in
  let risk_score :=
    if contains url (lit "bit.ly") || contains url (lit "tinyurl")
    then (risk_score + 0.3)%float else risk_score in
  let risk_score :=
    if search_ipv4 url then (risk_score + 0.4)%float else risk_score in
  let steps := steps analysis_data in
  let redirect_count :=
    len_or_empty (get1 (http_analysis steps) redirect_chain) in
  let risk_score :=
    if 2 <? redirect_count then (risk_score + 0.3)%float else risk_score in
  let risk_score :=
    if truthy_bool (get (content_analysis steps) has_login_form)
    then (risk_score + 0.2)%float else risk_score in
  let '(classification, confidence) :=
    if PyFloat.ge risk_score 0.6 then (Phishing, 75%float)
    else if PyFloat.ge risk_score 0.3 then (Suspicious, 70%float)
    else (Legitimate, 80%float) in
  {| classification := classification;
     phishing_score := risk_score;
     confidence := confidence;
     url_score := risk_score;
     text_score := 0;
     features_used := [] |}.

(** The lines of [classify] that combine the two scores (162-182). *)
Definition combine (url_score text_score : float) (features : list Z)
  : ClassificationResult :=
  let combined_score := (url_score * 0.7 + text_score * 0.3)%float in
  let '(classification, confidence) :=
    if PyFloat.ge combined_score 0.7
    then (Phishing, PyFloat.min 95 (combined_score * 100))
    else if PyFloat.ge combined_score 0.4
    then (Suspicious, PyFloat.min 85 (combined_score * 100))
    else (Legitimate, PyFloat.min 90 ((1 - combined_score) * 100)) in
  {| classification := classification;
     phishing_score := combined_score;
     confidence := confidence;
     url_score := url_score;
     text_score := text_score;
     features_used := features |}.

Definition classify (self : Fitted) (url : pystr)
    (analysis_data : AnalysisResult) : ClassificationResult :=
  if negb (is_trained self) then _fallback_classification url analysis_data
  else
    let url_features := extract_url_features url analysis_data in
    let text_content := extract_text_features analysis_data in
    match predict_phishing self url_features with
    | Raise _ => _fallback_classification url analysis_data
    | Ok url_score =>
        let text_score := _analyze_text_content text_content in
        combine url_score text_score url_features
    end.

End Classifier.

End MLClassifier.

(* ------------------------------------------------------------------ *)
(** ** URLAnalyzer *)

Module URLAnalyzer.

Section Stages.

(** [urllib.parse.urlparse], [urllib.parse.urljoin] *)
Variable urlparse : pystr -> result ParseResult.
Variable urljoin : pystr -> pystr -> result pystr.
(** [tldextract.extract] *)
Variable tldextract : pystr -> ExtractResult.
(** [socket.inet_aton] *)
Variable inet_aton : pystr -> result unit.
(** [idna.decode], applied to the ASCII bytes of a host *)
Variable idna_decode : pystr -> result pystr.
(** [dns.resolver.resolve(domain, 'A')] with each answer rendered by [str],
    and [whois.whois(domain)] *)
Variable dns_resolve : pystr -> result (list pystr).
Variable whois : pystr -> result WhoisRecord.
(** [BeautifulSoup(html, 'html.parser')] and [str.lower] *)
Variable BeautifulSoup : pystr -> result Soup.
Variable lower : pystr -> pystr.

(** [hostname.encode('ascii')] *)
Definition encode_ascii (s : pystr) : result pystr :=
  if is_ascii s then Ok s
  else Raise (Exn UnicodeError (lit "'ascii' codec can't encode character")).

(** <<
    def _is_ip_address(self, hostname):
        try:
            socket.inet_aton(hostname)
            return True
        except socket.error:
            return False
>> *)
Definition _is_ip_address (hostname : pystr) : result bool :=
  match inet_aton hostname with
  | Ok _ => Ok true
  | Raise e => if is_socket_error e then Ok false else Raise e
  end.

(** <<
    def _has_punycode(self, hostname):
        try:
            decoded = idna.decode(hostname.encode('ascii'))
            return decoded != hostname
        except:
            return False
>> *)
Definition _has_punycode (hostname : pystr) : result bool :=
  match (bytes <- encode_ascii hostname ;;
         decoded <- idna_decode bytes ;;
         Ok (negb (PyStr.eqb decoded hostname))) with
  | Ok b => Ok b
  | Raise _ => Ok false
  end.

(** The first statements of [_normalize_and_check_url]: trim, then prepend
    [https://] unless the string starts with [http://] or [https://]. *)
Definition normalized (url : pystr) : pystr :=
  let url := strip url in
  if startswith url (lit "http://") || startswith url (lit "https://")
  then url
  else lit "https://" ++ url.

(** Step 1.  The body has no [try]: an exception of [urlparse], or one of
    [inet_aton] that is not a [socket.error], leaves the function. *)
Definition _normalize_and_check_url (url : pystr)
  : result (pystr * NormalizationResult) :=
  let url := normalized url in
  parsed <- urlparse url ;;
  let extracted := tldextract (netloc parsed) in
  ip <- _is_ip_address (netloc parsed) ;;
  puny <- _has_punycode (netloc parsed) ;;
  Ok (url,
      {| original_url := url;
         domain := ext_domain extracted;
         subdomain := ext_subdomain extracted;
         suffix := ext_suffix extracted;
         is_ip := ip;
         has_punycode := puny;
         url_length := List.length url;
         path_length := List.length (path parsed);
         query_length := List.length (query parsed) |}).

(** Step 2.  [dns_data] starts empty; each of the two lookups sets either
    its own keys or its own error key. *)
Definition empty_dns : DnsWhoisResult :=
  {| a_records := None; dns_error := None; creation_date := None;
     registrar := None; name_servers := None; whois_error := None;
     domain_age_days := None |}.

Definition dns_step (domain : pystr) (d : DnsWhoisResult) : DnsWhoisResult :=
  match dns_resolve domain with
  | Ok answers =>
      {| a_records := Some answers; dns_error := dns_error d;
         creation_date := creation_date d; registrar := registrar d;
         name_servers := name_servers d; whois_error := whois_error d;
         domain_age_days := domain_age_days d |}
  | Raise e =>
      {| a_records := a_records d; dns_error := Some (exn_msg e);
         creation_date := creation_date d; registrar := registrar d;
         name_servers := name_servers d; whois_error := whois_error d;
         domain_age_days := domain_age_days d |}
  end.

Definition whois_step (domain : pystr) (d : DnsWhoisResult) : DnsWhoisResult :=
  match whois domain with
  | Ok w =>
      {| a_records := a_records d; dns_error := dns_error d;
         creation_date := Some (w_creation_date w);
         registrar := Some (w_registrar w);
         name_servers := Some (match w_name_servers w with
                               | Some (n :: ns) => n :: ns
                               | _ => []
                               end);
         whois_error := whois_error d;
         domain_age_days := domain_age_days d |}
  | Raise e =>
      {| a_records := a_records d; dns_error := dns_error d;
         creation_date := creation_date d; registrar := registrar d;
         name_servers := name_servers d; whois_error := Some (exn_msg e);
         domain_age_days := domain_age_days d |}
  end.

Definition _dns_and_whois_lookup (url : pystr) : result DnsWhoisResult :=
  parsed <- urlparse url ;;
  let domain := ext_registered_domain (tldextract (netloc parsed)) in
  Ok (whois_step domain (dns_step domain empty_dns)).

(** Step 4.  The redirect statuses of the loop condition. *)
Definition redirect_statuses : list Z := [301; 302; 303; 307; 308]%Z.

Definition is_redirect (status : Z) : bool :=
  List.existsb (Z.eqb status) redirect_statuses.

Definition initial_http (url : pystr) : HttpResult :=
  {| redirect_chain := []; final_url := url; status_code := None;
     headers := []; html_content := []; http_error := None |}.

Definition append_hop (h : Hop) (d : HttpResult) : HttpResult :=
  {| redirect_chain := redirect_chain d ++ [h]; final_url := final_url d;
     status_code := status_code d; headers := headers d;
     html_content := html_content d; http_error := http_error d |}.

Definition set_http_error (msg : pystr) (d : HttpResult) : HttpResult :=
  {| redirect_chain := redirect_chain d; final_url := final_url d;
     status_code := status_code d; headers := headers d;
     html_content := html_content d; http_error := Some msg |}.

Definition set_final (current_url : pystr) (response : Response)
    (d : HttpResult) : HttpResult :=
  {| redirect_chain := redirect_chain d; final_url := current_url;
     status_code := Some (resp_status response);
     headers := resp_headers response;
     html_content := html_content d; http_error := http_error d |}.

Definition set_html (html : pystr) (d : HttpResult) : HttpResult :=
  {| redirect_chain := redirect_chain d; final_url := final_url d;
     status_code := status_code d; headers := headers d;
     html_content := html; http_error := http_error d |}.

(** The [while] loop.  [budget] is [5 - redirect_count], so the condition
    [redirect_count < 5] is [budget <> 0].  The loop runs inside the [try]:
    it returns the dictionary as mutated so far together with either the
    exception that interrupted it or the response and URL it ended on. *)
Fixpoint follow_redirects (budget : nat) (session : Session)
    (response : Response) (current_url : pystr) (http_data : HttpResult)
  : HttpResult * result (Response * pystr) :=
  match budget with
  | O => (http_data, Ok (response, current_url))
  | S budget' =>
      if is_redirect (resp_status response) then
        match resp_location response with
        | None | Some [] => (http_data, Ok (response, current_url))
        | Some location =>
            let http_data :=
              append_hop {| hop_url := current_url;
                            hop_status := resp_status response;
                            hop_location := location |} http_data in
            match urljoin current_url location with
            | Raise e => (http_data, Raise e)
            | Ok current_url =>
                match session_get session with
                | (Raise e, _) => (http_data, Raise e)
                | (Ok response, session) =>
                    follow_redirects budget' session response current_url
                      http_data
                end
            end
        end
      else (http_data, Ok (response, current_url))
  end.

Definition _http_fetch_and_redirects (session : Session) (url : pystr)
  : HttpResult :=
  let http_data := initial_http url in
  match session_get session with
  | (Raise e, _) => set_http_error (exn_msg e) http_data
  | (Ok response, session) =>
      match follow_redirects 5 session response (resp_url response) http_data with
      | (http_data, Raise e) => set_http_error (exn_msg e) http_data
      | (http_data, Ok (response, current_url)) =>
          let http_data := set_final current_url response http_data in
          if Z.eqb (resp_status response) 200 then
            match resp_text response with
            | Ok html => set_html html http_data
            | Raise e => set_http_error (exn_msg e) http_data
            end
          else http_data
      end
  end.

(** Step 7. *)
Definition or_default (x : option pystr) (d : pystr) : pystr :=
  match x with Some s => s | None => d end.

Definition input_data (t : InputTag) : InputData :=
  {| input_type := or_default (tag_type t) (lit "text");
     input_name := or_default (tag_name t) [] |}.

Definition form_data (f : FormTag) : FormData :=
  {| form_action := or_default (tag_action f) [];
     form_method := lower (or_default (tag_method f) (lit "get"));
     form_inputs := List.map input_data (tag_inputs f) |}.

Definition login_names : list pystr :=
  [lit "username"; lit "email"; lit "password"].

Definition is_login_input (inp : InputData) : bool :=
  List.existsb (PyStr.eqb (lower (input_name inp))) login_names.

Definition only_content_error (msg : pystr) : ContentResult :=
  {| content_error := Some msg; content_analysis_error := None;
     title := None; forms := None; external_links := None;
     suspicious_elements := None; has_login_form := None;
     content_meta_description := None |}.

Definition only_content_analysis_error (msg : pystr) : ContentResult :=
  {| content_error := None; content_analysis_error := Some msg;
     title := None; forms := None; external_links := None;
     suspicious_elements := None; has_login_form := None;
     content_meta_description := None |}.

Definition _content_analysis (html_content : pystr) : ContentResult :=
  match html_content with
  | [] => only_content_error (lit "No HTML content available")
  | _ :: _ =>
      match BeautifulSoup html_content with
      | Raise e => only_content_analysis_error (exn_msg e)
      | Ok soup =>
          let fs := List.map form_data (soup_forms soup) in
          {| content_error := None; content_analysis_error := None;
             title := Some (match soup_title soup with
                            | Some s => s
                            | None => Some []
                            end);
             forms := Some fs;
             external_links := Some [];
             suspicious_elements := Some [];
             has_login_form :=
               Some (List.existsb
                       (fun form => List.existsb is_login_input (form_inputs form))
                       fs);
             content_meta_description := None |}
      end
  end.

End Stages.

(** *** Step 9: the risk compiler *)

Inductive Verdict := Safe | SuspiciousVerdict | Dangerous.

(** The dictionary [_compile_risk_assessment] returns. *)
Record RiskAssessment := {
  verdict : Verdict;
  confidence : float;
  risk_score : float;
  evidence : list pystr
}.

(** The two variables the function mutates. *)
Definition Acc : Type := float * list pystr.

(** [if cond: risk_score += points; evidence.append(text)] *)
Definition rule (cond : bool) (points : float) (text : pystr) (acc : Acc) : Acc :=
  if cond then ((fst acc + points)%float, snd acc ++ [text]) else acc.

(** The body of [for indicator in phishing_indicators]. *)
Definition indicator_step (acc : Acc) (indicator : pystr) : Acc :=
  let risk_score :=
    if contains indicator (lit "external domain") then (fst acc + 16)%float
    else if contains indicator (lit "login form") then (fst acc + 12)%float
    else if contains indicator (lit "external scripts") then (fst acc + 6)%float
    else fst acc in
  (risk_score, snd acc ++ [indicator]).

(** [if risk_score >= 70: ... elif risk_score >= 40: ... else: ...] *)
Definition verdict_of (risk_score : float) : Verdict :=
  if PyFloat.ge risk_score 70 then Dangerous
  else if PyFloat.ge risk_score 40 then SuspiciousVerdict
  else Safe.

(** [min(95, max(60, 100 - abs(risk_score - 50)))] *)
Definition confidence_of (risk_score : float) : float :=
  PyFloat.min 95 (PyFloat.max 60 (100 - PrimFloat.abs (risk_score - 50)))%float.

Section RiskCompiler.

Variable urlparse : pystr -> result ParseResult.
Variable lower : pystr -> pystr.
Variable isdigit : N -> bool.
(** [format(x, '.0f')] *)
Variable format_0f : float -> pystr.

(** The [try] block: the classifier's share of the score and its evidence.
    [self] is the freshly constructed [MLClassifier()]. *)
Definition ml_stage (self : MLClassifier.Fitted) (analysis_result : AnalysisResult)
    (acc : Acc) : result Acc :=
  let ml_result :=
    MLClassifier.classify urlparse lower isdigit self (url analysis_result)
      analysis_result in
  let ml_score := (MLClassifier.phishing_score ml_result * 100)%float in
  let risk_score := (fst acc + ml_score * 0.6)%float in
  let evidence :=
    match MLClassifier.classification ml_result with
    | MLClassifier.Phishing =>
        snd acc ++
        [lit "ML classifier detected phishing patterns (confidence: "
         ++ format_0f (MLClassifier.confidence ml_result) ++ lit "%)"]
    | MLClassifier.Suspicious =>
        snd acc ++
        [lit "ML classifier flagged as suspicious (confidence: "
         ++ format_0f (MLClassifier.confidence ml_result) ++ lit "%)"]
    | MLClassifier.Legitimate => snd acc
    end in
  Ok (risk_score, evidence).

(** The rules between the [try] block and the verdict, in source order. *)
Definition heuristic_rules (steps : Steps) (acc : Acc) : Acc :=
  let url_analysis := normalization steps in
  let acc :=
    rule (truthy_bool (get1 url_analysis is_ip)) 12
      (lit "URL uses IP address instead of domain name") acc in
  let acc :=
    rule (truthy_bool (get1 url_analysis has_punycode)) 8
      (lit "URL contains punycode (internationalized domain)") acc in
  let acc :=
    rule (100 <? match get1 url_analysis url_length with
                 | Some n => n
                 | None => 0
                 end) 4
      (lit "Unusually long URL") acc in
  let http_analysis := http_analysis steps in
  let redirect_count := len_or_empty (get1 http_analysis redirect_chain) in
  let acc :=
    rule (2 <? redirect_count) (PyFloat.of_nat (6 * redirect_count))
      (lit "Multiple redirects detected (" ++ of_nat redirect_count
       ++ lit " redirects)") acc in
  let content_analysis := content_analysis steps in
  let acc :=
    rule (truthy_bool (get content_analysis has_login_form)) 10
      (lit "Contains login form") acc in
  let token_analysis := token_analysis steps in
  let suspicious_count :=
    len_or_empty (get token_analysis suspicious_keywords) in
  let acc :=
    rule (0 <? suspicious_count) (PyFloat.of_nat (4 * suspicious_count))
      (lit "Contains suspicious keywords: "
       ++ join (lit ", ")
            (match get token_analysis suspicious_keywords with
             | Some ks => ks
             | None => []
             end)) acc in
  let screenshot_analysis := screenshot_analysis steps in
  let phishing_indicators :=
    match get screenshot_analysis phishing_indicators with
    | Some l => l
    | None => []
    end in
  List.fold_left indicator_step phishing_indicators acc.

(** Everything appended to [evidence] before the final slice, and the score
    at that point. *)
Definition accumulate (self : MLClassifier.Fitted)
    (analysis_result : AnalysisResult) : Acc :=
  let acc : Acc := (0%float, []) in
  let acc :=
    match ml_stage self analysis_result acc with
    | Ok acc' => acc'
    | Raise _ => acc
    end in
  heuristic_rules (steps analysis_result) acc.

Definition _compile_risk_assessment (self : MLClassifier.Fitted)
    (analysis_result : AnalysisResult) : RiskAssessment :=
  let '(risk_score, evidence) := accumulate self analysis_result in
  {| verdict := verdict_of risk_score;
     confidence := confidence_of risk_score;
     risk_score := risk_score;
     evidence := List.firstn 6 evidence |}.

End RiskCompiler.

End URLAnalyzer.

(* ------------------------------------------------------------------ *)
(** ** A reference platform

    Executable stand-ins for the library calls, used to run the stages on
    concrete inputs.  [urlparse] follows CPython's [urllib.parse] on the
    steps that matter here: scheme, network location up to the first of
    [/?#], the bracket check that raises [ValueError("Invalid IPv6 URL")],
    fragment, query and path parameters.  (The NFKC check of the network
    location and the validation of a bracketed host are left out.) *)

Module Reference.

Definition ascii_lower (c : N) : N :=
  if ((65 <=? c) && (c <=? 90))%N then (c + 32)%N else c.

Definition lower (s : pystr) : pystr := List.map ascii_lower s.

Definition isdigit (c : N) : bool := is_ascii_digit c.

Definition is_ascii_alpha (c : N) : bool :=
  ((65 <=? c) && (c <=? 90) || (97 <=? c) && (c <=? 122))%N.

(** [scheme_chars]: letters, digits and [+-.] *)
Definition is_scheme_char (c : N) : bool :=
  is_ascii_alpha c || is_ascii_digit c
  || N.eqb c 43 || N.eqb c 45 || N.eqb c 46.

Definition mem (c : N) (s : pystr) : bool := List.existsb (N.eqb c) s.

(** [s.split(c, 1)] when [c] occurs in [s]; otherwise [(s, "")]. *)
Fixpoint cut (s : pystr) (c : N) : pystr * pystr :=
  match s with
  | [] => ([], [])
  | x :: s' =>
      if N.eqb x c then ([], s')
      else let '(a, b) := cut s' c in (x :: a, b)
  end.

(** [url.lstrip(_WHATWG_C0_CONTROL_OR_SPACE)] *)
Fixpoint lstrip_c0 (s : pystr) : pystr :=
  match s with
  | [] => []
  | x :: s' => if (x <=? 32)%N then lstrip_c0 s' else s
  end.

Definition remove_unsafe (s : pystr) : pystr :=
  remove_char (remove_char (remove_char s 9) 13) 10.

(** [_splitnetloc(url, 2)] on a string that starts with [//]. *)
Fixpoint until_delim (s : pystr) : pystr * pystr :=
  match s with
  | [] => ([], [])
  | x :: s' =>
      if N.eqb x 47 || N.eqb x 63 || N.eqb x 35 then ([], s)
      else let '(a, b) := until_delim s' in (x :: a, b)
  end.

Definition split_scheme (url : pystr) : pystr * pystr :=
  match url with
  | c :: _ =>
      if mem 58 url && is_ascii_alpha c then
        let '(s, rest) := cut url 58 in
        if List.forallb is_scheme_char s then (lower s, rest) else ([], url)
      else ([], url)
  | [] => ([], url)
  end.

Definition uses_params : list pystr :=
  [ []; lit "ftp"; lit "hdl"; lit "prospero"; lit "http"; lit "imap";
    lit "https"; lit "shttp"; lit "rtsp"; lit "rtspu"; lit "sip"; lit "sips";
    lit "mms"; lit "sftp"; lit "tel" ].

(** [_splitparams(url)[0]]: cut at the first [;] of the last path segment. *)
Fixpoint strip_params (segments : list pystr) : list pystr :=
  match segments with
  | [] => []
  | [last] => [fst (cut last 59)]
  | s :: rest => s :: strip_params rest
  end.

Definition splitparams (url : pystr) : pystr :=
  join (lit "/") (strip_params (split url 47)).

Definition urlparse (url : pystr) : result ParseResult :=
  let url := remove_unsafe (lstrip_c0 url) in
  let '(scheme, url) := split_scheme url in
  netloc_rest <-
    (match url with
     | 47 :: 47 :: rest =>
         let '(netloc, url) := until_delim rest in
         if xorb (mem 91 netloc) (mem 93 netloc)
         then Raise (Exn ValueError (lit "Invalid IPv6 URL"))
         else Ok (netloc, url)
     | _ => Ok ([], url)
     end)%N ;;
  let '(netloc, url) := netloc_rest in
  let url := fst (cut url 35) in
  let '(url, query) := cut url 63 in
  let url :=
    if List.existsb (PyStr.eqb scheme) uses_params && mem 59 url
    then splitparams url else url in
  Ok {| scheme := scheme; netloc := netloc; path := url; query := query |}.

(** [urljoin] restricted to absolute locations, which replace the base. *)
Definition urljoin (base location : pystr) : result pystr :=
  _ <- urlparse base ;;
  _ <- urlparse location ;;
  Ok location.

(** An excerpt of the public suffix list. *)
Definition public_suffixes : list pystr :=
  [ lit "com"; lit "org"; lit "net"; lit "se"; lit "de"; lit "uk";
    lit "co.uk" ].

Definition is_public_suffix (s : pystr) : bool :=
  List.existsb (PyStr.eqb (lower s)) public_suffixes.

(** The text after the last [c] of [s] ([s.rpartition(c)[2]]). *)
Fixpoint after_last (s : pystr) (c : N) : pystr :=
  match s with
  | [] => []
  | x :: s' =>
      if mem c s' then after_last s' c
      else if N.eqb x c then s' else x :: s'
  end.

(** A dotted quad of numbers up to 255. *)
Definition looks_like_ip (host : pystr) : bool :=
  let parts := split host 46 in
  (List.length parts =? 4)
  && List.forallb
       (fun p =>
          match p with
          | [] => false
          | _ :: _ =>
              List.forallb is_ascii_digit p && (List.length p <=? 3)
              && (List.fold_left (fun n d => (10 * n + (d - 48))%N) p 0 <=? 255)%N
          end) parts.

(** [tldextract.extract] with [public_suffixes] as its suffix list, on a
    network location: user information and port are dropped; a dotted quad
    is a domain without suffix; otherwise the suffix is the longest listed
    ending, the domain the label before it, and [registered_domain] is
    empty when no listed suffix ends the host. *)
Definition tldextract (netloc : pystr) : ExtractResult :=
  let host := fst (cut (after_last netloc 64) 58) in
  let result subs domain suffix :=
    {| ext_subdomain := join (lit ".") (List.rev subs);
       ext_domain := domain;
       ext_suffix := suffix;
       ext_registered_domain :=
         match suffix, domain with
         | _ :: _, _ :: _ => domain ++ lit "." ++ suffix
         | _, _ => []
         end |} in
  if looks_like_ip host then result [] host []
  else
    match List.rev (split host 46) with
    | l1 :: l2 :: rest =>
        if is_public_suffix (l2 ++ lit "." ++ l1) then
          match rest with
          | domain :: subs => result subs domain (l2 ++ lit "." ++ l1)
          | [] => result [] [] (l2 ++ lit "." ++ l1)
          end
        else if is_public_suffix l1 then result rest l2 l1
        else result (l2 :: rest) l1 []
    | [l1] => if is_public_suffix l1 then result [] [] l1 else result [] l1 []
    | [] => result [] [] []
    end.

(** [socket.inet_aton] on dotted decimal text: accepted when the string
    consists of one to four non-empty runs of digits; a NUL character is a
    [ValueError], anything else an [OSError]. *)
Definition inet_aton (s : pystr) : result unit :=
  if mem 0 s then Raise (Exn ValueError (lit "embedded null character"))
  else
    let parts := split s 46 in
    if (List.length parts <=? 4)
       && List.forallb (fun p => match p with
                                 | [] => false
                                 | _ => List.forallb is_ascii_digit p
                                 end) parts
    then Ok tt
    else Raise (Exn OSError (lit "illegal IP address string passed to inet_aton")).

(** [idna.decode] on two kinds of host: the A-label form of a German city
    name, and plain lower-case letter-digit-hyphen hosts, which decode to
    themselves. *)
Definition is_ldh (c : N) : bool :=
  is_ascii_alpha c || is_ascii_digit c || N.eqb c 45 || N.eqb c 46.

Definition idna_decode (bytes : pystr) : result pystr :=
  if PyStr.eqb bytes (lit "xn--mnchen-3ya.de")
  then Ok (lit "m" ++ [252%N] ++ lit "nchen.de")
  else match bytes with
       | [] => Raise (Exn UnicodeError (lit "Empty domain"))
       | _ :: _ =>
           if List.forallb is_ldh bytes then Ok (lower bytes)
           else Raise (Exn UnicodeError (lit "Codepoint not allowed"))
       end.

(** [format(x, '.0f')]: the decimal digits of [x] rounded to the nearest
    integer, ties to even. *)
Definition round_half_even (m : positive) (e : Z) : N :=
  if (0 <=? e)%Z then (N.pos m * 2 ^ Z.to_N e)%N
  else
    let d := (2 ^ Z.to_N (- e))%N in
    let q := (N.pos m / d)%N in
    let r := (N.pos m mod d)%N in
    match (2 * r ?= d)%N with
    | Lt => q
    | Gt => (q + 1)%N
    | Eq => if N.even q then q else (q + 1)%N
    end.

Definition format_0f (x : float) : pystr :=
  let sign (s : bool) := if s then lit "-" else [] in
  match Prim2SF x with
  | S754_zero s => sign s ++ lit "0"
  | S754_infinity s => sign s ++ lit "inf"
  | S754_nan => lit "nan"
  | S754_finite s m e =>
      sign s ++ lit (NilEmpty.string_of_uint (N.to_uint (round_half_even m e)))
  end.

(** A resolver and a WHOIS client for one scenario: [example.com] has one
    address and no other name exists; the WHOIS server does not answer. *)
Definition dns_resolve (domain : pystr) : result (list pystr) :=
  if PyStr.eqb (lower domain) (lit "example.com")
  then Ok [lit "93.184.216.34"]
  else Raise (Exn OtherError
                (lit "The DNS query name does not exist: " ++ domain ++ lit ".")).

Definition whois (domain : pystr) : result WhoisRecord :=
  Raise (Exn OSError (lit "timed out")).

(** [BeautifulSoup(html, 'html.parser')] on markup made of text and of
    tags whose attribute values are quoted or plain words, without
    comments, declarations, character references or [script] and [style]
    content.  Tag and attribute names are lower-cased; of a repeated
    attribute the last value is kept; a void element or a tag written
    [<x/>] has no content; an end tag closes the most recent open tag of
    its name with everything opened inside it, and is ignored when there is
    none. *)
Inductive Token :=
| StartTag (name : pystr) (attrs : list (pystr * pystr)) (selfclosing : bool)
| EndTag (name : pystr)
| Text (data : pystr).

Definition is_html_space (c : N) : bool :=
  N.eqb c 32 || N.eqb c 9 || N.eqb c 10 || N.eqb c 12 || N.eqb c 13.

Definition is_quote (c : N) : bool := N.eqb c 34 || N.eqb c 39.

(** The attributes of a start tag, scanned character by character. *)
Inductive AttrState :=
| Idle
| Key (key : pystr)
| AfterEq (key : pystr)
| Quoted (key : pystr) (quote : N) (value : pystr)
| Plain (key : pystr) (value : pystr).

Definition attr_step (st : AttrState * list (pystr * pystr)) (c : N)
  : AttrState * list (pystr * pystr) :=
  let '(state, found) := st in
  match state with
  | Idle =>
      if is_html_space c || N.eqb c 47 then (Idle, found) else (Key [c], found)
  | Key key =>
      if N.eqb c 61 then (AfterEq key, found)
      else if is_html_space c || N.eqb c 47
      then (Idle, found ++ [(lower key, [])])
      else (Key (key ++ [c]), found)
  | AfterEq key =>
      if is_quote c then (Quoted key c [], found)
      else if is_html_space c then (AfterEq key, found)
      else (Plain key [c], found)
  | Quoted key quote value =>
      if N.eqb c quote then (Idle, found ++ [(lower key, value)])
      else (Quoted key quote (value ++ [c]), found)
  | Plain key value =>
      if is_html_space c then (Idle, found ++ [(lower key, value)])
      else (Plain key (value ++ [c]), found)
  end.

Definition attributes (text : pystr) : list (pystr * pystr) :=
  match List.fold_left attr_step text (Idle, []) with
  | (Key key, found) => found ++ [(lower key, [])]
  | (Plain key value, found) => found ++ [(lower key, value)]
  | (_, found) => found
  end.

Fixpoint name_and_rest (text : pystr) : pystr * pystr :=
  match text with
  | [] => ([], [])
  | c :: text' =>
      if is_html_space c || N.eqb c 47 then ([], text)
      else let '(name, rest) := name_and_rest text' in (c :: name, rest)
  end.

(** The token of the text between [<] and [>]. *)
Definition tag_token (text : pystr) : Token :=
  match text with
  | 47%N :: name => EndTag (lower (fst (name_and_rest name)))
  | _ =>
      let '(name, rest) := name_and_rest text in
      StartTag (lower name) (attributes rest)
        (match List.rev text with 47%N :: _ => true | _ => false end)
  end.

(** The scanner: outside a tag it collects text up to [<]; inside it
    collects up to the first [>] that is not in a quoted value. *)
Record Scanner := {
  sc_in_tag : bool;
  sc_quote : option N;
  sc_buffer : pystr;
  sc_tokens : list Token
}.

Definition flush_text (buffer : pystr) (tokens : list Token) : list Token :=
  match buffer with
  | [] => tokens
  | _ :: _ => tokens ++ [Text buffer]
  end.

Definition scan_step (st : Scanner) (c : N) : Scanner :=
  let keep quote :=
    {| sc_in_tag := sc_in_tag st; sc_quote := quote;
       sc_buffer := sc_buffer st ++ [c]; sc_tokens := sc_tokens st |} in
  if sc_in_tag st then
    match sc_quote st with
    | Some q => if N.eqb c q then keep None else keep (Some q)
    | None =>
        if N.eqb c 62 then
          {| sc_in_tag := false; sc_quote := None; sc_buffer := [];
             sc_tokens := sc_tokens st ++ [tag_token (sc_buffer st)] |}
        else if is_quote c && mem 61 (sc_buffer st) then keep (Some c)
        else keep None
    end
  else if N.eqb c 60 then
    {| sc_in_tag := true; sc_quote := None; sc_buffer := [];
       sc_tokens := flush_text (sc_buffer st) (sc_tokens st) |}
  else keep None.

Definition tokens (html : pystr) : list Token :=
  let st := List.fold_left scan_step html
              {| sc_in_tag := false; sc_quote := None; sc_buffer := [];
                 sc_tokens := [] |} in
  if sc_in_tag st then sc_tokens st
  else flush_text (sc_buffer st) (sc_tokens st).

Definition void_elements : list pystr :=
  [ lit "area"; lit "base"; lit "br"; lit "col"; lit "embed"; lit "hr";
    lit "img"; lit "input"; lit "link"; lit "meta"; lit "param";
    lit "source"; lit "track"; lit "wbr" ].

(** [attrs.get(key)], the last value of a repeated attribute *)
Definition attribute (key : pystr) (attrs : list (pystr * pystr)) : option pystr :=
  option_map snd (List.find (fun kv => PyStr.eqb (fst kv) key) (List.rev attrs)).

(** The first [<title>]: not seen, open with the text and tag children
    seen so far, or closed with its [.string]. *)
Inductive TitleState :=
| NoTitle
| TitleOpen (texts : list pystr) (tags : bool)
| TitleDone (string : option pystr).

Definition title_string (texts : list pystr) (tags : bool) : option pystr :=
  match texts, tags with
  | [t], false => Some t
  | _, _ => None
  end.

(** The tree under construction: the open tags, innermost first, each form
    with its position in [forms]. *)
Record Builder := {
  open_tags : list (pystr * option nat);
  forms_found : list FormTag;
  title_found : TitleState
}.

Definition add_input (input : InputTag) (open : list (pystr * option nat))
    (forms : list FormTag) : list FormTag :=
  List.map
    (fun numbered =>
       let '(i, form) := numbered in
       if List.existsb
            (fun t => match snd t with Some j => Nat.eqb i j | None => false end)
            open
       then {| tag_action := tag_action form; tag_method := tag_method form;
               tag_inputs := tag_inputs form ++ [input] |}
       else form)
    (List.combine (List.seq 0 (List.length forms)) forms).

(** The open tags after the end tag of [name]. *)
Fixpoint pop_to_tag (name : pystr) (open : list (pystr * option nat))
  : list (pystr * option nat) :=
  match open with
  | [] => []
  | t :: rest => if PyStr.eqb (fst t) name then rest else pop_to_tag name rest
  end.

Definition build_step (b : Builder) (token : Token) : Builder :=
  match token with
  | Text data =>
      {| open_tags := open_tags b; forms_found := forms_found b;
         title_found :=
           match title_found b, open_tags b with
           | TitleOpen texts tags, (name, _) :: _ =>
               if PyStr.eqb name (lit "title")
               then TitleOpen (texts ++ [data]) tags
               else title_found b
           | state, _ => state
           end |}
  | StartTag name attrs selfclosing =>
      let title :=
        match title_found b with
        | NoTitle =>
            if PyStr.eqb name (lit "title")
            then (if selfclosing then TitleDone None else TitleOpen [] false)
            else NoTitle
        | TitleOpen texts _ => TitleOpen texts true
        | TitleDone string => TitleDone string
        end in
      let forms :=
        if PyStr.eqb name (lit "form")
        then forms_found b
             ++ [ {| tag_action := attribute (lit "action") attrs;
                     tag_method := attribute (lit "method") attrs;
                     tag_inputs := [] |} ]
        else if PyStr.eqb name (lit "input")
        then add_input {| tag_type := attribute (lit "type") attrs;
                          tag_name := attribute (lit "name") attrs |}
               (open_tags b) (forms_found b)
        else forms_found b in
      let open :=
        if selfclosing || List.existsb (PyStr.eqb name) void_elements
        then open_tags b
        else (name,
              if PyStr.eqb name (lit "form")
              then Some (List.length (forms_found b)) else None)
             :: open_tags b in
      {| open_tags := open; forms_found := forms; title_found := title |}
  | EndTag name =>
      if List.existsb (fun t => PyStr.eqb (fst t) name) (open_tags b) then
        {| open_tags := pop_to_tag name (open_tags b);
           forms_found := forms_found b;
           title_found :=
             match title_found b with
             | TitleOpen texts tags =>
                 if List.existsb (fun t => PyStr.eqb (fst t) (lit "title"))
                      (pop_to_tag name (open_tags b))
                 then TitleOpen texts tags
                 else TitleDone (title_string texts tags)
             | state => state
             end |}
      else b
  end.

Definition BeautifulSoup (html : pystr) : result Soup :=
  let b := List.fold_left build_step (tokens html)
             {| open_tags := []; forms_found := []; title_found := NoTitle |} in
  Ok {| soup_title :=
          match title_found b with
          | NoTitle => None
          | TitleOpen texts tags => Some (title_string texts tags)
          | TitleDone string => Some string
          end;
        soup_forms := forms_found b |}.

End Reference.

(* ------------------------------------------------------------------ *)
(** ** Specification-side definitions

    What the properties below compare the code with. *)

Module TraceSpec.

Section Expected.

Variable urljoin : pystr -> pystr -> result pystr.

(** The hops that a run of redirect responses should leave in
    [redirect_chain], and the URL it leads to, when every response of the
    run has a redirect status and a non-empty [Location] that [urljoin]
    resolves.  [None] when the run is not of that shape. *)
Fixpoint expected_trace (current_url : pystr) (redirects : list Response)
  : option (list Hop * pystr) :=
  match redirects with
  | [] => Some ([], current_url)
  | r :: rest =>
      if URLAnalyzer.is_redirect (resp_status r) then
        match resp_location r with
        | Some (c :: l) =>
            match urljoin current_url (c :: l) with
            | Ok next =>
                match expected_trace next rest with
                | Some (hops, final) =>
                    Some ({| hop_url := current_url;
                             hop_status := resp_status r;
                             hop_location := c :: l |} :: hops, final)
                | None => None
                end
            | Raise _ => None
            end
        | _ => None
        end
      else None
  end.

End Expected.

(** A response that ends the loop by itself: its status is not a redirect
    status, or it has no (or an empty) [Location]. *)
Definition stops (r : Response) : bool :=
  negb (URLAnalyzer.is_redirect (resp_status r))
  || match resp_location r with
     | None | Some [] => true
     | Some (_ :: _) => false
     end.

(** The URL tracing starts from: [str(response.url)] of the first
    response. *)
Definition first_url (redirects : list Response) (last : Response) : pystr :=
  resp_url (List.hd last redirects).

Definition extend_chain (hops : list Hop) (d : HttpResult) : HttpResult :=
  {| redirect_chain := redirect_chain d ++ hops; final_url := final_url d;
     status_code := status_code d; headers := headers d;
     html_content := html_content d; http_error := http_error d |}.

End TraceSpec.

Module StageSpec.

Definition present {A} (x : option A) : bool :=
  match x with Some _ => true | None => false end.

Definition nonempty {A} (l : list A) : bool :=
  match l with [] => false | _ :: _ => true end.

(** A stage dictionary "carries an error" when one of its error keys is
    set, and "carries payload" when one of its data keys holds data. *)
Definition dns_has_error (d : DnsWhoisResult) : bool :=
  present (dns_error d) || present (whois_error d).

Definition dns_has_payload (d : DnsWhoisResult) : bool :=
  present (a_records d) || present (creation_date d)
  || present (registrar d) || present (name_servers d).

Definition http_has_error (d : HttpResult) : bool := present (http_error d).

(** [final_url] starts as the requested URL, so it is not counted. *)
Definition http_has_payload (d : HttpResult) : bool :=
  nonempty (redirect_chain d) || present (status_code d)
  || nonempty (headers d) || nonempty (html_content d).

Definition content_has_error (c : ContentResult) : bool :=
  present (content_error c) || present (content_analysis_error c).

Definition content_has_payload (c : ContentResult) : bool :=
  present (title c) || present (forms c) || present (external_links c)
  || present (suspicious_elements c) || present (has_login_form c).

(** Exactly one of the two. *)
Definition exclusive (has_error has_payload : bool) : bool :=
  xorb has_error has_payload.

End StageSpec.

Module RiskSpec.

Local Open Scope float_scope.

(** One rule of the risk compiler: whether it fires, what it adds to the
    score, and the evidence string it appends. *)
Record Rule := {
  triggered : bool;
  points : option float;
  text : pystr
}.

(** [None] adds nothing to the score. *)
Definition add_points (score : float) (p : option float) : float :=
  match p with
  | Some x => score + x
  | None => score
  end.

(** Points of a dynamic indicator: the first of the three substrings that
    occurs in it decides; an indicator with none of them adds no points. *)
Definition indicator_points (indicator : pystr) : option float :=
  if contains indicator (lit "external domain") then Some 16
  else if contains indicator (lit "login form") then Some 12
  else if contains indicator (lit "external scripts") then Some 6
  else None.

Definition keywords_of (steps : Steps) : list pystr :=
  match get (token_analysis steps) suspicious_keywords with
  | Some ks => ks
  | None => []
  end.

Definition hop_count (steps : Steps) : nat :=
  len_or_empty (get1 (http_analysis steps) redirect_chain).

Definition indicators_of (steps : Steps) : list pystr :=
  match get (screenshot_analysis steps) phishing_indicators with
  | Some l => l
  | None => []
  end.

(** The fixed rules, in the stated order. *)
Definition fixed_rules (steps : Steps) : list Rule :=
  [ {| triggered := truthy_bool (get1 (normalization steps) is_ip);
       points := Some 12%float;
       text := lit "URL uses IP address instead of domain name" |};
    {| triggered := truthy_bool (get1 (normalization steps) has_punycode);
       points := Some 8%float;
       text := lit "URL contains punycode (internationalized domain)" |};
    {| triggered := Nat.ltb 100 match get1 (normalization steps) url_length with
                           | Some n => n
                           | None => 0
                           end;
       points := Some 4%float;
       text := lit "Unusually long URL" |};
    {| triggered := Nat.ltb 2 (hop_count steps);
       points := Some (PyFloat.of_nat (6 * hop_count steps));
       text := lit "Multiple redirects detected (" ++ of_nat (hop_count steps)
               ++ lit " redirects)" |};
    {| triggered := truthy_bool (get (content_analysis steps) has_login_form);
       points := Some 10%float;
       text := lit "Contains login form" |};
    {| triggered := Nat.ltb 0 (List.length (keywords_of steps));
       points := Some (PyFloat.of_nat (4 * List.length (keywords_of steps)));
       text := lit "Contains suspicious keywords: "
               ++ join (lit ", ") (keywords_of steps) |} ].

(** Every dynamic indicator adds its own text, with the points of the
    substring it matches. *)
Definition indicator_rules (steps : Steps) : list Rule :=
  List.map (fun indicator =>
              {| triggered := true;
                 points := indicator_points indicator;
                 text := indicator |})
    (indicators_of steps).

(** The rules that fire, in evaluation order. *)
Definition contributions (steps : Steps) : list Rule :=
  List.filter triggered (fixed_rules steps ++ indicator_rules steps).

Section Classifier.

Variable format_0f : float -> pystr.

(** The classifier's share: its score in percent, times 0.6. *)
Definition classifier_share (ml : MLClassifier.ClassificationResult) : float :=
  MLClassifier.phishing_score ml * 100 * 0.6.

Definition classifier_evidence (ml : MLClassifier.ClassificationResult)
  : list pystr :=
  match MLClassifier.classification ml with
  | MLClassifier.Phishing =>
      [lit "ML classifier detected phishing patterns (confidence: "
       ++ format_0f (MLClassifier.confidence ml) ++ lit "%)"]
  | MLClassifier.Suspicious =>
      [lit "ML classifier flagged as suspicious (confidence: "
       ++ format_0f (MLClassifier.confidence ml) ++ lit "%)"]
  | MLClassifier.Legitimate => []
  end.

End Classifier.

(** Running a list of rules on the score and the evidence list. *)
Definition run_rules (rules : list Rule) (acc : URLAnalyzer.Acc)
  : URLAnalyzer.Acc :=
  List.fold_left
    (fun acc r => (add_points (fst acc) (points r), snd acc ++ [text r]))
    (List.filter triggered rules) acc.

(** The score: the classifier's share and then each contribution, added
    from zero in that order. *)
Definition risk_score (share : float) (steps : Steps) : float :=
  List.fold_left (fun score r => add_points score (points r))
    (contributions steps) (0 + share).

(** The evidence before the cap: the classifier's, then one string per
    contribution. *)
Definition all_evidence (classifier : list pystr) (steps : Steps) : list pystr :=
  classifier ++ List.map text (contributions steps).

End RiskSpec.

(* ------------------------------------------------------------------ *)
(** ** Concrete scenarios *)

Module Scenario.

Local Open Scope string_scope.

(** A classifier whose model answers [p] on every input. *)
Definition model (p : float) : MLClassifier.Fitted :=
  {| MLClassifier.is_trained := true;
     MLClassifier.predict_phishing := fun _ => Ok p |}.

(** A classifier whose fitting failed. *)
Definition untrained (p : float) : MLClassifier.Fitted :=
  {| MLClassifier.is_trained := false;
     MLClassifier.predict_phishing := fun _ => Ok p |}.

Definition no_steps : Steps :=
  {| normalization := None; dns_whois := None; http_analysis := None;
     token_analysis := None; content_analysis := None;
     screenshot_analysis := None |}.

(** An analysis record with no stage results. *)
Definition quiet : AnalysisResult :=
  {| job_id := lit "job-1"; url := lit "http://example.com/"; steps := no_steps |}.

Definition hop (from to : string) : Hop :=
  {| hop_url := lit from; hop_status := 302; hop_location := lit to |}.

(** An analysis record on which every fixed rule fires and two dynamic
    indicators are present. *)
Definition busy : AnalysisResult :=
  {| job_id := lit "job-2";
     url := lit "http://192.168.0.5/login";
     steps :=
       {| normalization :=
            Some {| original_url := lit "http://192.168.0.5/login";
                    domain := lit "192.168.0.5"; subdomain := []; suffix := [];
                    is_ip := true; has_punycode := true; url_length := 120;
                    path_length := 6; query_length := 0 |};
          dns_whois := None;
          http_analysis :=
            Some {| redirect_chain :=
                      [ hop "http://192.168.0.5/login" "http://a.example/";
                        hop "http://a.example/" "http://b.example/";
                        hop "http://b.example/" "http://c.example/" ];
                    final_url := lit "http://c.example/";
                    status_code := Some 200%Z;
                    headers := [];
                    html_content := lit "<html></html>";
                    http_error := None |};
          token_analysis :=
            Some {| suspicious_keywords := Some [lit "login"; lit "secure"] |};
          content_analysis :=
            Some {| content_error := None; content_analysis_error := None;
                    title := Some (Some (lit "Sign in"));
                    forms := Some []; external_links := Some [];
                    suspicious_elements := Some [];
                    has_login_form := Some true;
                    content_meta_description := None |};
          screenshot_analysis :=
            Some {| page_title := Some (lit "Sign in");
                    meta_description := None;
                    viewport_content := None;
                    phishing_indicators :=
                      Some [ lit "Contains login form with email/password fields";
                             lit "Form posts to external domain" ] |} |} |}.

Definition response (u : string) (status : Z) (location : option string)
    (body : result pystr) : Response :=
  {| resp_url := lit u; resp_status := status;
     resp_location := option_map lit location;
     resp_headers :=
       match location with
       | Some l => [(lit "Location", lit l)]
       | None => [(lit "Content-Type", lit "text/html")]
       end;
     resp_text := body |}.

(** Two redirects and a page. *)
Definition two_redirects : list Response :=
  [ response "http://a.example/" 301 (Some "http://b.example/") (Ok []);
    response "http://b.example/" 302 (Some "https://b.example/home") (Ok []) ].

Definition page : Response :=
  response "https://b.example/home" 200 None (Ok (lit "<html>home</html>")).

(** A server that redirects to itself. *)
Definition loop_response : Response :=
  response "http://loop.example/" 307 (Some "http://loop.example/") (Ok []).

Definition loop_hop : Hop :=
  {| hop_url := lit "http://loop.example/"; hop_status := 307;
     hop_location := lit "http://loop.example/" |}.

(** The scenario of the spec's last testable property: an IP-literal host,
    no redirects, a login form and the keyword [login]. *)
Definition ip_login : AnalysisResult :=
  {| job_id := lit "job-3";
     url := lit "http://192.168.0.5/login";
     steps :=
       {| normalization :=
            Some {| original_url := lit "http://192.168.0.5/login";
                    domain := lit "192.168.0.5"; subdomain := []; suffix := [];
                    is_ip := true; has_punycode := false; url_length := 24;
                    path_length := 6; query_length := 0 |};
          dns_whois := None;
          http_analysis :=
            Some {| redirect_chain := [];
                    final_url := lit "http://192.168.0.5/login";
                    status_code := Some 200%Z; headers := [];
                    html_content := lit "<form></form>"; http_error := None |};
          token_analysis := Some {| suspicious_keywords := Some [lit "login"] |};
          content_analysis :=
            Some {| content_error := None; content_analysis_error := None;
                    title := Some (Some []); forms := Some [];
                    external_links := Some []; suspicious_elements := Some [];
                    has_login_form := Some true;
                    content_meta_description := None |};
          screenshot_analysis := None |} |}.

(** A redirect, then the connection drops. *)
Definition dropped_session : Session :=
  [ Ok (response "http://a.example/" 301 (Some "http://b.example/") (Ok []));
    Raise (Exn OSError (lit "Connection reset by peer")) ].

End Scenario.

Set Warnings "-abstract-large-number".

(* ------------------------------------------------------------------ *)
(** ** ScreenshotService ([services/screenshot_service.py]) *)

Module ScreenshotService.

(** One element of the lists the page reports. *)
Record NetworkRequest := {
  req_url : pystr;
  req_method : pystr;
  req_resource_type : pystr
}.

Record ConsoleLog := { log_type : pystr; log_text : pystr }.

Record JsError := { err_message : pystr; err_stack : option pystr }.

(** A form and its inputs as the page script returns them; a key that the
    object lacks is [None]. *)
Record FormInput := { fi_type : option pystr; fi_name : option pystr }.

Record DetectedForm := {
  df_action : option pystr;
  df_method : option pystr;
  df_inputs : option (list FormInput)
}.

(** [res_external] is the truth value of the [external] key. *)
Record Resource := {
  res_type : option pystr;
  res_url : pystr;
  res_external : bool
}.

(** What the statements of the [try] block obtain from the page when none
    of them raises.  [obs_dom_content] and [obs_meta_description] may be
    [None] of Python. *)
Record Observation := {
  obs_network_requests : list NetworkRequest;
  obs_console_logs : list ConsoleLog;
  obs_js_errors : list JsError;
  obs_load_time : Z;
  obs_screenshot_base64 : pystr;
  obs_title : pystr;
  obs_meta_description : option pystr;
  obs_dom_content : option pystr;
  obs_forms : list DetectedForm;
  obs_external_resources : list Resource;
  obs_viewport_text : pystr
}.

(** How the [try] block ends: it reaches [result.update], or
    [asyncio.TimeoutError] is raised, or another exception is.  [page]
    tells whether [self.context.new_page()] had returned by then. *)
Inductive BodyOutcome :=
| Loaded (o : Observation)
| TimedOut (page : bool)
| Failed (page : bool) (e : exn).

(** The dictionary [capture_screenshot_and_analyze] returns. *)
Record Capture := {
  screenshot_base64 : option pystr;
  screenshot_path : option pystr;
  dom_snapshot : option pystr;
  network_requests : list NetworkRequest;
  console_logs : list ConsoleLog;
  forms_detected : list DetectedForm;
  external_resources : list Resource;
  javascript_errors : list JsError;
  cap_page_title : pystr;
  cap_meta_description : option pystr;
  cap_viewport_content : pystr;
  load_time_ms : Z;
  cap_error : option pystr
}.

(** [result] as initialised at the top of the function. *)
Definition initial_result : Capture :=
  {| screenshot_base64 := None; screenshot_path := None; dom_snapshot := None;
     network_requests := []; console_logs := []; forms_detected := [];
     external_resources := []; javascript_errors := [];
     cap_page_title := []; cap_meta_description := Some [];
     cap_viewport_content := []; load_time_ms := 0; cap_error := None |}.

(** [result.update({...})] *)
Definition updated (o : Observation) (r : Capture) : Capture :=
  {| screenshot_base64 := Some (obs_screenshot_base64 o);
     screenshot_path := screenshot_path r;
     dom_snapshot := Some (match obs_dom_content o with
                           | Some (c :: s) => List.firstn 10000 (c :: s)
                           | _ => []
                           end);
     network_requests := List.firstn 50 (obs_network_requests o);
     console_logs := List.firstn 20 (obs_console_logs o);
     forms_detected := obs_forms o;
     external_resources := List.firstn 30 (obs_external_resources o);
     javascript_errors := List.firstn 10 (obs_js_errors o);
     cap_page_title := obs_title o;
     cap_meta_description := obs_meta_description o;
     cap_viewport_content := obs_viewport_text o;
     load_time_ms := obs_load_time o;
     cap_error := cap_error r |}.

Definition with_error (msg : pystr) (r : Capture) : Capture :=
  {| screenshot_base64 := screenshot_base64 r;
     screenshot_path := screenshot_path r;
     dom_snapshot := dom_snapshot r;
     network_requests := network_requests r;
     console_logs := console_logs r;
     forms_detected := forms_detected r;
     external_resources := external_resources r;
     javascript_errors := javascript_errors r;
     cap_page_title := cap_page_title r;
     cap_meta_description := cap_meta_description r;
     cap_viewport_content := cap_viewport_content r;
     load_time_ms := load_time_ms r;
     cap_error := Some msg |}.

(** [capture_screenshot_and_analyze].  [body] is how the [try] block
    ends; [close] is the outcome of [page.close()] in the [finally], which
    runs only when the page exists and whose exception leaves the
    function. *)
Definition capture_screenshot_and_analyze (body : BodyOutcome)
    (close : result unit) : result Capture :=
  let result := initial_result in
  let '(result, page) :=
    match body with
    | Loaded o => (updated o result, true)
    | TimedOut page => (with_error (lit "Page load timeout") result, page)
    | Failed page e => (with_error (exn_msg e) result, page)
    end in
  if page then (_ <- close ;; Ok result) else Ok result.

End ScreenshotService.

(* ------------------------------------------------------------------ *)
(** ** URLAnalyzer: the remaining stages *)

Module Stages.

(** *** Step 3: TLS certificate *)

(** What [ssock.getpeercert()] returns, the keys the stage reads; a key
    the dictionary lacks is [None].  A name is a sequence of relative
    distinguished names, each a sequence of (attribute, value) pairs. *)
Record Certificate := {
  cert_subject : option (list (list (pystr * pystr)));
  cert_issuer : option (list (list (pystr * pystr)));
  cert_notBefore : option pystr;
  cert_notAfter : option pystr;
  cert_serialNumber : option pystr
}.

(** A Python [dict] with string keys, in insertion order. *)
Definition Dict (V : Type) := list (pystr * V).

(** [d[k] = v] *)
Fixpoint dict_set {V} (k : pystr) (v : V) (d : Dict V) : Dict V :=
  match d with
  | [] => [(k, v)]
  | (k', v') :: d' =>
      if PyStr.eqb k' k then (k', v) :: d' else (k', v') :: dict_set k v d'
  end.

(** [d.get(k)] *)
Fixpoint dict_get {V} (k : pystr) (d : Dict V) : option V :=
  match d with
  | [] => None
  | (k', v') :: d' => if PyStr.eqb k' k then Some v' else dict_get k d'
  end.

(** [dict(pairs)] *)
Definition dict_of {V} (pairs : list (pystr * V)) : Dict V :=
  List.fold_left (fun d kv => dict_set (fst kv) (snd kv) d) pairs [].

(** [d[key]] on the certificate dictionary *)
Definition item {A} (key : string) (x : option A) : result A :=
  match x with
  | Some a => Ok a
  | None => Raise (Exn LookupError (lit "'" ++ lit key ++ lit "'"))
  end.

(** [x[0] for x in name] *)
Fixpoint first_pairs (name : list (list (pystr * pystr)))
  : result (list (pystr * pystr)) :=
  match name with
  | [] => Ok []
  | [] :: _ => Raise (Exn LookupError (lit "tuple index out of range"))
  | (p :: _) :: rest => ps <- first_pairs rest ;; Ok (p :: ps)
  end.

(** [steps["tls_cert"]] *)
Record TlsResult := {
  subject : option (Dict pystr);
  issuer : option (Dict pystr);
  not_before : option pystr;
  not_after : option pystr;
  serial_number : option pystr;
  cert_error : option pystr
}.

Definition empty_cert_data : TlsResult :=
  {| subject := None; issuer := None; not_before := None; not_after := None;
     serial_number := None; cert_error := None |}.

(** The dictionary display assigned to [cert_data] inside the [try]. *)
Definition cert_fields (cert : Certificate) : result TlsResult :=
  s <- item "subject" (cert_subject cert) ;;
  s <- first_pairs s ;;
  i <- item "issuer" (cert_issuer cert) ;;
  i <- first_pairs i ;;
  nb <- item "notBefore" (cert_notBefore cert) ;;
  na <- item "notAfter" (cert_notAfter cert) ;;
  sn <- item "serialNumber" (cert_serialNumber cert) ;;
  Ok {| subject := Some (dict_of s); issuer := Some (dict_of i);
        not_before := Some nb; not_after := Some na;
        serial_number := Some sn; cert_error := None |}.

(** *** Step 5: URL tokens *)

Definition suspicious_keywords_table : list pystr :=
  [ lit "login"; lit "signin"; lit "secure"; lit "verify"; lit "account";
    lit "bank"; lit "paypal"; lit "amazon"; lit "google"; lit "microsoft";
    lit "apple"; lit "facebook"; lit "update" ].

(** One entry of the list [confusables.is_confusable] returns. *)
Record Confusable := {
  conf_character : pystr;
  conf_alias : pystr
}.

(** [steps["token_analysis"]].  [has_homoglyphs] holds what
    [is_confusable] returned: [None] for [False], else the list. *)
Record TokenAnalysis := {
  found_keywords : list pystr;
  long_hex_tokens : list pystr;
  base64_patterns : list pystr;
  subdomain_count : nat;
  has_homoglyphs : option (list Confusable)
}.

(** *** Step 6: reputation *)

Record Reputation := {
  phishtank_result : option pystr;
  virustotal_result : option pystr;
  safebrowsing_result : option pystr;
  reputation_score : Z
}.

(** *** Step 8: dynamic analysis *)

(** [steps["screenshot_analysis"]]: the keys copied from the service's
    dictionary ([None] on the failure path, where the dictionary is
    replaced), the two keys the stage sets, and the [error] key, which is
    the service's own on the success path (copied by [update] with the
    others) and the handler's on the failure path. *)
Record DynamicResult := {
  captured : option ScreenshotService.Capture;
  dyn_phishing_indicators : list pystr;
  analysis_success : bool;
  dyn_error : option pystr
}.

Section Methods.

Variable urlparse : pystr -> result ParseResult.
(** [parsed.port] *)
Variable port_of : ParseResult -> result (option Z).
(** Connecting, the handshake and [getpeercert()]. *)
Variable getpeercert : pystr -> Z -> result Certificate.
Variable lower : pystr -> pystr.
(** [confusables.is_confusable(host, greedy=True)] *)
Variable is_confusable : pystr -> result (option (list Confusable)).

(** [parsed.netloc.split(':')[0]] *)
Definition hostname_of (netloc : pystr) : pystr :=
  List.hd [] (split netloc 58).

(** [parsed.port or (443 if parsed.scheme == 'https' else 80)] *)
Definition port_or_default (port : option Z) (scheme : pystr) : Z :=
  match port with
  | Some p => if Z.eqb p 0 then (if PyStr.eqb scheme (lit "https") then 443 else 80)%Z
              else p
  | None => (if PyStr.eqb scheme (lit "https") then 443 else 80)%Z
  end.

Definition _tls_cert_analysis (url : pystr) : result TlsResult :=
  parsed <- urlparse url ;;
  let hostname := hostname_of (netloc parsed) in
  p <- port_of parsed ;;
  let port := port_or_default p (scheme parsed) in
  let cert_data := empty_cert_data in
  if PyStr.eqb (scheme parsed) (lit "https") then
    match (cert <- getpeercert hostname port ;; cert_fields cert) with
    | Ok cert_data => Ok cert_data
    | Raise e =>
        Ok {| subject := subject cert_data; issuer := issuer cert_data;
              not_before := not_before cert_data;
              not_after := not_after cert_data;
              serial_number := serial_number cert_data;
              cert_error := Some (exn_msg e) |}
    end
  else Ok cert_data.

(** The [for keyword in suspicious_keywords] loop. *)
Definition collect_keywords (url_lower : pystr) : list pystr :=
  List.fold_left
    (fun found keyword =>
       if contains url_lower keyword then found ++ [keyword] else found)
    suspicious_keywords_table [].

Definition _url_token_analysis (url : pystr) : result TokenAnalysis :=
  parsed <- urlparse url ;;
  let url_lower := lower url in
  Ok {| found_keywords := collect_keywords url_lower;
        long_hex_tokens := [];
        base64_patterns := [];
        subdomain_count := List.length (split (netloc parsed) 46);
        has_homoglyphs :=
          match is_confusable (netloc parsed) with
          | Ok h => h
          | Raise _ => None
          end |}.

Definition _reputation_checks (url : pystr) : Reputation :=
  {| phishtank_result := None; virustotal_result := None;
     safebrowsing_result := None; reputation_score := 50 |}.

(** [form.get(key)] as a string, [""] standing for a missing or empty
    value where the source supplies that default. *)
Definition or_empty (x : option pystr) : pystr :=
  match x with Some s => s | None => [] end.

Definition inputs_of (form : ScreenshotService.DetectedForm)
  : list ScreenshotService.FormInput :=
  match ScreenshotService.df_inputs form with
  | Some l => l
  | None => []
  end.

(** The body of [for form in forms], inside the [try]: [urlparse] is
    called only for a form whose action is non-empty. *)
Definition form_indicators (url : pystr) (form : ScreenshotService.DetectedForm)
    (phishing_indicators : list pystr) : result (list pystr) :=
  phishing_indicators <-
    (match ScreenshotService.df_action form with
     | Some (c :: action) =>
         parsed <- urlparse url ;;
         if negb (startswith (c :: action) (netloc parsed))
         then Ok (phishing_indicators ++ [lit "Form posts to external domain"])
         else Ok phishing_indicators
     | _ => Ok phishing_indicators
     end) ;;
  let input_types :=
    List.map (fun inp => or_empty (ScreenshotService.fi_type inp)) (inputs_of form) in
  let input_names :=
    List.map (fun inp => lower (or_empty (ScreenshotService.fi_name inp)))
      (inputs_of form) in
  if List.existsb (PyStr.eqb (lit "password")) input_types
     && List.existsb (PyStr.eqb (lit "email")) input_names
  then Ok (phishing_indicators
           ++ [lit "Contains login form with email/password fields"])
  else Ok phishing_indicators.

Fixpoint forms_indicators (url : pystr)
    (forms : list ScreenshotService.DetectedForm)
    (phishing_indicators : list pystr) : result (list pystr) :=
  match forms with
  | [] => Ok phishing_indicators
  | form :: rest =>
      phishing_indicators <- form_indicators url form phishing_indicators ;;
      forms_indicators url rest phishing_indicators
  end.

Definition is_external_script (r : ScreenshotService.Resource) : bool :=
  match ScreenshotService.res_type r with
  | Some t => PyStr.eqb t (lit "script")
  | None => false
  end && ScreenshotService.res_external r.

Definition external_script_count
    (external_resources : list ScreenshotService.Resource) : nat :=
  List.length (List.filter is_external_script external_resources).

(** The statements inside [async with ScreenshotService() as ...]. *)
Definition dynamic_body (url : pystr) (screenshot_result : ScreenshotService.Capture)
  : result DynamicResult :=
  let forms := ScreenshotService.forms_detected screenshot_result in
  let external_resources := ScreenshotService.external_resources screenshot_result in
  phishing_indicators <- forms_indicators url forms [] ;;
  let external_script_count := external_script_count external_resources in
  let phishing_indicators :=
    if 5 <? external_script_count
    then phishing_indicators
         ++ [lit "High number of external scripts ("
             ++ of_nat external_script_count ++ lit ")"]
    else phishing_indicators in
  Ok {| captured := Some screenshot_result;
        dyn_phishing_indicators := phishing_indicators;
        analysis_success := true;
        dyn_error := ScreenshotService.cap_error screenshot_result |}.

(** [_dynamic_screenshot_analysis].  [enter] and [leave] are the outcomes
    of the service's [__aenter__] and [__aexit__] (the latter runs also when
    the block raised, and its exception then replaces the block's);
    [capture] is the outcome of [capture_screenshot_and_analyze].  Every
    exception ends in the handler, which replaces the dictionary. *)
Definition _dynamic_screenshot_analysis (enter : result unit)
    (capture : result ScreenshotService.Capture) (leave : result unit)
    (url : pystr) : DynamicResult :=
  let attempt :=
    match enter with
    | Raise e => Raise e
    | Ok _ =>
        match (screenshot_result <- capture ;; dynamic_body url screenshot_result),
              leave with
        | _, Raise e => Raise e
        | out, Ok _ => out
        end
    end in
  match attempt with
  | Ok screenshot_data => screenshot_data
  | Raise e =>
      {| captured := None; dyn_phishing_indicators := [];
         analysis_success := false; dyn_error := Some (exn_msg e) |}
  end.

End Methods.

(** The keys of the stage dictionaries that the classifier and the risk
    compiler read. *)
Definition token_view (t : TokenAnalysis) : TokenResult :=
  {| suspicious_keywords := Some (found_keywords t) |}.

Definition screenshot_view (d : DynamicResult) : ScreenshotResult :=
  {| page_title := option_map ScreenshotService.cap_page_title (captured d);
     meta_description :=
       match captured d with
       | Some c => ScreenshotService.cap_meta_description c
       | None => None
       end;
     viewport_content :=
       option_map ScreenshotService.cap_viewport_content (captured d);
     phishing_indicators := Some (dyn_phishing_indicators d) |}.

End Stages.

(* ------------------------------------------------------------------ *)
(** ** MLClassifier.get_feature_importance *)

Module FeatureImportance.

Definition feature_names : list pystr :=
  [ lit "url_length"; lit "domain_length"; lit "path_length";
    lit "query_length"; lit "dot_count"; lit "hyphen_count";
    lit "underscore_count"; lit "slash_count"; lit "is_ip";
    lit "many_subdomains"; lit "url_shortener"; lit "contains_ip";
    lit "domain_age"; lit "redirect_count"; lit "has_login_form" ].

(** [feature_importances_] is [None] when the fitted model has no such
    attribute. *)
Definition get_feature_importance (self : MLClassifier.Fitted)
    (feature_importances_ : option (list float)) : Stages.Dict float :=
  if negb (MLClassifier.is_trained self) then []
  else match feature_importances_ with
       | None => []
       | Some importances =>
           Stages.dict_of (List.combine feature_names importances)
       end.

End FeatureImportance.

(* ------------------------------------------------------------------ *)
(** ** LLMSummarizer ([services/llm_summarizer.py]) *)

Module LLMSummarizer.

(** The letters of the Swedish texts that are outside ASCII. *)
Definition ae : pystr := [228%N].
Definition aa : pystr := [229%N].
Definition oe : pystr := [246%N].

(** [verdict_map.get(verdict, ...)] and [action_map.get(verdict, ...)];
    [None] is a record without [verdict], read as ["unknown"]. *)
Definition verdict_map (verdict : option URLAnalyzer.Verdict) : pystr :=
  match verdict with
  | Some URLAnalyzer.Safe => lit "S" ++ ae ++ lit "ker"
  | Some URLAnalyzer.SuspiciousVerdict => lit "Misst" ++ ae ++ lit "nkt"
  | Some URLAnalyzer.Dangerous => lit "Farlig"
  | None => lit "Ok" ++ ae ++ lit "nd"
  end.

Definition action_map (verdict : option URLAnalyzer.Verdict) : pystr :=
  match verdict with
  | Some URLAnalyzer.Safe =>
      lit "L" ++ ae ++ lit "nken verkar s" ++ ae ++ lit "ker att bes" ++ oe
      ++ lit "ka."
  | Some URLAnalyzer.SuspiciousVerdict =>
      lit "Var f" ++ oe ++ lit "rsiktig. Granska l" ++ ae
      ++ lit "nken manuellt innan du bes" ++ oe ++ lit "ker den."
  | Some URLAnalyzer.Dangerous =>
      lit "Blockera denna l" ++ ae
      ++ lit "nk. Den kan vara skadlig eller inneh" ++ aa ++ lit "lla bedr"
      ++ ae ++ lit "gerier."
  | None =>
      lit "Kunde inte best" ++ ae ++ lit "mma s" ++ ae ++ lit "kerhetsniv"
      ++ aa ++ lit "."
  end.

Section Summarizer.

Variable format_0f : float -> pystr.

Definition _generate_fallback_summary
    (risk_assessment : option URLAnalyzer.RiskAssessment) : pystr :=
  let verdict := option_map URLAnalyzer.verdict risk_assessment in
  let confidence :=
    match risk_assessment with
    | Some r => URLAnalyzer.confidence r
    | None => 0%float
    end in
  let evidence :=
    match risk_assessment with
    | Some r => URLAnalyzer.evidence r
    | None => []
    end in
  let swedish_verdict := verdict_map verdict in
  let recommended_action := action_map verdict in
  let summary := lit "Bed" ++ oe ++ lit "mning: " ++ swedish_verdict ++ lit ". " in
  let summary :=
    summary ++ lit "S" ++ ae ++ lit "kerhetsniv" ++ aa ++ lit ": "
    ++ format_0f confidence ++ lit "%. " in
  let summary :=
    match evidence with
    | [] => summary
    | _ :: _ =>
        summary ++ lit "Viktiga fynd: "
        ++ join (lit ", ") (List.firstn 2 evidence) ++ lit ". "
    end in
  summary ++ recommended_action.

(** [generate_swedish_summary].  [api_key] is [settings.openai_api_key];
    [completion] is the outcome of the chat request, holding
    [response.choices[0].message.content], which may be [None] of
    Python. *)
Definition generate_swedish_summary (api_key : option pystr)
    (completion : result (option pystr))
    (risk_assessment : option URLAnalyzer.RiskAssessment) : pystr :=
  match api_key with
  | Some (_ :: _) =>
      match completion with
      | Ok (Some content) => strip content
      | Ok None | Raise _ => _generate_fallback_summary risk_assessment
      end
  | _ => _generate_fallback_summary risk_assessment
  end.

End Summarizer.

End LLMSummarizer.

(* ------------------------------------------------------------------ *)
(** ** URLAnalyzer.analyze *)

Module Pipeline.

(** [analysis_result["steps"]] once all stages ran. *)
Record PipelineSteps := {
  st_normalization : NormalizationResult;
  st_dns_whois : DnsWhoisResult;
  st_tls_cert : Stages.TlsResult;
  st_http_analysis : HttpResult;
  st_token_analysis : Stages.TokenAnalysis;
  st_reputation : Stages.Reputation;
  st_content_analysis : ContentResult;
  st_screenshot_analysis : Stages.DynamicResult
}.

(** The dictionary [analyze] returns. *)
Record PipelineResult := {
  pr_job_id : pystr;
  pr_url : pystr;
  pr_steps : PipelineSteps;
  pr_risk_assessment : URLAnalyzer.RiskAssessment;
  pr_swedish_summary : pystr
}.

(** The stage dictionaries as the classifier and the risk compiler read
    them. *)
Definition steps_view (s : PipelineSteps) : Steps :=
  {| normalization := Some (st_normalization s);
     dns_whois := Some (st_dns_whois s);
     http_analysis := Some (st_http_analysis s);
     token_analysis := Some (Stages.token_view (st_token_analysis s));
     content_analysis := Some (st_content_analysis s);
     screenshot_analysis := Some (Stages.screenshot_view (st_screenshot_analysis s)) |}.

(** What one run meets outside the program: the client session (its
    construction, the replies it gets, its [close()]), the browser service,
    the classifier constructed for the run, and the summarizer's key and
    reply. *)
Record Run := {
  new_session : result Session;
  close_session : result unit;
  browser_enter : result unit;
  browser_capture : result ScreenshotService.Capture;
  browser_leave : result unit;
  classifier : MLClassifier.Fitted;
  openai_api_key : option pystr;
  completion : result (option pystr)
}.

Section Analyze.

Variable urlparse : pystr -> result ParseResult.
Variable urljoin : pystr -> pystr -> result pystr.
Variable tldextract : pystr -> ExtractResult.
Variable inet_aton : pystr -> result unit.
Variable idna_decode : pystr -> result pystr.
Variable dns_resolve : pystr -> result (list pystr).
Variable whois : pystr -> result WhoisRecord.
Variable BeautifulSoup : pystr -> result Soup.
Variable lower : pystr -> pystr.
Variable isdigit : N -> bool.
Variable format_0f : float -> pystr.
Variable port_of : ParseResult -> result (option Z).
Variable getpeercert : pystr -> Z -> result Stages.Certificate.
Variable is_confusable : pystr -> result (option (list Stages.Confusable)).

(** The statements of the [try] block after the session exists. *)
Definition stages (run : Run) (session : Session) (url job_id : pystr)
  : result PipelineResult :=
  nu <- URLAnalyzer._normalize_and_check_url urlparse tldextract inet_aton
          idna_decode url ;;
  let '(normalized_url, url_features) := nu in
  dns_data <- URLAnalyzer._dns_and_whois_lookup urlparse tldextract dns_resolve
                whois normalized_url ;;
  cert_data <- Stages._tls_cert_analysis urlparse port_of getpeercert
                 normalized_url ;;
  let http_data :=
    URLAnalyzer._http_fetch_and_redirects urljoin session normalized_url in
  token_analysis <- Stages._url_token_analysis urlparse lower is_confusable
                      normalized_url ;;
  let reputation_data := Stages._reputation_checks normalized_url in
  let content_analysis :=
    URLAnalyzer._content_analysis BeautifulSoup lower (html_content http_data) in
  let screenshot_data :=
    Stages._dynamic_screenshot_analysis urlparse lower (browser_enter run)
      (browser_capture run) (browser_leave run) normalized_url in
  let steps :=
    {| st_normalization := url_features;
       st_dns_whois := dns_data;
       st_tls_cert := cert_data;
       st_http_analysis := http_data;
       st_token_analysis := token_analysis;
       st_reputation := reputation_data;
       st_content_analysis := content_analysis;
       st_screenshot_analysis := screenshot_data |} in
  let risk_assessment :=
    URLAnalyzer._compile_risk_assessment urlparse lower isdigit format_0f
      (classifier run)
      {| job_id := job_id; url := url; steps := steps_view steps |} in
  let swedish_summary :=
    LLMSummarizer.generate_swedish_summary format_0f (openai_api_key run)
      (completion run) (Some risk_assessment) in
  Ok {| pr_job_id := job_id;
        pr_url := url;
        pr_steps := steps;
        pr_risk_assessment := risk_assessment;
        pr_swedish_summary := swedish_summary |}.

(** [analyze]: [except Exception] logs and re-raises; [finally] closes the
    session when one was created, and an exception of [close()] replaces
    the outcome. *)
Definition analyze (run : Run) (url job_id : pystr) : result PipelineResult :=
  match new_session run with
  | Raise e => Raise e
  | Ok session =>
      match stages run session url job_id, close_session run with
      | _, Raise e => Raise e
      | outcome, Ok _ => outcome
      end
  end.

End Analyze.

End Pipeline.

(* ------------------------------------------------------------------ *)
(** ** The job table ([api/analysis.py], [worker.py]) *)

Module Jobs.

Inductive JobStatus := Queued | Processing | Completed | JobFailed.

(** A row of [analysis_jobs]. *)
Record AnalysisJob := {
  id : pystr;
  job_url : pystr;
  user_id : option pystr;
  status : JobStatus;
  verdict : option URLAnalyzer.Verdict;
  confidence : option float;
  evidence : option (list pystr);
  artifacts : option (Stages.Dict pystr);
  analysis_data : option Pipeline.PipelineResult;
  error_message : option pystr;
  created_at : Z;
  completed_at : option Z
}.

Definition Table := list AnalysisJob.

(** [select(AnalysisJob).where(AnalysisJob.id == job_id)] *)
Definition select_by_id (job_id : pystr) (db : Table) : list AnalysisJob :=
  List.filter (fun j => PyStr.eqb (id j) job_id) db.

(** [update(AnalysisJob).where(AnalysisJob.id == job_id).values(...)] *)
Definition update_by_id (job_id : pystr) (values : AnalysisJob -> AnalysisJob)
    (db : Table) : Table :=
  List.map (fun j => if PyStr.eqb (id j) job_id then values j else j) db.

Definition set_processing (j : AnalysisJob) : AnalysisJob :=
  {| id := id j; job_url := job_url j; user_id := user_id j;
     status := Processing;
     verdict := verdict j; confidence := confidence j; evidence := evidence j;
     artifacts := artifacts j; analysis_data := analysis_data j;
     error_message := error_message j; created_at := created_at j;
     completed_at := completed_at j |}.

Definition set_completed (result : Pipeline.PipelineResult) (now : Z)
    (j : AnalysisJob) : AnalysisJob :=
  let risk_assessment := Pipeline.pr_risk_assessment result in
  {| id := id j; job_url := job_url j; user_id := user_id j;
     status := Completed;
     verdict := Some (URLAnalyzer.verdict risk_assessment);
     confidence := Some (URLAnalyzer.confidence risk_assessment);
     evidence := Some (URLAnalyzer.evidence risk_assessment);
     artifacts := artifacts j;
     analysis_data := Some result;
     error_message := error_message j; created_at := created_at j;
     completed_at := Some now |}.

Definition set_failed (e : exn) (now : Z) (j : AnalysisJob) : AnalysisJob :=
  {| id := id j; job_url := job_url j; user_id := user_id j;
     status := JobFailed;
     verdict := verdict j; confidence := confidence j; evidence := evidence j;
     artifacts := artifacts j; analysis_data := analysis_data j;
     error_message := Some (exn_msg e); created_at := created_at j;
     completed_at := Some now |}.

(** [analyze_url_task] of the API and [_analyze_url_async] of the worker
    make the same updates; [analysis] is the outcome of
    [URLAnalyzer().analyze(url, job_id)], [now] the clock at the final
    update.  The table operations themselves are taken to succeed. *)
Definition analyze_url_task (analysis : result Pipeline.PipelineResult)
    (now : Z) (job_id : pystr) (db : Table) : Table :=
  let db := update_by_id job_id set_processing db in
  match analysis with
  | Ok result => update_by_id job_id (set_completed result now) db
  | Raise e => update_by_id job_id (set_failed e now) db
  end.

(** What the worker's task returns besides updating the table. *)
Record TaskReport := {
  report_status : JobStatus;
  report_job_id : pystr;
  report_error : option pystr
}.

Definition _analyze_url_async (analysis : result Pipeline.PipelineResult)
    (now : Z) (job_id : pystr) (db : Table) : Table * TaskReport :=
  (analyze_url_task analysis now job_id db,
   match analysis with
   | Ok _ => {| report_status := Completed; report_job_id := job_id;
                report_error := None |}
   | Raise e => {| report_status := JobFailed; report_job_id := job_id;
                   report_error := Some (exn_msg e) |}
   end).

(** [POST /analyze/url]: [job_id] is the fresh [uuid4], [now] the server
    clock for [created_at].  The primary key rejects a second row with the
    same [id]. *)
Definition analyze_url (job_id url : pystr) (user : option pystr) (now : Z)
    (db : Table) : result (Table * (pystr * JobStatus)) :=
  match select_by_id job_id db with
  | _ :: _ => Raise (Exn OtherError (lit "duplicate key value violates unique constraint"))
  | [] =>
      Ok (db ++ [ {| id := job_id; job_url := url; user_id := user;
                     status := Queued; verdict := None; confidence := None;
                     evidence := None; artifacts := None;
                     analysis_data := None; error_message := None;
                     created_at := now; completed_at := None |} ],
          (job_id, Queued))
  end.

(** [AnalysisResponse] *)
Record AnalysisResponse := {
  resp_job_id : pystr;
  resp_status : JobStatus;
  resp_job_url : pystr;
  resp_verdict : option URLAnalyzer.Verdict;
  resp_confidence : option float;
  resp_evidence : option (list pystr);
  resp_artifacts : Stages.Dict pystr;
  resp_swedish_summary : option pystr;
  resp_timestamp : Z
}.

(** The outcome of a request handler: a response, an [HTTPException] with
    its status code, or another exception. *)
Inductive Reply (A : Type) :=
| Respond (a : A)
| HttpException (status_code : Z) (detail : pystr)
| ServerError (e : exn).
Arguments Respond {A} a.
Arguments HttpException {A} status_code detail.
Arguments ServerError {A} e.

(** The artifacts of a job: its own, plus the screenshot and the page
    title when the dynamic stage stored non-empty ones. *)
Definition artifacts_of (job : AnalysisJob) : Stages.Dict pystr :=
  let artifacts := match artifacts job with
                   | Some (kv :: d) => kv :: d
                   | _ => []
                   end in
  match analysis_data job with
  | None => artifacts
  | Some data =>
      let screenshot_data :=
        Stages.captured (Pipeline.st_screenshot_analysis (Pipeline.pr_steps data)) in
      let artifacts :=
        match screenshot_data with
        | Some c =>
            match ScreenshotService.screenshot_base64 c with
            | Some (x :: b64) =>
                Stages.dict_set (lit "screenshot_base64") (x :: b64) artifacts
            | _ => artifacts
            end
        | None => artifacts
        end in
      match screenshot_data with
      | Some c =>
          match ScreenshotService.cap_page_title c with
          | x :: t => Stages.dict_set (lit "page_title") (x :: t) artifacts
          | [] => artifacts
          end
      | None => artifacts
      end
  end.

(** [GET /results/{job_id}]; [scalar_one_or_none] raises when several rows
    match. *)
Definition get_analysis_result (job_id : pystr) (db : Table)
  : Reply AnalysisResponse :=
  match select_by_id job_id db with
  | [] => HttpException 404 (lit "Job not found")
  | [job] =>
      Respond
        {| resp_job_id := id job;
           resp_status := status job;
           resp_job_url := job_url job;
           resp_verdict := verdict job;
           resp_confidence := confidence job;
           resp_evidence := evidence job;
           resp_artifacts := artifacts_of job;
           resp_swedish_summary :=
             option_map Pipeline.pr_swedish_summary (analysis_data job);
           resp_timestamp := created_at job |}
  | _ :: _ :: _ =>
      ServerError (Exn OtherError (lit "Multiple rows were found when one or none was required"))
  end.

End Jobs.

(* ------------------------------------------------------------------ *)
(** ** Specification-side definitions for the further properties *)

Module ExtraSpec.

Local Open Scope float_scope.

(** [P] holds of every sum that the keyword loop can reach from [score]:
    each keyword of the table is either skipped or its weight added, in
    table order. *)
Fixpoint check_all (P : float -> bool) (table : list (pystr * float))
    (score : float) : bool :=
  match table with
  | [] => P score
  | kw :: rest => check_all P rest score && check_all P rest (score + snd kw)
  end.

(** The clamp [min(1.0, score / 2.0)] lands in [[0, 1]]. *)
Definition clamped_in_unit (score : float) : bool :=
  (0 <=? PyFloat.min 1 (score / 2)) && (PyFloat.min 1 (score / 2) <=? 1).

(** The weights of the fallback rules in tenths. *)
Definition fallback_tenths (long_url shortener embedded_ip redirects login : bool)
  : nat :=
  ((if long_url then 2 else 0) + (if shortener then 3 else 0)
   + (if embedded_ip then 4 else 0) + (if redirects then 3 else 0)
   + (if login then 2 else 0))%nat.

Definition fallback_class (tenths : nat) : MLClassifier.Classification :=
  if (6 <=? tenths)%nat then MLClassifier.Phishing
  else if (3 <=? tenths)%nat then MLClassifier.Suspicious
  else MLClassifier.Legitimate.

Definition fallback_confidence (c : MLClassifier.Classification) : float :=
  match c with
  | MLClassifier.Phishing => 75
  | MLClassifier.Suspicious => 70
  | MLClassifier.Legitimate => 80
  end.

(** The cap [classify] puts on the confidence of each class. *)
Definition confidence_cap (c : MLClassifier.Classification) : float :=
  match c with
  | MLClassifier.Phishing => 95
  | MLClassifier.Suspicious => 85
  | MLClassifier.Legitimate => 90
  end.

(** A list of strings without repetition, decided. *)
Fixpoint nodupb (l : list pystr) : bool :=
  match l with
  | [] => true
  | x :: l' => negb (List.existsb (PyStr.eqb x) l') && nodupb l'
  end.

(** The value of the last pair with key [k]. *)
Definition lookup_last {V} (k : pystr) (pairs : list (pystr * V)) : option V :=
  option_map snd (List.find (fun kv => PyStr.eqb (fst kv) k) (List.rev pairs)).

Definition tls_complete (d : Stages.TlsResult) : bool :=
  StageSpec.present (Stages.subject d) && StageSpec.present (Stages.issuer d)
  && StageSpec.present (Stages.not_before d)
  && StageSpec.present (Stages.not_after d)
  && StageSpec.present (Stages.serial_number d).

Definition tls_has_payload (d : Stages.TlsResult) : bool :=
  StageSpec.present (Stages.subject d) || StageSpec.present (Stages.issuer d)
  || StageSpec.present (Stages.not_before d)
  || StageSpec.present (Stages.not_after d)
  || StageSpec.present (Stages.serial_number d).

(** The three texts the dynamic stage can append. *)
Definition external_form_text : pystr := lit "Form posts to external domain".
Definition login_form_text : pystr :=
  lit "Contains login form with email/password fields".
Definition scripts_text (n : nat) : pystr :=
  lit "High number of external scripts (" ++ of_nat n ++ lit ")".

(** The row the analysis task leaves for a job. *)
Definition finished (analysis : result Pipeline.PipelineResult) (now : Z)
    (j : Jobs.AnalysisJob) : Jobs.AnalysisJob :=
  match analysis with
  | Ok r => Jobs.set_completed r now (Jobs.set_processing j)
  | Raise e => Jobs.set_failed e now (Jobs.set_processing j)
  end.

(** The row [POST /analyze/url] inserts. *)
Definition queued_job (job_id url : pystr) (user : option pystr) (now : Z)
  : Jobs.AnalysisJob :=
  {| Jobs.id := job_id; Jobs.job_url := url; Jobs.user_id := user;
     Jobs.status := Jobs.Queued; Jobs.verdict := None;
     Jobs.confidence := None; Jobs.evidence := None; Jobs.artifacts := None;
     Jobs.analysis_data := None; Jobs.error_message := None;
     Jobs.created_at := now; Jobs.completed_at := None |}.

(** A recorded hop: a redirect status and a non-empty [Location]. *)
Definition valid_hop (h : Hop) : Prop :=
  URLAnalyzer.is_redirect (hop_status h) = true /\ hop_location h <> [].

(** An indicator that comes from a form. *)
Definition form_text (i : pystr) : Prop :=
  i = external_form_text \/ i = login_form_text.

End ExtraSpec.


(* ------------------------------------------------------------------ *)
(** ** What a stage entry holds *)

Module EntrySpec.

(** An entry of [steps] holds data, a recorded error, both, or neither. *)
Inductive Shape := PayloadOnly | ErrorOnly | Both | Neither.

Definition shape (has_error has_payload : bool) : Shape :=
  match has_error, has_payload with
  | false, true => PayloadOnly
  | true, false => ErrorOnly
  | true, true => Both
  | false, false => Neither
  end.

Definition dns_shape (d : DnsWhoisResult) : Shape :=
  shape (StageSpec.dns_has_error d) (StageSpec.dns_has_payload d).

Definition http_shape (d : HttpResult) : Shape :=
  shape (StageSpec.http_has_error d) (StageSpec.http_has_payload d).

Definition content_shape (c : ContentResult) : Shape :=
  shape (StageSpec.content_has_error c) (StageSpec.content_has_payload c).

Definition tls_shape (d : Stages.TlsResult) : Shape :=
  shape (StageSpec.present (Stages.cert_error d)) (ExtraSpec.tls_has_payload d).

(** The data of the dynamic entry are the keys of the browser service's
    dictionary. *)
Definition dynamic_shape (d : Stages.DynamicResult) : Shape :=
  shape (StageSpec.present (Stages.dyn_error d))
        (StageSpec.present (Stages.captured d)).

End EntrySpec.

(* ------------------------------------------------------------------ *)
(** ** Stand-ins and data for running the remaining stages *)

Module Sample.

Local Open Scope string_scope.

(** The text after the last [c] of [s] ([s.rpartition(c)[2]]). *)
Fixpoint after_last (s : pystr) (c : N) : pystr :=
  match s with
  | [] => []
  | x :: s' =>
      if Reference.mem c s' then after_last s' c
      else if N.eqb x c then s' else x :: s'
  end.

Definition decimal (digits : pystr) : Z :=
  List.fold_left (fun n d => (10 * n + (Z.of_N d - 48))%Z) digits 0%Z.

(** [parsed.port] as CPython computes it from [netloc]: the text after the
    colon of the host information, which must be ASCII digits and at most
    65535. *)
Definition port_of (parsed : ParseResult) : result (option Z) :=
  let hostinfo := after_last (netloc parsed) 64 in
  let port :=
    if Reference.mem 91 hostinfo
    then snd (Reference.cut (snd (Reference.cut (snd (Reference.cut hostinfo 91)) 93)) 58)
    else snd (Reference.cut hostinfo 58) in
  match port with
  | [] => Ok None
  | _ :: _ =>
      if List.forallb is_ascii_digit port then
        if (decimal port <=? 65535)%Z then Ok (Some (decimal port))
        else Raise (Exn ValueError (lit "Port out of range 0-65535"))
      else
        Raise (Exn ValueError
                 (lit "Port could not be cast to integer value as '" ++ port
                  ++ lit "'")%list)
  end.

(** A certificate with two organizational units. *)
Definition certificate : Stages.Certificate :=
  {| Stages.cert_subject :=
       Some [ [(lit "countryName", lit "SE")];
              [(lit "organizationalUnitName", lit "Web")];
              [(lit "organizationalUnitName", lit "Payments")];
              [(lit "commonName", lit "a.example")] ];
     Stages.cert_issuer :=
       Some [ [(lit "countryName", lit "US")];
              [(lit "commonName", lit "Example CA")] ];
     Stages.cert_notBefore := Some (lit "Jan  1 00:00:00 2026 GMT");
     Stages.cert_notAfter := Some (lit "Apr  1 00:00:00 2026 GMT");
     Stages.cert_serialNumber := Some (lit "04D2") |}.

(** A peer that serves [certificate] on [a.example:443] and refuses every
    other connection. *)
Definition getpeercert (hostname : pystr) (port : Z) : result Stages.Certificate :=
  if PyStr.eqb hostname (lit "a.example") && Z.eqb port 443 then Ok certificate
  else Raise (Exn OSError (lit "[Errno 111] Connection refused")).

(** A homoglyph library that finds nothing, and one that cannot load its
    data. *)
Definition is_confusable (netloc : pystr)
  : result (option (list Stages.Confusable)) := Ok None.

Definition confusables_unavailable (netloc : pystr)
  : result (option (list Stages.Confusable)) :=
  Raise (Exn OSError (lit "confusables.json not found")).

Definition script (src : string) (external : bool) : ScreenshotService.Resource :=
  {| ScreenshotService.res_type := Some (lit "script");
     ScreenshotService.res_url := lit src;
     ScreenshotService.res_external := external |}.

(** What the browser sees on a sign-in page that posts to another host and
    loads seven scripts from elsewhere. *)
Definition signin_page : ScreenshotService.Observation :=
  {| ScreenshotService.obs_network_requests :=
       [ {| ScreenshotService.req_url := lit "https://a.example/";
            ScreenshotService.req_method := lit "GET";
            ScreenshotService.req_resource_type := lit "document" |} ];
     ScreenshotService.obs_console_logs := [];
     ScreenshotService.obs_js_errors := [];
     ScreenshotService.obs_load_time := 2350%Z;
     ScreenshotService.obs_screenshot_base64 := lit "iVBORw0KGgo=";
     ScreenshotService.obs_title := lit "Sign in";
     ScreenshotService.obs_meta_description := Some [];
     ScreenshotService.obs_dom_content := Some (lit "<html><body></body></html>");
     ScreenshotService.obs_forms :=
       [ {| ScreenshotService.df_action := Some (lit "https://collect.example/in");
            ScreenshotService.df_method := Some (lit "post");
            ScreenshotService.df_inputs :=
              Some [ {| ScreenshotService.fi_type := Some (lit "text");
                        ScreenshotService.fi_name := Some (lit "Email") |};
                     {| ScreenshotService.fi_type := Some (lit "password");
                        ScreenshotService.fi_name := Some (lit "pw") |} ] |} ];
     ScreenshotService.obs_external_resources :=
       [ script "https://cdn1.example/a.js" true;
         script "https://cdn1.example/b.js" true;
         script "https://cdn2.example/c.js" true;
         script "https://a.example/own.js" false;
         script "https://cdn2.example/d.js" true;
         script "https://cdn3.example/e.js" true;
         script "https://cdn3.example/f.js" true;
         script "https://cdn3.example/g.js" true ];
     ScreenshotService.obs_viewport_text := lit "Verify your account" |}.

(** The service's dictionary for that page. *)
Definition signin_capture : ScreenshotService.Capture :=
  ScreenshotService.updated signin_page ScreenshotService.initial_result.

(** A sign-in form as markup. *)
Definition signin_html : pystr :=
  lit "<html><head><title>Sign in</title></head><body><form action='/session' method='POST'><input type='text' name='Email'><input type='password' name='pw'></form></body></html>".

(** A run in which one redirect leads to a page and the browser loads the
    sign-in page; the summarizer has no key. *)
Definition run : Pipeline.Run :=
  {| Pipeline.new_session :=
       Ok [ Ok (Scenario.response "https://a.example/login" 302
                  (Some "https://a.example/signin") (Ok []));
            Ok (Scenario.response "https://a.example/signin" 200 None
                  (Ok signin_html)) ];
     Pipeline.close_session := Ok tt;
     Pipeline.browser_enter := Ok tt;
     Pipeline.browser_capture := Ok signin_capture;
     Pipeline.browser_leave := Ok tt;
     Pipeline.classifier := Scenario.model 0.5;
     Pipeline.openai_api_key := None;
     Pipeline.completion := Ok None |}.

(** The same run with a browser that cannot be started. *)
Definition run_without_browser : Pipeline.Run :=
  {| Pipeline.new_session := Pipeline.new_session run;
     Pipeline.close_session := Ok tt;
     Pipeline.browser_enter :=
       Raise (Exn OtherError (lit "Executable doesn't exist"));
     Pipeline.browser_capture := Ok signin_capture;
     Pipeline.browser_leave := Ok tt;
     Pipeline.classifier := Scenario.model 0.5;
     Pipeline.openai_api_key := None;
     Pipeline.completion := Ok None |}.

(** A fitted model that answers [p] on the vector [x0] and [q] on every
    other vector. *)
Definition same_vector (x y : list Z) : bool :=
  (List.length x =? List.length y)%nat
  && List.forallb (fun ab => Z.eqb (fst ab) (snd ab)) (List.combine x y).

Definition model_at (x0 : list Z) (p q : float) : MLClassifier.Fitted :=
  {| MLClassifier.is_trained := true;
     MLClassifier.predict_phishing :=
       fun x => if same_vector x x0 then Ok p else Ok q |}.

(** The feature vector of [Scenario.busy]. *)
Definition busy_vector : list Z :=
  MLClassifier.extract_url_features Reference.urlparse Reference.isdigit
    (url Scenario.busy) Scenario.busy.

(** A run on an [http] URL whose page load times out in the browser, and
    whose server drops the connection after one redirect. *)
Definition dropped_run : Pipeline.Run :=
  {| Pipeline.new_session :=
       Ok [ Ok (Scenario.response "http://www.example.com/" 301
                  (Some "http://login.example.com/") (Ok []));
            Raise (Exn OSError (lit "Connection reset by peer")) ];
     Pipeline.close_session := Ok tt;
     Pipeline.browser_enter := Ok tt;
     Pipeline.browser_capture :=
       ScreenshotService.capture_screenshot_and_analyze
         (ScreenshotService.TimedOut true) (Ok tt);
     Pipeline.browser_leave := Ok tt;
     Pipeline.classifier := Scenario.model 0.5;
     Pipeline.openai_api_key := None;
     Pipeline.completion := Ok None |}.

(** [URLAnalyzer().analyze] on [run], with the stand-ins for the
    libraries. *)
Definition analyze (run : Pipeline.Run) (url job_id : pystr)
  : result Pipeline.PipelineResult :=
  Pipeline.analyze Reference.urlparse Reference.urljoin Reference.tldextract
    Reference.inet_aton Reference.idna_decode Reference.dns_resolve
    Reference.whois Reference.BeautifulSoup Reference.lower Reference.isdigit
    Reference.format_0f port_of getpeercert is_confusable run url job_id.

(** A table with two jobs that wait. *)
Definition jobs : Jobs.Table :=
  [ ExtraSpec.queued_job (lit "job-a") (lit "https://a.example/login") None 100;
    ExtraSpec.queued_job (lit "job-b") (lit "http://b.example/") (Some (lit "u1")) 101 ].

End Sample.
(* ================================================================== *)
(** * Properties *)

(** ** Order facts on binary64 *)

Module FloatOrder.

Local Open Scope float_scope.

Ltac cmp_cases :=
  repeat match goal with
  | H : context [Z.compare ?a ?b] |- _ => destruct (Z.compare_spec a b)
  | |- context [Z.compare ?a ?b] => destruct (Z.compare_spec a b)
  | H : context [Pos.compare_cont Eq ?a ?b] |- _ =>
      change (Pos.compare_cont Eq a b) with (Pos.compare a b) in *;
      destruct (Pos.compare_spec a b)
  | |- context [Pos.compare_cont Eq ?a ?b] =>
      change (Pos.compare_cont Eq a b) with (Pos.compare a b) in *;
      destruct (Pos.compare_spec a b)
  end.

Ltac sf_order :=
  unfold SFleb, SFltb;
  repeat match goal with f : spec_float |- _ => destruct f end;
  simpl; try discriminate; try reflexivity;
  repeat match goal with s : bool |- _ => destruct s end;
  simpl; try discriminate; try reflexivity;
  cmp_cases; simpl; try discriminate; try reflexivity;
  intros; subst; try lia.

Lemma SF_le_le_trans (a x b : spec_float) :
  SFleb a x = true -> SFleb x b = true -> SFleb a b = true.
Proof. sf_order. Qed.

Lemma SF_lt_not_le (x y : spec_float) :
  SFltb x y = true -> SFleb y x = false.
Proof. sf_order. Qed.

Lemma ltb_not_leb (x y : float) : (x <? y) = true -> (y <=? x) = false.
Proof. rewrite ltb_spec, leb_spec. apply SF_lt_not_le. Qed.

Lemma leb_trans (a x b : float) :
  (a <=? x) = true -> (x <=? b) = true -> (a <=? b) = true.
Proof. rewrite !leb_spec. apply SF_le_le_trans. Qed.

(** Below the smaller of two thresholds means not at or above the
    larger. *)
Lemma below_both (lo hi x : float) :
  (lo <=? hi) = true -> (x <? lo) = true -> (hi <=? x) = false.
Proof.
  intros Hlh Hx. destruct (hi <=? x) eqn:E; [|reflexivity].
  pose proof (leb_trans _ _ _ Hlh E) as K.
  pose proof (ltb_not_leb _ _ Hx) as K'.
  congruence.
Qed.

Lemma mul_comm (x y : float) : x * y = y * x.
Proof.
  apply Prim2SF_inj. rewrite !mul_spec. unfold SF64mul, SFmul.
  destruct (Prim2SF x) as [s|s| |s m e]; destruct (Prim2SF y) as [s'|s'| |s' m' e'];
    try reflexivity; rewrite ?(xorb_comm s s'); try reflexivity.
  rewrite (Pos.mul_comm m m'), (Z.add_comm e e'). reflexivity.
Qed.

End FloatOrder.

(** ** The verdict and the classifier's thresholds *)

Section Thresholds.

Local Open Scope float_scope.

Lemma verdict_of_compiled urlparse lower isdigit format_0f self analysis_result :
  URLAnalyzer.verdict
    (URLAnalyzer._compile_risk_assessment urlparse lower isdigit format_0f
       self analysis_result)
  = URLAnalyzer.verdict_of
      (URLAnalyzer.risk_score
         (URLAnalyzer._compile_risk_assessment urlparse lower isdigit format_0f
            self analysis_result)).
Proof.
  unfold URLAnalyzer._compile_risk_assessment.
  destruct (URLAnalyzer.accumulate _ _ _ _ _) as [score ev]. reflexivity.
Qed.

(** C4.  The verdict of a compiled assessment is a function of its
    [risk_score] alone: dangerous when the score is at least 70, suspicious
    when it is at least 40 and below 70, safe when it is below 40.  Both
    lower bounds are inclusive: 69.9 is suspicious, 70.0 dangerous, 39.9
    safe, 40.0 suspicious. *)
Theorem verdict_thresholds :
  (forall urlparse lower isdigit format_0f self analysis_result,
      let r := URLAnalyzer._compile_risk_assessment urlparse lower isdigit
                 format_0f self analysis_result in
      (PyFloat.ge (URLAnalyzer.risk_score r) 70 = true ->
       URLAnalyzer.verdict r = URLAnalyzer.Dangerous) /\
      (PyFloat.ge (URLAnalyzer.risk_score r) 40 = true ->
       PyFloat.lt (URLAnalyzer.risk_score r) 70 = true ->
       URLAnalyzer.verdict r = URLAnalyzer.SuspiciousVerdict) /\
      (PyFloat.lt (URLAnalyzer.risk_score r) 40 = true ->
       URLAnalyzer.verdict r = URLAnalyzer.Safe)) /\
  (forall risk_score : float,
      (PyFloat.ge risk_score 70 = true ->
       URLAnalyzer.verdict_of risk_score = URLAnalyzer.Dangerous) /\
      (PyFloat.ge risk_score 40 = true -> PyFloat.lt risk_score 70 = true ->
       URLAnalyzer.verdict_of risk_score = URLAnalyzer.SuspiciousVerdict) /\
      (PyFloat.lt risk_score 40 = true ->
       URLAnalyzer.verdict_of risk_score = URLAnalyzer.Safe)) /\
  URLAnalyzer.verdict_of 69.9 = URLAnalyzer.SuspiciousVerdict /\
  URLAnalyzer.verdict_of 70.0 = URLAnalyzer.Dangerous /\
  URLAnalyzer.verdict_of 39.9 = URLAnalyzer.Safe /\
  URLAnalyzer.verdict_of 40.0 = URLAnalyzer.SuspiciousVerdict.
Proof.
  assert (G : forall risk_score : float,
      (PyFloat.ge risk_score 70 = true ->
       URLAnalyzer.verdict_of risk_score = URLAnalyzer.Dangerous) /\
      (PyFloat.ge risk_score 40 = true -> PyFloat.lt risk_score 70 = true ->
       URLAnalyzer.verdict_of risk_score = URLAnalyzer.SuspiciousVerdict) /\
      (PyFloat.lt risk_score 40 = true ->
       URLAnalyzer.verdict_of risk_score = URLAnalyzer.Safe)).
  { intros x. unfold URLAnalyzer.verdict_of, PyFloat.ge, PyFloat.lt.
    repeat split.
    - intros ->. reflexivity.
    - intros H40 H70. rewrite (FloatOrder.ltb_not_leb _ _ H70), H40. reflexivity.
    - intros H40.
      rewrite (FloatOrder.below_both 40 70 x eq_refl H40).
      rewrite (FloatOrder.ltb_not_leb _ _ H40). reflexivity. }
  split; [|split; [exact G|repeat split]].
  intros urlparse lower isdigit format_0f self analysis_result r.
  unfold r. rewrite verdict_of_compiled. apply G.
Qed.

(** C7.  The classifier's combined score is
    [0.7 * url_score + 0.3 * text_score]; at 0.7 or more the class is
    phishing with confidence [min(95, 100 * score)], from 0.4 up to but
    excluding 0.7 it is suspicious with confidence [min(85, 100 * score)],
    otherwise legitimate with confidence [min(90, 100 * (1 - score))].  A
    trained classifier whose model answers returns exactly this combination.
    With [url_score = 0.8] and [text_score = 0.5] the combined score is 0.71,
    the class phishing and the confidence 71. *)
Theorem classifier_combination :
  (forall (url_score text_score : float) (features : list Z),
      let r := MLClassifier.combine url_score text_score features in
      let combined := 0.7 * url_score + 0.3 * text_score in
      MLClassifier.phishing_score r = combined /\
      MLClassifier.url_score r = url_score /\
      MLClassifier.text_score r = text_score /\
      (PyFloat.ge combined 0.7 = true ->
       MLClassifier.classification r = MLClassifier.Phishing /\
       MLClassifier.confidence r = PyFloat.min 95 (combined * 100)) /\
      (PyFloat.ge combined 0.4 = true -> PyFloat.lt combined 0.7 = true ->
       MLClassifier.classification r = MLClassifier.Suspicious /\
       MLClassifier.confidence r = PyFloat.min 85 (combined * 100)) /\
      (PyFloat.lt combined 0.4 = true \/ PyFloat.ge combined 0.4 = false ->
       MLClassifier.classification r = MLClassifier.Legitimate /\
       MLClassifier.confidence r = PyFloat.min 90 ((1 - combined) * 100))) /\
  (forall urlparse lower isdigit self url analysis_data url_score,
      MLClassifier.is_trained self = true ->
      MLClassifier.predict_phishing self
        (MLClassifier.extract_url_features urlparse isdigit url analysis_data)
      = Ok url_score ->
      MLClassifier.classify urlparse lower isdigit self url analysis_data
      = MLClassifier.combine url_score
          (MLClassifier._analyze_text_content lower
             (MLClassifier.extract_text_features analysis_data))
          (MLClassifier.extract_url_features urlparse isdigit url analysis_data)) /\
  (let r := MLClassifier.combine 0.8 0.5 [] in
   MLClassifier.phishing_score r = 0.71 /\
   MLClassifier.classification r = MLClassifier.Phishing /\
   MLClassifier.confidence r = 71).
Proof.
  split; [|split].
  - intros u t fs r combined.
    assert (E : combined = u * 0.7 + t * 0.3).
    { unfold combined. rewrite (FloatOrder.mul_comm 0.7 u), (FloatOrder.mul_comm 0.3 t).
      reflexivity. }
    unfold r, MLClassifier.combine. rewrite <- E. clear E.
    unfold PyFloat.ge, PyFloat.lt.
    destruct (0.7 <=? combined) eqn:H7; [|destruct (0.4 <=? combined) eqn:H4];
      cbn [MLClassifier.classification MLClassifier.confidence
           MLClassifier.phishing_score MLClassifier.url_score
           MLClassifier.text_score];
      (split; [reflexivity|]); (split; [reflexivity|]); (split; [reflexivity|]).
    + split; [intros _; split; reflexivity|]. split.
      * intros _ K. rewrite (FloatOrder.ltb_not_leb _ _ K) in H7. discriminate.
      * intros [K|K].
        -- rewrite (FloatOrder.below_both 0.4 0.7 combined eq_refl K) in H7.
           discriminate.
        -- rewrite (FloatOrder.leb_trans 0.4 0.7 combined eq_refl H7) in K.
           discriminate.
    + split; [discriminate|]. split; [intros _ _; split; reflexivity|].
      intros [K|K]; [|discriminate].
      rewrite (FloatOrder.ltb_not_leb _ _ K) in H4. discriminate.
    + split; [discriminate|]. split; [discriminate|].
      intros _. split; reflexivity.
  - intros urlparse lower isdigit self url data u Ht Hp.
    unfold MLClassifier.classify. rewrite Ht, Hp. reflexivity.
  - vm_compute. repeat split.
Qed.

End Thresholds.

(** ** Strings *)

Lemma pystr_eqb_eq (a b : pystr) : PyStr.eqb a b = true <-> a = b.
Proof.
  revert b. induction a as [|x a IH]; destruct b as [|y b]; simpl;
    try (split; [discriminate|discriminate]); try (split; reflexivity).
  rewrite andb_true_iff, N.eqb_eq, IH. split.
  - intros [-> ->]. reflexivity.
  - intros E. injection E as -> ->. split; reflexivity.
Qed.

Lemma pystr_eqb_neq (a b : pystr) : PyStr.eqb a b = false <-> a <> b.
Proof.
  rewrite <- pystr_eqb_eq. destruct (PyStr.eqb a b); split; intros H;
    try reflexivity; try discriminate; try (intros K; discriminate).
  exfalso. apply H. reflexivity.
Qed.

(** ** The normalizer and its flags *)

Section Normalizer.

Variable urlparse : pystr -> result ParseResult.
Variable tldextract : pystr -> ExtractResult.
Variable inet_aton : pystr -> result unit.
Variable idna_decode : pystr -> result pystr.

Local Abbreviation _has_punycode := (URLAnalyzer._has_punycode idna_decode).
Local Abbreviation _is_ip_address := (URLAnalyzer._is_ip_address inet_aton).
Local Abbreviation _normalize_and_check_url :=
  (URLAnalyzer._normalize_and_check_url urlparse tldextract inet_aton idna_decode).

Lemma has_punycode_returns (hostname : pystr) :
  exists b, _has_punycode hostname = Ok b.
Proof.
  unfold URLAnalyzer._has_punycode.
  destruct (bind _ _) as [b|e]; eexists; reflexivity.
Qed.

(** C10.  [_has_punycode] returns a boolean for every hostname and never
    raises.  It returns false when the hostname has a character outside
    ASCII, and when IDNA decoding raises.  It returns true only for an ASCII
    hostname whose decoding succeeds and differs from the hostname, and it
    does return true then. *)
Theorem has_punycode_total_conservative (hostname : pystr) :
  (exists b, _has_punycode hostname = Ok b) /\
  (is_ascii hostname = false -> _has_punycode hostname = Ok false) /\
  (forall e, idna_decode hostname = Raise e -> _has_punycode hostname = Ok false) /\
  (_has_punycode hostname = Ok true ->
   is_ascii hostname = true /\
   exists decoded, idna_decode hostname = Ok decoded /\ decoded <> hostname) /\
  (forall decoded,
      is_ascii hostname = true -> idna_decode hostname = Ok decoded ->
      decoded <> hostname -> _has_punycode hostname = Ok true).
Proof.
  unfold URLAnalyzer._has_punycode, URLAnalyzer.encode_ascii.
  destruct (is_ascii hostname) eqn:A; simpl.
  - destruct (idna_decode hostname) as [decoded|e] eqn:D; simpl.
    + destruct (PyStr.eqb decoded hostname) eqn:E; simpl.
      * repeat split; try discriminate; eauto.
        intros d _ K N. injection K as <-.
        apply pystr_eqb_eq in E. contradiction.
      * repeat split; try discriminate; eauto.
        exists decoded. split; [reflexivity|]. apply pystr_eqb_neq. exact E.
    + repeat split; try discriminate; eauto.
  - repeat split; try discriminate; eauto.
Qed.

Lemma normalized_has_scheme (url : pystr) :
  startswith (URLAnalyzer.normalized url) (lit "http://")
  || startswith (URLAnalyzer.normalized url) (lit "https://") = true.
Proof.
  unfold URLAnalyzer.normalized.
  destruct (startswith (strip url) (lit "http://")
            || startswith (strip url) (lit "https://")) eqn:E.
  - exact E.
  - apply orb_true_iff. right. vm_compute. reflexivity.
Qed.

(** C9, as the code has it.  The normalizer trims the input and prepends
    [https://] when neither scheme prefix is present.  It has no handler of
    its own: when [urlparse] raises on the normalized string, the same
    exception leaves the function.  When [urlparse] succeeds and
    [inet_aton] either accepts the host or rejects it with a
    [socket.error], the function returns the normalized string and a
    features record measured on it. *)
Theorem normalizer_returns_when_parsing_succeeds (url : pystr) :
  let url' := URLAnalyzer.normalized url in
  (startswith url' (lit "http://") || startswith url' (lit "https://") = true) /\
  (startswith (strip url) (lit "http://")
   || startswith (strip url) (lit "https://") = true -> url' = strip url) /\
  (startswith (strip url) (lit "http://")
   || startswith (strip url) (lit "https://") = false ->
   url' = lit "https://" ++ strip url) /\
  (forall e, urlparse url' = Raise e -> _normalize_and_check_url url = Raise e) /\
  (forall parsed,
      urlparse url' = Ok parsed ->
      (inet_aton (netloc parsed) = Ok tt \/
       exists e, inet_aton (netloc parsed) = Raise e /\ is_socket_error e = true) ->
      exists features,
        _normalize_and_check_url url = Ok (url', features) /\
        original_url features = url' /\
        url_length features = List.length url' /\
        path_length features = List.length (path parsed) /\
        query_length features = List.length (query parsed) /\
        domain features = ext_domain (tldextract (netloc parsed)) /\
        _is_ip_address (netloc parsed) = Ok (is_ip features) /\
        _has_punycode (netloc parsed) = Ok (has_punycode features)).
Proof.
  intros url'. split; [apply normalized_has_scheme|].
  split; [|split; [|split]].
  - unfold url', URLAnalyzer.normalized. intros ->. reflexivity.
  - unfold url', URLAnalyzer.normalized. intros ->. reflexivity.
  - intros e H. unfold URLAnalyzer._normalize_and_check_url.
    fold url'. rewrite H. reflexivity.
  - intros parsed H Hip.
    destruct (has_punycode_returns (netloc parsed)) as [b Hb].
    assert (Hip' : exists ip, _is_ip_address (netloc parsed) = Ok ip).
    { unfold URLAnalyzer._is_ip_address.
      destruct Hip as [->|[e [-> He]]]; [eexists; reflexivity|].
      rewrite He. eexists; reflexivity. }
    destruct Hip' as [ip Hi].
    unfold URLAnalyzer._normalize_and_check_url. fold url'.
    rewrite H. cbn [bind]. rewrite Hi. cbn [bind]. rewrite Hb. cbn [bind].
    eexists. split; [reflexivity|]. cbn. repeat split; assumption.
Qed.

End Normalizer.

(** ** The feature vector *)

Section Features.

Variable urlparse : pystr -> result ParseResult.
Variable isdigit : N -> bool.

(** C8.  [extract_url_features] returns fifteen integers for every URL and
    every analysis record.  When a statement of its [try] block raises (in
    particular when [urlparse] does), the result is fifteen zeros; no
    exception leaves the function. *)
Theorem feature_vector_length (url : pystr) (analysis_data : AnalysisResult) :
  List.length (MLClassifier.extract_url_features urlparse isdigit url analysis_data)
  = 15 /\
  (raises (MLClassifier.url_features_body urlparse isdigit url analysis_data) ->
   MLClassifier.extract_url_features urlparse isdigit url analysis_data
   = List.repeat 0%Z 15) /\
  (raises (urlparse url) ->
   MLClassifier.extract_url_features urlparse isdigit url analysis_data
   = List.repeat 0%Z 15).
Proof.
  unfold MLClassifier.extract_url_features, MLClassifier.url_features_body, raises.
  destruct (urlparse url) as [parsed|e]; cbn [bind].
  - split; [reflexivity|]. split; intros [e H]; discriminate.
  - split; [reflexivity|]. split; intros _; reflexivity.
Qed.

End Features.

(** ** Redirect tracing *)

Section Tracing.

Variable urljoin : pystr -> pystr -> result pystr.

Local Abbreviation expected_trace := (TraceSpec.expected_trace urljoin).
Local Abbreviation follow_redirects := (URLAnalyzer.follow_redirects urljoin).
Local Abbreviation _http_fetch_and_redirects :=
  (URLAnalyzer._http_fetch_and_redirects urljoin).

Lemma expected_trace_length (redirects : list Response) :
  forall cur hops final,
    expected_trace cur redirects = Some (hops, final) ->
    List.length hops = List.length redirects.
Proof.
  induction redirects as [|r rs IH]; intros cur hops final; simpl.
  - intros E. injection E as <- _. reflexivity.
  - destruct (URLAnalyzer.is_redirect (resp_status r)); [|discriminate].
    destruct (resp_location r) as [[|c l]|]; try discriminate.
    destruct (urljoin cur (c :: l)) as [next|e]; [|discriminate].
    destruct (expected_trace next rs) as [[hs f]|] eqn:E; [|discriminate].
    intros K. injection K as <- _. simpl. f_equal. eapply IH. exact E.
Qed.

Lemma extend_chain_nil (d : HttpResult) : TraceSpec.extend_chain [] d = d.
Proof. destruct d. unfold TraceSpec.extend_chain. simpl. rewrite app_nil_r. reflexivity. Qed.

Lemma extend_chain_cons (h : Hop) (hops : list Hop) (d : HttpResult) :
  TraceSpec.extend_chain hops (URLAnalyzer.append_hop h d)
  = TraceSpec.extend_chain (h :: hops) d.
Proof.
  unfold TraceSpec.extend_chain, URLAnalyzer.append_hop. simpl.
  rewrite <- app_assoc. reflexivity.
Qed.

(** The loop on a scripted run: it records the expected hops and ends on
    the response after the run, provided the budget covers the run and
    either is used up by it or that response stops the loop. *)
Lemma follow_chain (redirects : list Response) :
  forall budget first rest stopper tail cur d hops final,
    redirects ++ [stopper] = first :: rest ->
    expected_trace cur redirects = Some (hops, final) ->
    List.length redirects <= budget ->
    (List.length redirects = budget \/ TraceSpec.stops stopper = true) ->
    follow_redirects budget (List.map Ok rest ++ tail) first cur d
    = (TraceSpec.extend_chain hops d, Ok (stopper, final)).
Proof.
  induction redirects as [|r rs IH];
    intros budget first rest stopper tail cur d hops final Hsplit Hexp Hlen Hend.
  - simpl in Hsplit. injection Hsplit as <- <-.
    simpl in Hexp. injection Hexp as <- <-.
    rewrite extend_chain_nil.
    destruct budget as [|b]; [reflexivity|].
    destruct Hend as [Hend|Hend]; [discriminate|].
    simpl. unfold TraceSpec.stops in Hend.
    destruct (URLAnalyzer.is_redirect (resp_status stopper)); [|reflexivity].
    simpl in Hend. destruct (resp_location stopper) as [[|c l]|];
      try reflexivity; discriminate.
  - simpl in Hsplit. injection Hsplit as <- <-.
    simpl in Hexp.
    destruct (URLAnalyzer.is_redirect (resp_status r)) eqn:Hr; [|discriminate].
    destruct (resp_location r) as [[|c l]|] eqn:Hl; try discriminate.
    destruct (urljoin cur (c :: l)) as [next|e] eqn:Hj; [|discriminate].
    destruct (expected_trace next rs) as [[hs f]|] eqn:E; [|discriminate].
    injection Hexp as <- <-.
    destruct budget as [|b]; [simpl in Hlen; lia|].
    simpl. rewrite Hr, Hl, Hj.
    destruct (rs ++ [stopper]) as [|first' rest'] eqn:Hrs.
    { destruct rs; discriminate. }
    simpl.
    rewrite (IH b first' rest' stopper tail next _ hs f Hrs E).
    + rewrite extend_chain_cons. reflexivity.
    + simpl in Hlen. lia.
    + destruct Hend as [Hend|Hend]; [left; simpl in Hend; lia|right; exact Hend].
Qed.

(** The whole stage on such a script. *)
Lemma http_fetch_chain (redirects : list Response) (stopper : Response)
    (tail : Session) (url : pystr) (hops : list Hop) (final : pystr) :
  expected_trace (TraceSpec.first_url redirects stopper) redirects
  = Some (hops, final) ->
  List.length redirects <= 5 ->
  (List.length redirects = 5 \/ TraceSpec.stops stopper = true) ->
  let d := _http_fetch_and_redirects
             (List.map Ok (redirects ++ [stopper]) ++ tail) url in
  redirect_chain d = hops /\
  final_url d = final /\
  status_code d = Some (resp_status stopper) /\
  headers d = resp_headers stopper /\
  (forall html, resp_status stopper = 200%Z -> resp_text stopper = Ok html ->
                html_content d = html /\ http_error d = None).
Proof.
  intros Hexp Hlen Hend d.
  destruct (redirects ++ [stopper]) as [|first rest] eqn:Hrs.
  { destruct redirects; discriminate. }
  assert (Hfirst : TraceSpec.first_url redirects stopper = resp_url first).
  { unfold TraceSpec.first_url. destruct redirects as [|r rs]; simpl in *.
    - injection Hrs as <- _. reflexivity.
    - injection Hrs as <- _. reflexivity. }
  rewrite Hfirst in Hexp.
  unfold d, URLAnalyzer._http_fetch_and_redirects.
  change (List.map Ok (first :: rest) ++ tail)
    with (Ok first :: (List.map Ok rest ++ tail)).
  unfold session_get. cbv beta iota.
  rewrite (follow_chain redirects 5 first rest stopper tail _ _ hops final
             Hrs Hexp Hlen Hend).
  destruct (Z.eqb (resp_status stopper) 200) eqn:H200.
  - destruct (resp_text stopper) as [html|e]; simpl;
      (split; [reflexivity|]); (split; [reflexivity|]);
      (split; [reflexivity|]); (split; [reflexivity|]);
      intros html' _ K; [|discriminate].
    injection K as <-. split; reflexivity.
  - simpl.
    (split; [reflexivity|]); (split; [reflexivity|]);
      (split; [reflexivity|]); (split; [reflexivity|]).
    intros html K. apply Z.eqb_neq in H200. contradiction.
Qed.

(** C3.  On a script of N responses with a redirect status and a
    [Location] that resolves, followed by a response with status 200:
    when N is at most 5, [redirect_chain] has exactly N entries (the
    expected hops) and [final_url], [status_code] and [headers] are those
    of the terminal response.  When five such redirects are followed by any
    further response (a sixth redirect included), tracing stops with
    exactly 5 recorded hops.  Tracing also stops at a response without
    [Location] or with a status that is not a redirect. *)
Theorem redirect_tracing :
  (forall redirects terminal tail url hops final,
      expected_trace (TraceSpec.first_url redirects terminal) redirects
      = Some (hops, final) ->
      resp_status terminal = 200%Z ->
      List.length redirects <= 5 ->
      let d := _http_fetch_and_redirects
                 (List.map Ok (redirects ++ [terminal]) ++ tail) url in
      List.length (redirect_chain d) = List.length redirects /\
      redirect_chain d = hops /\
      final_url d = final /\
      status_code d = Some 200%Z /\
      headers d = resp_headers terminal /\
      (forall html, resp_text terminal = Ok html ->
                    html_content d = html /\ http_error d = None)) /\
  (forall five sixth tail url hops final,
      expected_trace (TraceSpec.first_url five sixth) five = Some (hops, final) ->
      List.length five = 5 ->
      let d := _http_fetch_and_redirects
                 (List.map Ok (five ++ [sixth]) ++ tail) url in
      List.length (redirect_chain d) = 5 /\
      redirect_chain d = hops /\
      final_url d = final /\
      status_code d = Some (resp_status sixth)) /\
  (forall redirects stopper tail url hops final,
      expected_trace (TraceSpec.first_url redirects stopper) redirects
      = Some (hops, final) ->
      List.length redirects <= 5 ->
      TraceSpec.stops stopper = true ->
      let d := _http_fetch_and_redirects
                 (List.map Ok (redirects ++ [stopper]) ++ tail) url in
      List.length (redirect_chain d) = List.length redirects /\
      redirect_chain d = hops /\
      final_url d = final /\
      status_code d = Some (resp_status stopper)).
Proof.
  split; [|split].
  - intros redirects terminal tail url hops final Hexp H200 Hlen d.
    assert (Hstop : TraceSpec.stops terminal = true).
    { unfold TraceSpec.stops. rewrite H200. reflexivity. }
    destruct (http_fetch_chain redirects terminal tail url hops final Hexp Hlen
                (or_intror Hstop)) as (Hc & Hf & Hs & Hh & Ht).
    fold d in Hc, Hf, Hs, Hh, Ht.
    rewrite Hc, (expected_trace_length _ _ _ _ Hexp), Hs, H200.
    repeat (split; [assumption || reflexivity|]).
    intros html K. apply Ht; assumption.
  - intros five sixth tail url hops final Hexp Hlen d.
    assert (Hle : List.length five <= 5) by lia.
    destruct (http_fetch_chain five sixth tail url hops final Hexp Hle
                (or_introl Hlen)) as (Hc & Hf & Hs & _).
    fold d in Hc, Hf, Hs.
    rewrite Hc, (expected_trace_length _ _ _ _ Hexp).
    repeat split; assumption.
  - intros redirects stopper tail url hops final Hexp Hlen Hstop d.
    destruct (http_fetch_chain redirects stopper tail url hops final Hexp Hlen
                (or_intror Hstop)) as (Hc & Hf & Hs & _).
    fold d in Hc, Hf, Hs.
    rewrite Hc, (expected_trace_length _ _ _ _ Hexp).
    repeat split; assumption.
Qed.

End Tracing.

(** ** Stage results: payload and error *)

Section StageResults.

Variable urlparse : pystr -> result ParseResult.
Variable urljoin : pystr -> pystr -> result pystr.
Variable tldextract : pystr -> ExtractResult.
Variable dns_resolve : pystr -> result (list pystr).
Variable whois : pystr -> result WhoisRecord.
Variable BeautifulSoup : pystr -> result Soup.
Variable lower : pystr -> pystr.

Local Abbreviation _dns_and_whois_lookup :=
  (URLAnalyzer._dns_and_whois_lookup urlparse tldextract dns_resolve whois).
Local Abbreviation _http_fetch_and_redirects :=
  (URLAnalyzer._http_fetch_and_redirects urljoin).
Local Abbreviation _content_analysis :=
  (URLAnalyzer._content_analysis BeautifulSoup lower).

Import StageSpec.

(** The loop never clears what the dictionary already holds. *)
Lemma follow_redirects_keeps (budget : nat) :
  forall session response cur d,
    let out := URLAnalyzer.follow_redirects urljoin budget session response cur d in
    status_code (fst out) = status_code d /\
    http_error (fst out) = http_error d.
Proof.
  induction budget as [|b IH]; intros session response cur d; simpl.
  - split; reflexivity.
  - destruct (URLAnalyzer.is_redirect (resp_status response)); [|split; reflexivity].
    destruct (resp_location response) as [[|c l]|]; try (split; reflexivity).
    destruct (urljoin cur (c :: l)) as [next|e]; [|split; reflexivity].
    destruct (session_get session) as [[r|e] s']; [|split; reflexivity].
    destruct (IH s' r next
                (URLAnalyzer.append_hop
                   {| hop_url := cur; hop_status := resp_status response;
                      hop_location := c :: l |} d)) as [A B].
    split; [rewrite A|rewrite B]; reflexivity.
Qed.

End StageResults.

(** ** The risk compiler *)

Section Compiler.

Variable urlparse : pystr -> result ParseResult.
Variable lower : pystr -> pystr.
Variable isdigit : N -> bool.
Variable format_0f : float -> pystr.

Local Abbreviation classify := (MLClassifier.classify urlparse lower isdigit).
Local Abbreviation accumulate :=
  (URLAnalyzer.accumulate urlparse lower isdigit format_0f).
Local Abbreviation _compile_risk_assessment :=
  (URLAnalyzer._compile_risk_assessment urlparse lower isdigit format_0f).

Local Open Scope float_scope.

Lemma run_rules_cons_fixed c p t rules acc :
  RiskSpec.run_rules
    ({| RiskSpec.triggered := c; RiskSpec.points := Some p; RiskSpec.text := t |}
     :: rules) acc
  = RiskSpec.run_rules rules (URLAnalyzer.rule c p t acc).
Proof.
  unfold RiskSpec.run_rules, URLAnalyzer.rule. simpl.
  destruct c; reflexivity.
Qed.

Lemma run_indicator_rules (indicators : list pystr) :
  forall acc,
    List.fold_left URLAnalyzer.indicator_step indicators acc
    = RiskSpec.run_rules
        (List.map (fun indicator =>
                     {| RiskSpec.triggered := true;
                        RiskSpec.points := RiskSpec.indicator_points indicator;
                        RiskSpec.text := indicator |}) indicators) acc.
Proof.
  induction indicators as [|i rest IH]; intros acc; [reflexivity|].
  simpl. rewrite IH. unfold RiskSpec.run_rules. simpl. f_equal.
  unfold URLAnalyzer.indicator_step, RiskSpec.indicator_points.
  destruct (contains i (lit "external domain")); [reflexivity|].
  destruct (contains i (lit "login form")); [reflexivity|].
  destruct (contains i (lit "external scripts")); reflexivity.
Qed.

Lemma run_rules_app (rules more : list RiskSpec.Rule) (acc : URLAnalyzer.Acc) :
  RiskSpec.run_rules (rules ++ more) acc
  = RiskSpec.run_rules more (RiskSpec.run_rules rules acc).
Proof.
  unfold RiskSpec.run_rules. rewrite List.filter_app, List.fold_left_app.
  reflexivity.
Qed.

Lemma heuristic_rules_run (steps : Steps) (acc : URLAnalyzer.Acc) :
  URLAnalyzer.heuristic_rules steps acc
  = RiskSpec.run_rules (RiskSpec.fixed_rules steps ++ RiskSpec.indicator_rules steps)
      acc.
Proof.
  rewrite run_rules_app. unfold RiskSpec.fixed_rules.
  rewrite !run_rules_cons_fixed.
  unfold URLAnalyzer.heuristic_rules. rewrite run_indicator_rules.
  unfold RiskSpec.keywords_of, RiskSpec.hop_count, RiskSpec.indicator_rules,
    RiskSpec.indicators_of.
  destruct (get (token_analysis steps) suspicious_keywords); reflexivity.
Qed.

Lemma run_rules_split (rules : list RiskSpec.Rule) :
  forall acc,
    RiskSpec.run_rules rules acc
    = (List.fold_left (fun score r => RiskSpec.add_points score (RiskSpec.points r))
         (List.filter RiskSpec.triggered rules) (fst acc),
       snd acc ++ List.map RiskSpec.text (List.filter RiskSpec.triggered rules)).
Proof.
  unfold RiskSpec.run_rules.
  induction (List.filter RiskSpec.triggered rules) as [|r rs IH]; intros acc; simpl.
  - rewrite app_nil_r. destruct acc; reflexivity.
  - rewrite IH. simpl. rewrite <- app_assoc. reflexivity.
Qed.

(** The two accumulators after all rules, in terms of the rule table. *)
Lemma accumulate_spec self analysis_result :
  accumulate self analysis_result
  = (RiskSpec.risk_score
       (RiskSpec.classifier_share
          (classify self (url analysis_result) analysis_result))
       (steps analysis_result),
     RiskSpec.all_evidence
       (RiskSpec.classifier_evidence format_0f
          (classify self (url analysis_result) analysis_result))
       (steps analysis_result)).
Proof.
  unfold URLAnalyzer.accumulate, URLAnalyzer.ml_stage.
  rewrite heuristic_rules_run, run_rules_split.
  unfold RiskSpec.risk_score, RiskSpec.all_evidence, RiskSpec.contributions,
    RiskSpec.classifier_share, RiskSpec.classifier_evidence.
  cbn [fst snd].
  destruct (MLClassifier.classification _); reflexivity.
Qed.

Lemma compiled_fields self analysis_result :
  URLAnalyzer.risk_score (_compile_risk_assessment self analysis_result)
  = fst (accumulate self analysis_result) /\
  URLAnalyzer.evidence (_compile_risk_assessment self analysis_result)
  = List.firstn 6 (snd (accumulate self analysis_result)).
Proof.
  unfold URLAnalyzer._compile_risk_assessment.
  destruct (accumulate self analysis_result) as [score ev]. split; reflexivity.
Qed.

(** C5.  The compiled [risk_score] is the classifier's score in percent
    times 0.6, plus the contributions of the rules that fire, added in the
    stated order: IP-literal host 12, punycode host 8, URL longer than 100
    characters 4, more than 2 redirect hops 6 per hop, login form 10,
    suspicious keywords 4 per keyword, and per dynamic indicator 16, 12 or 6
    by the substring it contains.  The evidence gathered is the classifier's
    followed by exactly one string per rule that fired, in the same
    order. *)
Theorem risk_score_formula self analysis_result :
  let ml := classify self (url analysis_result) analysis_result in
  let r := _compile_risk_assessment self analysis_result in
  let classifier_score_percent := MLClassifier.phishing_score ml * 100 in
  let fired := RiskSpec.contributions (steps analysis_result) in
  URLAnalyzer.risk_score r
  = List.fold_left (fun score rule => RiskSpec.add_points score (RiskSpec.points rule))
      fired (0 + classifier_score_percent * 0.6) /\
  snd (accumulate self analysis_result)
  = RiskSpec.classifier_evidence format_0f ml ++ List.map RiskSpec.text fired /\
  List.length (snd (accumulate self analysis_result))
  = (List.length (RiskSpec.classifier_evidence format_0f ml)
     + List.length fired)%nat /\
  URLAnalyzer.evidence r
  = List.firstn 6
      (RiskSpec.classifier_evidence format_0f ml ++ List.map RiskSpec.text fired).
Proof.
  intros ml r pct fired.
  destruct (compiled_fields self analysis_result) as [Hs He].
  unfold r. rewrite Hs, He, accumulate_spec. cbn [fst snd].
  unfold RiskSpec.all_evidence. rewrite List.length_app, List.length_map.
  repeat split; reflexivity.
Qed.

(** C6.  The assessment exposes the first 6 entries of the evidence list
    in the order they were appended: all of them when at most 6 were
    appended, and exactly the first 6 when more were, whatever the later
    entries contributed to the score. *)
Theorem evidence_cap self analysis_result :
  let appended := snd (accumulate self analysis_result) in
  let r := _compile_risk_assessment self analysis_result in
  appended
  = RiskSpec.all_evidence
      (RiskSpec.classifier_evidence format_0f
         (classify self (url analysis_result) analysis_result))
      (steps analysis_result) /\
  URLAnalyzer.evidence r = List.firstn 6 appended /\
  ((List.length appended <= 6)%nat -> URLAnalyzer.evidence r = appended) /\
  ((6 < List.length appended)%nat ->
   List.length (URLAnalyzer.evidence r) = 6%nat /\
   exists dropped,
     dropped <> [] /\ appended = URLAnalyzer.evidence r ++ dropped) /\
  (forall i, (i < 6)%nat ->
             List.nth_error (URLAnalyzer.evidence r) i = List.nth_error appended i).
Proof.
  intros appended r.
  destruct (compiled_fields self analysis_result) as [_ He].
  fold appended in He. fold r in He.
  split; [unfold appended; rewrite accumulate_spec; reflexivity|].
  split; [exact He|]. rewrite He. split; [|split].
  - intros H. apply List.firstn_all2. exact H.
  - intros H. split.
    + rewrite List.length_firstn. lia.
    + exists (List.skipn 6 appended). split.
      * intros K. apply (f_equal (@List.length pystr)) in K.
        rewrite List.length_skipn in K. simpl in K. lia.
      * symmetry. apply List.firstn_skipn.
  - intros i Hi. rewrite List.nth_error_firstn.
    apply Nat.ltb_lt in Hi. rewrite Hi. reflexivity.
Qed.

(** What [classify] consults of the classifier: whether it was fitted and,
    when it was, the model's answer on the one feature vector of the
    record. *)
Lemma classify_consults_one_answer self1 self2 url analysis_data :
  MLClassifier.is_trained self1 = MLClassifier.is_trained self2 ->
  (MLClassifier.is_trained self1 = true ->
   MLClassifier.predict_phishing self1
     (MLClassifier.extract_url_features urlparse isdigit url analysis_data)
   = MLClassifier.predict_phishing self2
       (MLClassifier.extract_url_features urlparse isdigit url analysis_data) \/
   (raises (MLClassifier.predict_phishing self1
              (MLClassifier.extract_url_features urlparse isdigit url analysis_data)) /\
    raises (MLClassifier.predict_phishing self2
              (MLClassifier.extract_url_features urlparse isdigit url analysis_data)))) ->
  classify self1 url analysis_data = classify self2 url analysis_data.
Proof.
  intros Ht Hm. unfold MLClassifier.classify. rewrite <- Ht.
  destruct (MLClassifier.is_trained self1); cbn [negb]; [|reflexivity].
  destruct (Hm eq_refl) as [E|[[e1 E1] [e2 E2]]].
  - rewrite E. reflexivity.
  - rewrite E1, E2. reflexivity.
Qed.

(** C2, as the code has it.  Each call constructs its own classifier, whose
    model is fitted on fresh random data, so the fitted model is an input of
    the call.  Of that input the call consults two things only: whether
    fitting succeeded, and the model's answer on the one feature vector
    extracted from the record.  Two calls on the same analysis record whose
    classifiers agree on these return the same assessment, whatever the two
    models answer on other vectors and whatever exceptions they raise. *)
Theorem assessment_determined_by_classifier_output self1 self2 analysis_result :
  let x := MLClassifier.extract_url_features urlparse isdigit
             (url analysis_result) analysis_result in
  MLClassifier.is_trained self1 = MLClassifier.is_trained self2 ->
  (MLClassifier.is_trained self1 = true ->
   MLClassifier.predict_phishing self1 x = MLClassifier.predict_phishing self2 x \/
   (raises (MLClassifier.predict_phishing self1 x) /\
    raises (MLClassifier.predict_phishing self2 x))) ->
  _compile_risk_assessment self1 analysis_result
  = _compile_risk_assessment self2 analysis_result.
Proof.
  intros x Ht Hm.
  unfold URLAnalyzer._compile_risk_assessment, URLAnalyzer.accumulate,
    URLAnalyzer.ml_stage.
  rewrite (classify_consults_one_answer self1 self2 (url analysis_result)
             analysis_result Ht Hm).
  reflexivity.
Qed.

End Compiler.

(** ** The properties at concrete inputs *)

Example of_nat_examples :
  of_nat 3 = lit "3" /\ of_nat 0 = lit "0" /\ of_nat 120 = lit "120".
Proof. repeat split. Qed.

Example split_example : split (lit "a.b..c") 46%N = [lit "a"; lit "b"; []; lit "c"].
Proof. reflexivity. Qed.

Example strip_example : strip (lit "  ab c ") = lit "ab c".
Proof. reflexivity. Qed.

Example format_0f_examples :
  Reference.format_0f 71 = lit "71" /\ Reference.format_0f 70.5 = lit "70" /\
  Reference.format_0f 71.5 = lit "72" /\ Reference.format_0f 0.4 = lit "0" /\
  Reference.format_0f 84.99 = lit "85".
Proof. vm_compute. repeat split. Qed.

Example urlparse_example :
  Reference.urlparse (lit "https://user@a.example:8443/p/q;x?k=v#frag")
  = Ok {| scheme := lit "https"; netloc := lit "user@a.example:8443";
          path := lit "/p/q"; query := lit "k=v" |}.
Proof. reflexivity. Qed.

Example search_ipv4_examples :
  MLClassifier.search_ipv4 (lit "http://192.168.0.5/login") = true /\
  MLClassifier.search_ipv4 (lit "http://a.example/1.2.3") = false /\
  MLClassifier.search_ipv4 (lit "v1234.5.6.7890") = true.
Proof. repeat split. Qed.

Section AtReference.

Local Abbreviation compile :=
  (URLAnalyzer._compile_risk_assessment Reference.urlparse Reference.lower
     Reference.isdigit Reference.format_0f).
Local Abbreviation classify :=
  (MLClassifier.classify Reference.urlparse Reference.lower Reference.isdigit).
Local Abbreviation normalize :=
  (URLAnalyzer._normalize_and_check_url Reference.urlparse Reference.tldextract
     Reference.inet_aton Reference.idna_decode).
Local Abbreviation http_fetch :=
  (URLAnalyzer._http_fetch_and_redirects Reference.urljoin).
Local Abbreviation dns_and_whois :=
  (URLAnalyzer._dns_and_whois_lookup Reference.urlparse Reference.tldextract
     Reference.dns_resolve Reference.whois).

(** Two calls on the same analysis record, each with its own fitted model
    (one answers 0.45, the other 0.62), that return different assessments:
    the risk scores are about 18.9 and 26.04, and only the second lists the
    classifier's evidence. *)
Lemma two_calls_two_assessments :
  compile (Scenario.model 0.45) Scenario.quiet
  <> compile (Scenario.model 0.62) Scenario.quiet.
Proof.
  intros H.
  apply (f_equal (fun r => List.length (URLAnalyzer.evidence r))) in H.
  vm_compute in H. discriminate.
Qed.

Example two_calls_values :
  URLAnalyzer.evidence (compile (Scenario.model 0.45) Scenario.quiet) = [] /\
  URLAnalyzer.evidence (compile (Scenario.model 0.62) Scenario.quiet)
  = [lit "ML classifier flagged as suspicious (confidence: 43%)"] /\
  PrimFloat.ltb (URLAnalyzer.risk_score (compile (Scenario.model 0.45) Scenario.quiet))
    (URLAnalyzer.risk_score (compile (Scenario.model 0.62) Scenario.quiet)) = true.
Proof. vm_compute. repeat split. Qed.

(** The spec's scenario [http://192.168.0.5/login]: 12 + 10 + 4 = 26 rule
    points; with a classifier share of 0 the score is 26 and the verdict
    safe. *)
Example ip_login_scores :
  let r := compile (Scenario.model 0) Scenario.ip_login in
  URLAnalyzer.risk_score r = 26%float /\
  URLAnalyzer.verdict r = URLAnalyzer.Safe /\
  URLAnalyzer.evidence r
  = [ lit "URL uses IP address instead of domain name";
      lit "Contains login form";
      lit "Contains suspicious keywords: login" ].
Proof. vm_compute. repeat split. Qed.

Example busy_scores :
  let r := compile (Scenario.model 1) Scenario.busy in
  URLAnalyzer.risk_score r = 130%float /\
  URLAnalyzer.verdict r = URLAnalyzer.Dangerous /\
  URLAnalyzer.confidence r = 60%float.
Proof. vm_compute. repeat split. Qed.

(** Two fitted models that agree on the feature vector of the record and
    on no other vector. *)
Lemma assessment_determined_witness :
  MLClassifier.predict_phishing (Scenario.model 0.8) [] = Ok 0.8%float /\
  MLClassifier.predict_phishing (Sample.model_at Sample.busy_vector 0.8 0.1) []
  = Ok 0.1%float /\
  compile (Scenario.model 0.8) Scenario.busy
  = compile (Sample.model_at Sample.busy_vector 0.8 0.1) Scenario.busy /\
  URLAnalyzer.verdict (compile (Scenario.model 0.8) Scenario.busy)
  = URLAnalyzer.Dangerous.
Proof.
  split; [reflexivity|]. split; [reflexivity|].
  assert (H : compile (Scenario.model 0.8) Scenario.busy
              = compile (Sample.model_at Sample.busy_vector 0.8 0.1) Scenario.busy).
  { apply (assessment_determined_by_classifier_output Reference.urlparse
             Reference.lower Reference.isdigit Reference.format_0f
             (Scenario.model 0.8) (Sample.model_at Sample.busy_vector 0.8 0.1)
             Scenario.busy).
    - reflexivity.
    - intros _. left. vm_compute. reflexivity. }
  split; [exact H|]. vm_compute. reflexivity.
Defined.

Lemma redirect_tracing_witness :
  (let d := http_fetch (List.map Ok (Scenario.two_redirects ++ [Scenario.page]))
              (lit "http://a.example/") in
   List.length (redirect_chain d) = 2 /\
   final_url d = lit "https://b.example/home" /\
   status_code d = Some 200%Z /\
   html_content d = lit "<html>home</html>" /\
   http_error d = None) /\
  (let d := http_fetch
              (List.map Ok (List.repeat Scenario.loop_response 5
                            ++ [Scenario.loop_response])
               ++ List.map Ok (List.repeat Scenario.loop_response 3))
              (lit "http://loop.example/") in
   List.length (redirect_chain d) = 5 /\
   status_code d = Some 307%Z).
Proof.
  destruct (redirect_tracing Reference.urljoin) as (A & B & _).
  split.
  - intros d.
    assert (Hexp : TraceSpec.expected_trace Reference.urljoin
                     (TraceSpec.first_url Scenario.two_redirects Scenario.page)
                     Scenario.two_redirects
                   = Some ([ {| hop_url := lit "http://a.example/";
                                hop_status := 301;
                                hop_location := lit "http://b.example/" |};
                             {| hop_url := lit "http://b.example/";
                                hop_status := 302;
                                hop_location := lit "https://b.example/home" |} ],
                           lit "https://b.example/home"))
      by (vm_compute; reflexivity).
    assert (H200 : resp_status Scenario.page = 200%Z) by reflexivity.
    assert (Hlen : List.length Scenario.two_redirects <= 5) by (simpl; lia).
    destruct (A Scenario.two_redirects Scenario.page [] (lit "http://a.example/")
                _ _ Hexp H200 Hlen) as (L & _ & F & S & _ & T).
    rewrite List.app_nil_r in L, F, S, T.
    destruct (T (lit "<html>home</html>") eq_refl) as [T1 T2].
    repeat split; assumption.
  - intros d.
    assert (Hexp : TraceSpec.expected_trace Reference.urljoin
                     (TraceSpec.first_url (List.repeat Scenario.loop_response 5)
                        Scenario.loop_response)
                     (List.repeat Scenario.loop_response 5)
                   = Some (List.repeat Scenario.loop_hop 5,
                           lit "http://loop.example/"))
      by (vm_compute; reflexivity).
    destruct (B (List.repeat Scenario.loop_response 5) Scenario.loop_response
                (List.map Ok (List.repeat Scenario.loop_response 3))
                (lit "http://loop.example/") _ _ Hexp eq_refl)
      as (L & _ & _ & S).
    split; assumption.
Defined.

Lemma verdict_thresholds_witness :
  (PyFloat.ge 75 70 = true /\
   URLAnalyzer.verdict_of 75 = URLAnalyzer.Dangerous) /\
  (PyFloat.ge 55.5 40 = true /\ PyFloat.lt 55.5 70 = true /\
   URLAnalyzer.verdict_of 55.5 = URLAnalyzer.SuspiciousVerdict) /\
  (PyFloat.lt 12.25 40 = true /\
   URLAnalyzer.verdict_of 12.25 = URLAnalyzer.Safe) /\
  URLAnalyzer.verdict (compile (Scenario.model 1) Scenario.busy)
  = URLAnalyzer.Dangerous.
Proof.
  destruct verdict_thresholds as (C & G & _).
  split; [split; [reflexivity|apply (G 75%float); reflexivity]|].
  split; [split; [reflexivity|split; [reflexivity|]];
          apply (G 55.5%float); reflexivity|].
  split; [split; [reflexivity|apply (G 12.25%float); reflexivity]|].
  apply (C Reference.urlparse Reference.lower Reference.isdigit
           Reference.format_0f (Scenario.model 1) Scenario.busy).
  vm_compute. reflexivity.
Defined.

Lemma classifier_combination_witness :
  (let combined := (0.7 * 0.5 + 0.3 * 0.25)%float in
   PyFloat.ge combined 0.4 = true /\ PyFloat.lt combined 0.7 = true /\
   MLClassifier.classification (MLClassifier.combine 0.5 0.25 [])
   = MLClassifier.Suspicious) /\
  MLClassifier.classification
    (classify (Scenario.model 1) (url Scenario.busy) Scenario.busy)
  = MLClassifier.Phishing.
Proof.
  destruct classifier_combination as (A & B & _).
  split.
  - intros combined.
    assert (H4 : PyFloat.ge combined 0.4 = true) by (vm_compute; reflexivity).
    assert (H7 : PyFloat.lt combined 0.7 = true) by (vm_compute; reflexivity).
    split; [exact H4|]. split; [exact H7|].
    destruct (A 0.5%float 0.25%float []) as (_ & _ & _ & _ & S & _).
    apply (S H4 H7).
  - rewrite (B Reference.urlparse Reference.lower Reference.isdigit
               (Scenario.model 1) (url Scenario.busy) Scenario.busy 1%float
               eq_refl eq_refl).
    vm_compute. reflexivity.
Defined.

Lemma evidence_cap_witness :
  let appended :=
    snd (URLAnalyzer.accumulate Reference.urlparse Reference.lower
           Reference.isdigit Reference.format_0f (Scenario.model 1) Scenario.busy) in
  List.length appended = 9 /\
  URLAnalyzer.evidence (compile (Scenario.model 1) Scenario.busy)
  = [ lit "ML classifier detected phishing patterns (confidence: 70%)";
      lit "URL uses IP address instead of domain name";
      lit "URL contains punycode (internationalized domain)";
      lit "Unusually long URL";
      lit "Multiple redirects detected (3 redirects)";
      lit "Contains login form" ] /\
  List.length (URLAnalyzer.evidence (compile (Scenario.model 1) Scenario.busy)) = 6.
Proof.
  intros appended.
  assert (L : List.length appended = 9) by (vm_compute; reflexivity).
  destruct (evidence_cap Reference.urlparse Reference.lower Reference.isdigit
              Reference.format_0f (Scenario.model 1) Scenario.busy)
    as (_ & E & _ & G & _).
  fold appended in E, G.
  split; [exact L|]. split.
  - rewrite E. vm_compute. reflexivity.
  - apply G. rewrite L. lia.
Defined.

(** The normalizer on a string that [urlparse] rejects: the exception
    leaves the function, no record is returned. *)
Lemma normalizer_raises_on_parse_error :
  normalize (lit "http://[") = Raise (Exn ValueError (lit "Invalid IPv6 URL")) /\
  ~ returns (normalize (lit "http://[")).
Proof.
  assert (H : normalize (lit "http://[")
              = Raise (Exn ValueError (lit "Invalid IPv6 URL")))
    by (vm_compute; reflexivity).
  split; [exact H|]. intros [a K]. rewrite H in K. discriminate.
Qed.

Lemma normalizer_witness :
  exists features,
    normalize (lit "  Example.com/a/b?x=1 ")
    = Ok (lit "https://Example.com/a/b?x=1", features) /\
    url_length features = 27 /\ path_length features = 4 /\
    query_length features = 3.
Proof.
  destruct (normalizer_returns_when_parsing_succeeds Reference.urlparse
              Reference.tldextract Reference.inet_aton Reference.idna_decode
              (lit "  Example.com/a/b?x=1 ")) as (_ & _ & _ & _ & H).
  destruct (H {| scheme := lit "https"; netloc := lit "Example.com";
                 path := lit "/a/b"; query := lit "x=1" |} eq_refl)
    as (features & E & _ & L & P & Q & _).
  - right. eexists. split; reflexivity.
  - exists features. repeat split; assumption.
Defined.

Lemma has_punycode_witness :
  (is_ascii (lit "p" ++ [1072%N] ++ lit "ypal.com") = false /\
   URLAnalyzer._has_punycode Reference.idna_decode
     (lit "p" ++ [1072%N] ++ lit "ypal.com") = Ok false) /\
  URLAnalyzer._has_punycode Reference.idna_decode (lit "xn--mnchen-3ya.de")
  = Ok true.
Proof.
  split.
  - assert (A : is_ascii (lit "p" ++ [1072%N] ++ lit "ypal.com") = false)
      by reflexivity.
    split; [exact A|].
    apply (has_punycode_total_conservative Reference.idna_decode
             (lit "p" ++ [1072%N] ++ lit "ypal.com")). exact A.
  - destruct (has_punycode_total_conservative Reference.idna_decode
                (lit "xn--mnchen-3ya.de")) as (_ & _ & _ & _ & T).
    apply (T (lit "m" ++ [252%N] ++ lit "nchen.de")).
    + reflexivity.
    + reflexivity.
    + intros K. apply (f_equal (@List.length N)) in K. vm_compute in K.
      discriminate.
Defined.

Lemma feature_vector_witness :
  raises (Reference.urlparse (lit "http://[")) /\
  MLClassifier.extract_url_features Reference.urlparse Reference.isdigit
    (lit "http://[") Scenario.busy = List.repeat 0%Z 15.
Proof.
  assert (R : raises (Reference.urlparse (lit "http://[")))
    by (eexists; vm_compute; reflexivity).
  split; [exact R|].
  apply (feature_vector_length Reference.urlparse Reference.isdigit
           (lit "http://[") Scenario.busy). exact R.
Defined.

End AtReference.

(* ================================================================== *)
(** * Further properties of the code *)

(** ** Scores and confidences *)

Module FloatFacts.

Local Open Scope float_scope.

Lemma SF_lt_le (x y : spec_float) : SFltb x y = true -> SFleb x y = true.
Proof. FloatOrder.sf_order. Qed.

Lemma ltb_leb (x y : float) : (x <? y) = true -> (x <=? y) = true.
Proof. rewrite ltb_spec, leb_spec. apply SF_lt_le. Qed.

(** [min(a, b)] is at most [a], for a number [a]. *)
Lemma min_le_left (a b : float) :
  (a <=? a) = true -> (PyFloat.min a b <=? a) = true.
Proof.
  intros Ha. unfold PyFloat.min. destruct (b <? a) eqn:E.
  - apply ltb_leb. exact E.
  - exact Ha.
Qed.

(** [max(a, b)] is at least [a], for a number [a]. *)
Lemma max_ge_left (a b : float) :
  (a <=? a) = true -> (a <=? PyFloat.max a b) = true.
Proof.
  intros Ha. unfold PyFloat.max. destruct (a <? b) eqn:E.
  - apply ltb_leb. exact E.
  - exact Ha.
Qed.

Lemma confidence_of_range (risk_score : float) :
  (60 <=? URLAnalyzer.confidence_of risk_score) = true /\
  (URLAnalyzer.confidence_of risk_score <=? 95) = true.
Proof.
  unfold URLAnalyzer.confidence_of.
  set (m := PyFloat.max 60 (100 - abs (risk_score - 50))).
  assert (Hm : (60 <=? m) = true) by (apply max_ge_left; reflexivity).
  split; [|apply min_le_left; reflexivity].
  unfold PyFloat.min. destruct (m <? 95); [exact Hm|reflexivity].
Qed.

End FloatFacts.

Section MoreOnScores.

Variable urlparse : pystr -> result ParseResult.
Variable lower : pystr -> pystr.
Variable isdigit : N -> bool.
Variable format_0f : float -> pystr.

Local Open Scope float_scope.

(** X1.  The confidence of every compiled assessment lies between 60 and
    95, whatever the score (an undefined score included). *)
Theorem compiled_confidence_range self analysis_result :
  let r := URLAnalyzer._compile_risk_assessment urlparse lower isdigit format_0f
             self analysis_result in
  (60 <=? URLAnalyzer.confidence r) = true /\
  (URLAnalyzer.confidence r <=? 95) = true.
Proof.
  intros r. unfold r, URLAnalyzer._compile_risk_assessment.
  destruct (URLAnalyzer.accumulate _ _ _ _ _ _) as [score ev].
  cbn [URLAnalyzer.confidence]. apply FloatFacts.confidence_of_range.
Qed.

Lemma check_all_sound (P : float -> bool) (choose : pystr -> bool)
    (table : list (pystr * float)) :
  forall score,
    ExtraSpec.check_all P table score = true ->
    P (List.fold_left
         (fun score kw => if choose (fst kw) then score + snd kw else score)
         table score) = true.
Proof.
  induction table as [|kw rest IH]; intros score H; simpl in *; [exact H|].
  apply andb_true_iff in H. destruct H as [H0 H1].
  destruct (choose (fst kw)); apply IH; assumption.
Qed.

Lemma fold_no_match (choose : pystr -> bool) (table : list (pystr * float)) :
  forall score,
    (forall kw, In kw table -> choose (fst kw) = false) ->
    List.fold_left
      (fun score kw => if choose (fst kw) then score + snd kw else score)
      table score = score.
Proof.
  induction table as [|kw rest IH]; intros score H; simpl; [reflexivity|].
  rewrite (H kw (or_introl eq_refl)). apply IH.
  intros kw' Hin. apply H. right. exact Hin.
Qed.

(** Every sum the keyword loop can reach is clamped into the unit
    interval: all subsets of the table are evaluated. *)
Lemma keyword_sums_clamped :
  ExtraSpec.check_all ExtraSpec.clamped_in_unit MLClassifier.phishing_keywords 0
  = true.
Proof. vm_compute. reflexivity. Qed.

(** The score of a non-empty text, with the loop written out. *)
Lemma text_score_unfold (c : N) (text : pystr) :
  MLClassifier._analyze_text_content lower (c :: text)
  = PyFloat.min 1
      (List.fold_left
         (fun score kw =>
            if contains (lower (c :: text)) (fst kw) then score + snd kw
            else score)
         MLClassifier.phishing_keywords 0 / 2).
Proof. reflexivity. Qed.

Lemma clamp_bounds (s : float) :
  ExtraSpec.clamped_in_unit s = true ->
  (0 <=? PyFloat.min 1 (s / 2)) = true /\ (PyFloat.min 1 (s / 2) <=? 1) = true.
Proof. intros H. apply andb_true_iff in H. exact H. Qed.

(** X2.  The keyword score of a text lies between 0 and 1 for every text,
    and it is 0 when the text is empty or none of the keywords occurs in
    its lower-cased form. *)
Theorem text_score_range (text : pystr) :
  let score := MLClassifier._analyze_text_content lower text in
  (0 <=? score) = true /\ (score <=? 1) = true /\
  (text = [] -> score = 0) /\
  ((forall kw, In kw MLClassifier.phishing_keywords ->
               contains (lower text) (fst kw) = false) -> score = 0).
Proof.
  intros score. unfold score. destruct text as [|c text].
  - repeat split; reflexivity.
  - rewrite text_score_unfold.
    destruct (clamp_bounds _
                (check_all_sound ExtraSpec.clamped_in_unit
                   (contains (lower (c :: text)))
                   MLClassifier.phishing_keywords 0 keyword_sums_clamped))
      as [H0 H1].
    split; [exact H0|]. split; [exact H1|]. split; [discriminate|].
    intros Hnone.
    rewrite (fold_no_match (contains (lower (c :: text))) _ 0 Hnone).
    reflexivity.
Qed.

Lemma fallback_cases url analysis_data :
  let r := MLClassifier._fallback_classification url analysis_data in
  let tenths :=
    ExtraSpec.fallback_tenths
      (100 <? List.length url)%nat
      (contains url (lit "bit.ly") || contains url (lit "tinyurl"))
      (MLClassifier.search_ipv4 url)
      (2 <? len_or_empty (get1 (http_analysis (steps analysis_data)) redirect_chain))%nat
      (truthy_bool (get (content_analysis (steps analysis_data)) has_login_form)) in
  MLClassifier.classification r = ExtraSpec.fallback_class tenths /\
  MLClassifier.confidence r
  = ExtraSpec.fallback_confidence (ExtraSpec.fallback_class tenths) /\
  MLClassifier.url_score r = MLClassifier.phishing_score r /\
  MLClassifier.text_score r = 0 /\
  MLClassifier.features_used r = [].
Proof.
  intros r tenths. unfold r, tenths, MLClassifier._fallback_classification.
  destruct (100 <? List.length url)%nat;
    destruct (contains url (lit "bit.ly") || contains url (lit "tinyurl"));
    destruct (MLClassifier.search_ipv4 url);
    destruct (2 <? len_or_empty _)%nat;
    destruct (truthy_bool _);
    vm_compute; repeat split.
Qed.

(** X3.  The rule-based fallback follows the exact decimal weights of its
    rules (long URL 0.2, shortener 0.3, embedded IPv4 pattern 0.4, more than
    two redirects 0.3, login form 0.2): it answers phishing exactly when
    the fired weights total 0.6 or more, suspicious from 0.3, else
    legitimate, with confidence 75, 70 or 80; binary rounding never moves a
    case across a threshold.  Its [text_score] is 0 and it lists no
    features. *)
Theorem fallback_follows_decimal_weights url analysis_data :
  let r := MLClassifier._fallback_classification url analysis_data in
  let tenths :=
    ExtraSpec.fallback_tenths
      (100 <? List.length url)%nat
      (contains url (lit "bit.ly") || contains url (lit "tinyurl"))
      (MLClassifier.search_ipv4 url)
      (2 <? len_or_empty (get1 (http_analysis (steps analysis_data)) redirect_chain))%nat
      (truthy_bool (get (content_analysis (steps analysis_data)) has_login_form)) in
  MLClassifier.classification r = ExtraSpec.fallback_class tenths /\
  MLClassifier.confidence r
  = ExtraSpec.fallback_confidence (ExtraSpec.fallback_class tenths) /\
  MLClassifier.url_score r = MLClassifier.phishing_score r /\
  MLClassifier.text_score r = 0 /\
  MLClassifier.features_used r = [].
Proof. exact (fallback_cases url analysis_data). Qed.

(** X4.  Whatever the model answers, and also when it is missing or
    raises, the confidence [classify] reports stays under the cap of the
    class it reports: 95 for phishing, 85 for suspicious, 90 for
    legitimate. *)
Theorem classifier_confidence_capped self url analysis_data :
  let r := MLClassifier.classify urlparse lower isdigit self url analysis_data in
  (MLClassifier.confidence r
   <=? ExtraSpec.confidence_cap (MLClassifier.classification r)) = true /\
  (MLClassifier.confidence r <=? 95) = true.
Proof.
  intros r.
  assert (F : forall u d,
             let f := MLClassifier._fallback_classification u d in
             (MLClassifier.confidence f
              <=? ExtraSpec.confidence_cap (MLClassifier.classification f)) = true /\
             (MLClassifier.confidence f <=? 95) = true).
  { intros u d f. destruct (fallback_cases u d) as (Hc & Hf & _).
    fold f in Hc, Hf. rewrite Hf, Hc.
    destruct (ExtraSpec.fallback_class _); split; reflexivity. }
  assert (C : forall u t fs,
             let c := MLClassifier.combine u t fs in
             (MLClassifier.confidence c
              <=? ExtraSpec.confidence_cap (MLClassifier.classification c)) = true /\
             (MLClassifier.confidence c <=? 95) = true).
  { intros u t fs c. unfold c, MLClassifier.combine.
    destruct (PyFloat.ge (u * 0.7 + t * 0.3) 0.7);
      [|destruct (PyFloat.ge (u * 0.7 + t * 0.3) 0.4)];
      cbn [MLClassifier.confidence MLClassifier.classification
           ExtraSpec.confidence_cap].
    - split; apply FloatFacts.min_le_left; reflexivity.
    - assert (H : (PyFloat.min 85 ((u * 0.7 + t * 0.3) * 100) <=? 85) = true)
        by (apply FloatFacts.min_le_left; reflexivity).
      split; [exact H|].
      apply (FloatOrder.leb_trans _ 85 95 H). reflexivity.
    - assert (H : (PyFloat.min 90 ((1 - (u * 0.7 + t * 0.3)) * 100) <=? 90) = true)
        by (apply FloatFacts.min_le_left; reflexivity).
      split; [exact H|].
      apply (FloatOrder.leb_trans _ 90 95 H). reflexivity. }
  unfold r, MLClassifier.classify.
  destruct (negb (MLClassifier.is_trained self)); [apply F|].
  destruct (MLClassifier.predict_phishing self _); [apply C|apply F].
Qed.

End MoreOnScores.

(** ** Strings, lists and dictionaries *)

Module ListFacts.

Lemma eqb_refl (a : pystr) : PyStr.eqb a a = true.
Proof. apply pystr_eqb_eq. reflexivity. Qed.

Lemma eqb_sym (a b : pystr) : PyStr.eqb a b = PyStr.eqb b a.
Proof.
  destruct (PyStr.eqb a b) eqn:E, (PyStr.eqb b a) eqn:F; try reflexivity.
  - apply pystr_eqb_eq in E. subst. rewrite eqb_refl in F. discriminate.
  - apply pystr_eqb_eq in F. subst. rewrite eqb_refl in E. discriminate.
Qed.

(** [len(s.split(c)) == s.count(c) + 1] *)
Lemma split_length (s : pystr) (c : N) :
  List.length (split s c) = count s c + 1.
Proof.
  unfold count. induction s as [|x s IH]; [reflexivity|].
  simpl. rewrite (N.eqb_sym c x). destruct (N.eqb x c).
  - simpl. rewrite IH. reflexivity.
  - destruct (split s c) as [|w ws] eqn:E.
    + simpl in IH. lia.
    + simpl in *. exact IH.
Qed.

(** [s.split(c)[0]] is the part of [s] before the first [c]. *)
Lemma split_head (s : pystr) (c : N) :
  ~ In c (List.hd [] (split s c)) /\
  (s = List.hd [] (split s c) \/
   exists rest, s = List.hd [] (split s c) ++ c :: rest).
Proof.
  induction s as [|x s IH]; simpl.
  - split; [intros []|left; reflexivity].
  - destruct (N.eqb x c) eqn:E.
    + apply N.eqb_eq in E. subst. simpl.
      split; [intros []|right; exists s; reflexivity].
    + pose proof (split_length s c) as L.
      destruct (split s c) as [|w ws] eqn:S; [simpl in L; lia|].
      simpl in *. destruct IH as [IH1 IH2]. split.
      * intros [K|K]; [apply N.eqb_neq in E; congruence|contradiction].
      * destruct IH2 as [IH2|[rest IH2]].
        -- left. f_equal. exact IH2.
        -- right. exists rest. f_equal. exact IH2.
Qed.

(** The appending loop keeps the elements that pass the test, in order. *)
Lemma fold_append_filter {A} (f : A -> bool) (l : list A) :
  forall acc,
    List.fold_left (fun found x => if f x then found ++ [x] else found) l acc
    = acc ++ List.filter f l.
Proof.
  induction l as [|x l IH]; intros acc; simpl.
  - rewrite app_nil_r. reflexivity.
  - rewrite IH. destruct (f x); [rewrite <- app_assoc|]; reflexivity.
Qed.

Lemma existsb_eqb_In (x : pystr) (l : list pystr) :
  List.existsb (PyStr.eqb x) l = true <-> In x l.
Proof.
  rewrite List.existsb_exists. split.
  - intros [y [Hin E]]. apply pystr_eqb_eq in E. subst. exact Hin.
  - intros Hin. exists x. split; [exact Hin|apply eqb_refl].
Qed.

Lemma nodupb_sound (l : list pystr) : ExtraSpec.nodupb l = true -> NoDup l.
Proof.
  induction l as [|x l IH]; simpl; intros H; constructor.
  - apply andb_true_iff in H. destruct H as [H _].
    intros Hin. apply existsb_eqb_In in Hin. rewrite Hin in H. discriminate.
  - apply IH. apply andb_true_iff in H. apply H.
Qed.

(** Dictionaries. *)
Lemma dict_set_keys {V} (k : pystr) (v : V) (d : Stages.Dict V) :
  List.map fst (Stages.dict_set k v d)
  = if List.existsb (PyStr.eqb k) (List.map fst d)
    then List.map fst d else List.map fst d ++ [k].
Proof.
  induction d as [|[k' v'] d IH]; simpl; [reflexivity|].
  rewrite (eqb_sym k k'). destruct (PyStr.eqb k' k) eqn:E; simpl.
  - apply pystr_eqb_eq in E. subst. reflexivity.
  - rewrite IH. destruct (List.existsb _ _); reflexivity.
Qed.

Lemma dict_set_nodup {V} (k : pystr) (v : V) (d : Stages.Dict V) :
  NoDup (List.map fst d) -> NoDup (List.map fst (Stages.dict_set k v d)).
Proof.
  intros H. rewrite dict_set_keys.
  destruct (List.existsb (PyStr.eqb k) (List.map fst d)) eqn:E; [exact H|].
  apply List.NoDup_app; [exact H|constructor; [intros []|constructor]|].
  intros x Hx [<-|[]]. apply existsb_eqb_In in Hx. congruence.
Qed.

Lemma dict_get_set {V} (k k' : pystr) (v : V) (d : Stages.Dict V) :
  Stages.dict_get k' (Stages.dict_set k v d)
  = if PyStr.eqb k k' then Some v else Stages.dict_get k' d.
Proof.
  induction d as [|[k0 v0] d IH]; simpl.
  - reflexivity.
  - destruct (PyStr.eqb k0 k) eqn:E; simpl.
    + apply pystr_eqb_eq in E. subst. destruct (PyStr.eqb k k'); reflexivity.
    + rewrite IH. destruct (PyStr.eqb k0 k') eqn:F; [|reflexivity].
      apply pystr_eqb_eq in F. subst. rewrite (eqb_sym k k'), E. reflexivity.
Qed.

Lemma find_app {A} (f : A -> bool) (l l' : list A) :
  List.find f (l ++ l')
  = match List.find f l with
    | Some x => Some x
    | None => List.find f l'
    end.
Proof.
  induction l as [|x l IH]; simpl; [reflexivity|].
  destruct (f x); [reflexivity|exact IH].
Qed.

Lemma dict_fold_spec {V} (pairs : list (pystr * V)) :
  forall d : Stages.Dict V,
    NoDup (List.map fst d) ->
    let d' := List.fold_left
                (fun d kv => Stages.dict_set (fst kv) (snd kv) d) pairs d in
    NoDup (List.map fst d') /\
    forall k, Stages.dict_get k d'
              = match ExtraSpec.lookup_last k pairs with
                | Some v => Some v
                | None => Stages.dict_get k d
                end.
Proof.
  induction pairs as [|[k0 v0] pairs IH]; intros d Hd; simpl.
  - split; [exact Hd|]. intros k. reflexivity.
  - destruct (IH (Stages.dict_set k0 v0 d) (dict_set_nodup k0 v0 d Hd)) as [N G].
    split; [exact N|]. intros k. rewrite G. unfold ExtraSpec.lookup_last. simpl.
    rewrite find_app.
    destruct (List.find _ (List.rev pairs)) as [[k1 v1]|]; [reflexivity|].
    simpl. rewrite dict_get_set.
    destruct (PyStr.eqb k0 k); reflexivity.
Qed.

(** [dict(pairs)] has each key once and maps it to the value of its last
    pair. *)
Lemma dict_of_spec {V} (pairs : list (pystr * V)) :
  NoDup (List.map fst (Stages.dict_of pairs)) /\
  forall k, Stages.dict_get k (Stages.dict_of pairs) = ExtraSpec.lookup_last k pairs.
Proof.
  destruct (dict_fold_spec pairs [] (NoDup_nil _)) as [N G].
  split; [exact N|]. intros k. unfold Stages.dict_of. rewrite G.
  destruct (ExtraSpec.lookup_last k pairs); reflexivity.
Qed.

End ListFacts.

(** ** The token and TLS stages *)

Section MoreOnStages.

Variable urlparse : pystr -> result ParseResult.
Variable port_of : ParseResult -> result (option Z).
Variable getpeercert : pystr -> Z -> result Stages.Certificate.
Variable lower : pystr -> pystr.
Variable is_confusable : pystr -> result (option (list Stages.Confusable)).
Variable isdigit : N -> bool.

Local Abbreviation _url_token_analysis :=
  (Stages._url_token_analysis urlparse lower is_confusable).
Local Abbreviation _tls_cert_analysis :=
  (Stages._tls_cert_analysis urlparse port_of getpeercert).

Lemma collect_keywords_filter (url_lower : pystr) :
  Stages.collect_keywords url_lower
  = List.filter (contains url_lower) Stages.suspicious_keywords_table.
Proof.
  unfold Stages.collect_keywords.
  rewrite (ListFacts.fold_append_filter (contains url_lower)). reflexivity.
Qed.

(** X5.  The token stage fails only when [urlparse] does; a failure of the
    homoglyph library leaves the flag false.  The keywords it reports are
    exactly the entries of the fixed table that occur in the lower-cased
    URL, in table order and each at most once, so there are never more
    than 13. *)
Theorem token_stage_keywords (url : pystr) :
  (forall e, urlparse url = Raise e -> _url_token_analysis url = Raise e) /\
  (forall parsed,
      urlparse url = Ok parsed ->
      exists t,
        _url_token_analysis url = Ok t /\
        Stages.found_keywords t
        = List.filter (contains (lower url)) Stages.suspicious_keywords_table /\
        NoDup (Stages.found_keywords t) /\
        List.length (Stages.found_keywords t) <= 13 /\
        (forall kw, In kw (Stages.found_keywords t) <->
                    In kw Stages.suspicious_keywords_table /\
                    contains (lower url) kw = true) /\
        (raises (is_confusable (netloc parsed)) -> Stages.has_homoglyphs t = None)).
Proof.
  unfold Stages._url_token_analysis. split.
  - intros e ->. reflexivity.
  - intros parsed ->. cbn [bind]. eexists. split; [reflexivity|].
    cbn [Stages.found_keywords Stages.has_homoglyphs].
    rewrite collect_keywords_filter.
    split; [reflexivity|]. split; [|split; [|split]].
    + apply List.NoDup_filter. apply ListFacts.nodupb_sound. reflexivity.
    + etransitivity; [apply List.filter_length_le|]. simpl. lia.
    + intros kw. apply List.filter_In.
    + intros [e ->]. reflexivity.
Qed.

(** X6.  [subdomain_count] is the number of dots of the host plus one (so
    it counts labels and is never 0), and the classifier's
    "many subdomains" feature is 1 exactly when the host has at least four
    dots. *)
Theorem subdomain_count_counts_labels (url : pystr) (analysis_data : AnalysisResult) :
  forall parsed,
    urlparse url = Ok parsed ->
    (exists t,
        _url_token_analysis url = Ok t /\
        Stages.subdomain_count t = count (netloc parsed) 46 + 1) /\
    (List.nth 9 (MLClassifier.extract_url_features urlparse isdigit url analysis_data) 0%Z
     = if 4 <=? count (netloc parsed) 46 then 1%Z else 0%Z).
Proof.
  intros parsed H. split.
  - unfold Stages._url_token_analysis. rewrite H. cbn [bind].
    eexists. split; [reflexivity|]. cbn [Stages.subdomain_count].
    apply ListFacts.split_length.
  - unfold MLClassifier.extract_url_features, MLClassifier.url_features_body.
    rewrite H. cbn [bind List.nth]. rewrite ListFacts.split_length.
    destruct (4 <=? count (netloc parsed) 46) eqn:E.
    + apply Nat.leb_le in E.
      assert (K : (4 <? count (netloc parsed) 46 + 1) = true)
        by (apply Nat.ltb_lt; lia).
      rewrite K. reflexivity.
    + apply Nat.leb_gt in E.
      assert (K : (4 <? count (netloc parsed) 46 + 1) = false)
        by (apply Nat.ltb_ge; lia).
      rewrite K. reflexivity.
Qed.

Lemma cert_fields_shape (cert : Stages.Certificate) :
  match Stages.cert_fields cert with
  | Ok d => ExtraSpec.tls_complete d = true /\ Stages.cert_error d = None
  | Raise _ => True
  end.
Proof.
  unfold Stages.cert_fields, Stages.item.
  destruct (Stages.cert_subject cert) as [s|]; cbn [bind]; [|exact I].
  destruct (Stages.first_pairs s); cbn [bind]; [|exact I].
  destruct (Stages.cert_issuer cert) as [i|]; cbn [bind]; [|exact I].
  destruct (Stages.first_pairs i); cbn [bind]; [|exact I].
  destruct (Stages.cert_notBefore cert); cbn [bind]; [|exact I].
  destruct (Stages.cert_notAfter cert); cbn [bind]; [|exact I].
  destruct (Stages.cert_serialNumber cert); cbn [bind]; [|exact I].
  split; reflexivity.
Qed.

(** X7.  The TLS stage raises exactly when [urlparse] or [parsed.port]
    does.  Otherwise, for a scheme other than [https] it returns the empty
    dictionary whatever the network would answer; for [https] it returns
    either all five certificate fields and no error, or [cert_error] and
    none of the fields. *)
Theorem tls_stage_outcomes (url : pystr) :
  (forall e, urlparse url = Raise e -> _tls_cert_analysis url = Raise e) /\
  (forall parsed,
      urlparse url = Ok parsed ->
      (forall e, port_of parsed = Raise e -> _tls_cert_analysis url = Raise e) /\
      (forall p,
          port_of parsed = Ok p ->
          exists d,
            _tls_cert_analysis url = Ok d /\
            (PyStr.eqb (scheme parsed) (lit "https") = false ->
             d = Stages.empty_cert_data) /\
            (PyStr.eqb (scheme parsed) (lit "https") = true ->
             StageSpec.exclusive (StageSpec.present (Stages.cert_error d))
               (ExtraSpec.tls_complete d) = true /\
             (StageSpec.present (Stages.cert_error d) = true ->
              ExtraSpec.tls_has_payload d = false)))).
Proof.
  unfold Stages._tls_cert_analysis. split.
  - intros e ->. reflexivity.
  - intros parsed ->. cbn [bind]. split.
    + intros e ->. reflexivity.
    + intros p ->. cbn [bind].
      destruct (PyStr.eqb (scheme parsed) (lit "https")) eqn:S.
      * destruct (getpeercert _ _) as [cert|e]; cbn [bind].
        -- pose proof (cert_fields_shape cert) as K.
           destruct (Stages.cert_fields cert) as [d|e].
           ++ exists d. split; [reflexivity|]. split; [discriminate|].
              intros _. destruct K as [K1 K2]. rewrite K1, K2.
              split; [reflexivity|discriminate].
           ++ eexists. split; [reflexivity|]. split; [discriminate|].
              intros _. split; reflexivity.
        -- eexists. split; [reflexivity|]. split; [discriminate|].
           intros _. split; reflexivity.
      * eexists. split; [reflexivity|]. split; [reflexivity|discriminate].
Qed.

(** X8.  The host the TLS stage connects to is the part of the network
    location before its first colon: it contains no colon, and the network
    location is that host, alone or followed by a colon and the rest.  The
    port is the one [parsed.port] gives unless that is absent or 0, in
    which case it is 443 for [https] and 80 otherwise. *)
Theorem tls_endpoint (netloc : pystr) (scheme : pystr) :
  ~ In 58%N (Stages.hostname_of netloc) /\
  (netloc = Stages.hostname_of netloc \/
   exists rest, netloc = Stages.hostname_of netloc ++ 58%N :: rest) /\
  (forall p, p <> 0%Z -> Stages.port_or_default (Some p) scheme = p) /\
  Stages.port_or_default (Some 0%Z) scheme = Stages.port_or_default None scheme /\
  (scheme = lit "https" -> Stages.port_or_default None scheme = 443%Z) /\
  (scheme <> lit "https" -> Stages.port_or_default None scheme = 80%Z).
Proof.
  destruct (ListFacts.split_head netloc 58) as [A B].
  split; [exact A|]. split; [exact B|]. split; [|split; [|split]].
  - intros p Hp. unfold Stages.port_or_default.
    apply Z.eqb_neq in Hp. rewrite Hp. reflexivity.
  - reflexivity.
  - intros ->. reflexivity.
  - intros H. unfold Stages.port_or_default.
    apply pystr_eqb_neq in H. rewrite H. reflexivity.
Qed.

(** X9.  In the subject dictionary built from a certificate every attribute
    appears once; when several relative distinguished names start with the
    same attribute, the value of the last one is kept. *)
Theorem certificate_names_keep_last_value (cert : Stages.Certificate)
    (d : Stages.TlsResult) :
  Stages.cert_fields cert = Ok d ->
  exists rdns pairs sd,
    Stages.cert_subject cert = Some rdns /\
    Stages.first_pairs rdns = Ok pairs /\
    Stages.subject d = Some sd /\
    NoDup (List.map fst sd) /\
    (forall k, Stages.dict_get k sd = ExtraSpec.lookup_last k pairs) /\
    List.length pairs = List.length rdns.
Proof.
  unfold Stages.cert_fields, Stages.item.
  destruct (Stages.cert_subject cert) as [s|]; cbn [bind]; [|discriminate].
  destruct (Stages.first_pairs s) as [ps|] eqn:P; cbn [bind]; [|discriminate].
  destruct (Stages.cert_issuer cert) as [i|]; cbn [bind]; [|discriminate].
  destruct (Stages.first_pairs i); cbn [bind]; [|discriminate].
  destruct (Stages.cert_notBefore cert); cbn [bind]; [|discriminate].
  destruct (Stages.cert_notAfter cert); cbn [bind]; [|discriminate].
  destruct (Stages.cert_serialNumber cert); cbn [bind]; [|discriminate].
  intros E. injection E as <-. exists s, ps, (Stages.dict_of ps).
  destruct (ListFacts.dict_of_spec ps) as [N G].
  repeat (split; [reflexivity || assumption|]).
  clear N G. revert ps P. induction s as [|r s IH]; intros ps P; simpl in P.
  - injection P as <-. reflexivity.
  - destruct r as [|q r]; [discriminate|].
    destruct (Stages.first_pairs s) as [ps'|]; cbn [bind] in P; [|discriminate].
    injection P as <-. simpl. f_equal. apply IH. reflexivity.
Qed.

End MoreOnStages.

(** ** The browser service and the dynamic stage *)

Module TextFacts.

(** [str(n)] consists of decimal digits. *)
Lemma uint_digits (d : Decimal.uint) :
  Forall (fun c => is_ascii_digit c = true) (lit (NilEmpty.string_of_uint d)).
Proof.
  induction d; simpl; constructor; try reflexivity; assumption.
Qed.

Lemma of_nat_digits (n : nat) :
  Forall (fun c => is_ascii_digit c = true) (of_nat n).
Proof. apply uint_digits. Qed.

(** A pattern none of whose characters occurs in [s] cannot reach into
    [s]. *)
Lemma startswith_app_disjoint (s p : pystr) :
  (forall c, In c s -> ~ In c p) ->
  forall a, startswith (a ++ s) p = startswith a p.
Proof.
  intros D. induction p as [|y p IH]; intros a; [reflexivity|].
  assert (D' : forall c, In c s -> ~ In c p).
  { intros c Hc Hp. apply (D c Hc). right. exact Hp. }
  destruct a as [|x a]; simpl.
  - destruct s as [|c s]; [reflexivity|].
    destruct (N.eqb c y) eqn:E; [|reflexivity].
    apply N.eqb_eq in E. subst. exfalso.
    apply (D y (or_introl eq_refl)). left. reflexivity.
  - rewrite (IH D'). reflexivity.
Qed.

Lemma contains_app_disjoint (s p a : pystr) :
  p <> [] ->
  (forall c, In c s -> ~ In c p) ->
  contains (a ++ s) p = contains a p.
Proof.
  intros Hp D.
  assert (Z : forall t, (forall c, In c t -> ~ In c p) -> contains t p = false).
  { induction t as [|c t IHt]; intros Dt.
    - destruct p; [contradiction|reflexivity].
    - change (contains (c :: t) p) with (startswith (c :: t) p || contains t p).
      rewrite IHt by (intros c' Hc'; apply Dt; right; exact Hc').
      pose proof (startswith_app_disjoint (c :: t) p Dt []) as K.
      cbn [app] in K. rewrite K.
      destruct p; [contradiction|reflexivity]. }
  induction a as [|x a IH].
  - simpl app. rewrite (Z s D). destruct p; [contradiction|reflexivity].
  - change (contains ((x :: a) ++ s) p)
      with (startswith ((x :: a) ++ s) p || contains (a ++ s) p).
    change (contains (x :: a) p) with (startswith (x :: a) p || contains a p).
    rewrite IH, (startswith_app_disjoint s p D). reflexivity.
Qed.

(** The text about scripts contains ["external scripts"] and neither of
    the two other substrings, for every count. *)
Lemma scripts_text_substrings (n : nat) :
  contains (ExtraSpec.scripts_text n) (lit "external domain") = false /\
  contains (ExtraSpec.scripts_text n) (lit "login form") = false /\
  contains (ExtraSpec.scripts_text n) (lit "external scripts") = true.
Proof.
  unfold ExtraSpec.scripts_text.
  assert (D : forall p,
             List.forallb (fun y => negb (is_ascii_digit y || N.eqb y 41)) p = true ->
             forall c, In c (of_nat n ++ lit ")") -> ~ In c p).
  { intros p Hp c Hc Hin.
    rewrite List.forallb_forall in Hp. specialize (Hp c Hin).
    apply in_app_or in Hc. destruct Hc as [Hc|Hc].
    - pose proof (of_nat_digits n) as F. rewrite List.Forall_forall in F.
      rewrite (F c Hc) in Hp. discriminate.
    - destruct Hc as [<-|[]]. discriminate. }
  split; [|split].
  - rewrite contains_app_disjoint; [reflexivity|discriminate|apply D; reflexivity].
  - rewrite contains_app_disjoint; [reflexivity|discriminate|apply D; reflexivity].
  - rewrite contains_app_disjoint; [reflexivity|discriminate|apply D; reflexivity].
Qed.

End TextFacts.

Section MoreOnDynamic.

Variable urlparse : pystr -> result ParseResult.
Variable lower : pystr -> pystr.

Local Abbreviation form_indicators := (Stages.form_indicators urlparse lower).
Local Abbreviation forms_indicators := (Stages.forms_indicators urlparse lower).
Local Abbreviation dynamic_body := (Stages.dynamic_body urlparse lower).
Local Abbreviation _dynamic_screenshot_analysis :=
  (Stages._dynamic_screenshot_analysis urlparse lower).

Local Abbreviation form_text := ExtraSpec.form_text.

Lemma form_indicators_shape url form acc out :
  form_indicators url form acc = Ok out ->
  exists added,
    out = acc ++ added /\ List.length added <= 2 /\ Forall form_text added.
Proof.
  unfold Stages.form_indicators.
  set (login := List.existsb _ _ && List.existsb _ _).
  assert (G : forall mid added0,
             mid = acc ++ added0 -> List.length added0 <= 1 ->
             Forall form_text added0 ->
             (if login
              then Ok (mid ++ [lit "Contains login form with email/password fields"])
              else Ok mid) = Ok out ->
             exists added,
               out = acc ++ added /\ List.length added <= 2 /\
               Forall form_text added).
  { intros mid added0 -> L F. destruct login; intros E; injection E as <-.
    - exists (added0 ++ [ExtraSpec.login_form_text]).
      rewrite app_assoc. split; [reflexivity|]. split.
      + rewrite List.length_app. simpl. lia.
      + apply List.Forall_app. split; [exact F|].
        constructor; [right; reflexivity|constructor].
    - exists added0. split; [reflexivity|]. split; [lia|exact F]. }
  destruct (ScreenshotService.df_action form) as [[|c action]|].
  - cbn [bind]. apply (G acc []); [rewrite app_nil_r; reflexivity|simpl; lia|constructor].
  - destruct (urlparse url) as [parsed|e]; cbn [bind]; [|discriminate].
    destruct (negb (startswith (c :: action) (netloc parsed))); cbn [bind].
    + apply (G _ [ExtraSpec.external_form_text]);
        [reflexivity|simpl; lia|constructor; [left; reflexivity|constructor]].
    + apply (G acc []); [rewrite app_nil_r; reflexivity|simpl; lia|constructor].
  - cbn [bind]. apply (G acc []); [rewrite app_nil_r; reflexivity|simpl; lia|constructor].
Qed.

Lemma forms_indicators_shape url forms :
  forall acc out,
    forms_indicators url forms acc = Ok out ->
    exists added,
      out = acc ++ added /\ List.length added <= 2 * List.length forms /\
      Forall form_text added.
Proof.
  induction forms as [|form rest IH]; intros acc out; simpl.
  - intros E. injection E as <-. exists []. rewrite app_nil_r.
    split; [reflexivity|]. split; [simpl; lia|constructor].
  - destruct (form_indicators url form acc) as [mid|e] eqn:F; cbn [bind];
      [|discriminate].
    intros E.
    destruct (form_indicators_shape _ _ _ _ F) as (a1 & -> & L1 & F1).
    destruct (IH _ _ E) as (a2 & -> & L2 & F2).
    exists (a1 ++ a2). rewrite app_assoc. split; [reflexivity|]. split.
    + rewrite List.length_app. lia.
    + apply List.Forall_app. split; assumption.
Qed.

(** What a successful run of the block produces. *)
Lemma dynamic_body_shape url capture d :
  dynamic_body url capture = Ok d ->
  Stages.captured d = Some capture /\
  Stages.analysis_success d = true /\
  Stages.dyn_error d = ScreenshotService.cap_error capture /\
  exists from_forms,
    List.length from_forms
    <= 2 * List.length (ScreenshotService.forms_detected capture) /\
    Forall form_text from_forms /\
    Stages.dyn_phishing_indicators d
    = from_forms
      ++ (if 5 <? Stages.external_script_count
                    (ScreenshotService.external_resources capture)
          then [ExtraSpec.scripts_text
                  (Stages.external_script_count
                     (ScreenshotService.external_resources capture))]
          else []).
Proof.
  unfold Stages.dynamic_body.
  destruct (forms_indicators url _ []) as [found|e] eqn:F; cbn [bind];
    [|discriminate].
  intros E. injection E as <-.
  destruct (forms_indicators_shape _ _ _ _ F) as (added & -> & L & Fa).
  cbn [Stages.captured Stages.analysis_success Stages.dyn_error
       Stages.dyn_phishing_indicators app].
  repeat (split; [reflexivity|]).
  exists added. split; [exact L|]. split; [exact Fa|].
  destruct (5 <? Stages.external_script_count
                   (ScreenshotService.external_resources capture));
    [reflexivity|rewrite app_nil_r; reflexivity].
Qed.

(** The stage either passes on what the block produced or returns the
    failure dictionary. *)
Lemma dynamic_cases enter capture leave url :
  (exists c d,
      enter = Ok tt /\ capture = Ok c /\ leave = Ok tt /\
      dynamic_body url c = Ok d /\
      _dynamic_screenshot_analysis enter capture leave url = d) \/
  (exists e,
      _dynamic_screenshot_analysis enter capture leave url
      = {| Stages.captured := None; Stages.dyn_phishing_indicators := [];
           Stages.analysis_success := false;
           Stages.dyn_error := Some (exn_msg e) |}).
Proof.
  unfold Stages._dynamic_screenshot_analysis.
  destruct enter as [[]|e]; [|right; exists e; reflexivity].
  destruct leave as [[]|e'].
  - destruct capture as [c|e]; cbn [bind].
    + destruct (dynamic_body url c) as [d|e] eqn:B.
      * left. exists c, d. repeat split; assumption.
      * right. exists e. reflexivity.
    + right. exists e. reflexivity.
  - right. exists e'.
    destruct capture as [c|e]; cbn [bind];
      [destruct (dynamic_body url c)|]; reflexivity.
Qed.

Local Open Scope float_scope.

(** X10.  Every indicator the dynamic stage reports is one of its three
    texts, and the risk compiler scores each of them: a form posting
    elsewhere adds 16, a login form 12, many external scripts 6 (for every
    count printed in the text).  No indicator of this stage goes
    unscored. *)
Theorem dynamic_indicators_are_scored enter capture leave url (i : pystr) :
  In i (Stages.dyn_phishing_indicators
          (_dynamic_screenshot_analysis enter capture leave url)) ->
  exists points,
    ((i = ExtraSpec.external_form_text /\ points = 16) \/
     (i = ExtraSpec.login_form_text /\ points = 12) \/
     (exists n, (5 < n)%nat /\ i = ExtraSpec.scripts_text n /\ points = 6)) /\
    forall acc,
      URLAnalyzer.indicator_step acc i = (fst acc + points, snd acc ++ [i]).
Proof.
  intros Hin.
  destruct (dynamic_cases enter capture leave url)
    as [(c & d & _ & _ & _ & B & E)|(e & E)]; rewrite E in Hin;
    [|contradiction].
  destruct (dynamic_body_shape _ _ _ B) as (_ & _ & _ & ff & _ & F & S).
  rewrite S in Hin. apply in_app_or in Hin. destruct Hin as [Hin|Hin].
  - rewrite List.Forall_forall in F. destruct (F i Hin) as [->| ->].
    + exists 16. split; [left; split; reflexivity|]. intros acc. reflexivity.
    + exists 12. split; [right; left; split; reflexivity|]. intros acc. reflexivity.
  - destruct (5 <? Stages.external_script_count _)%nat eqn:N; [|contradiction].
    destruct Hin as [<-|[]]. apply Nat.ltb_lt in N.
    exists 6. split.
    + right. right. eexists. split; [exact N|]. split; reflexivity.
    + intros acc. unfold URLAnalyzer.indicator_step.
      destruct (TextFacts.scripts_text_substrings
                  (Stages.external_script_count
                     (ScreenshotService.external_resources c)))
        as (A1 & A2 & A3).
      rewrite A1, A2, A3. reflexivity.
Qed.

(** X11.  The dynamic stage never raises.  Its result is either a success,
    which keeps the service's dictionary, its [error] key included (so a
    page-load timeout recorded by the service still counts as a successful
    analysis), or the failure dictionary: no captured data, no indicators,
    and the message of the exception.  A failure to start the browser, or
    to shut it down after an otherwise complete analysis, gives the failure
    dictionary. *)
Theorem dynamic_stage_failure_is_recorded enter capture leave url :
  let d := _dynamic_screenshot_analysis enter capture leave url in
  ((Stages.analysis_success d = true /\
    exists c, capture = Ok c /\ Stages.captured d = Some c /\
              Stages.dyn_error d = ScreenshotService.cap_error c) \/
   (Stages.analysis_success d = false /\ Stages.captured d = None /\
    Stages.dyn_phishing_indicators d = [] /\
    exists msg, Stages.dyn_error d = Some msg)) /\
  (forall e, enter = Raise e -> Stages.dyn_error d = Some (exn_msg e)) /\
  (forall e, enter = Ok tt -> leave = Raise e ->
             Stages.dyn_error d = Some (exn_msg e) /\
             Stages.dyn_phishing_indicators d = []) /\
  (forall e, enter = Ok tt -> leave = Ok tt -> capture = Raise e ->
             Stages.dyn_error d = Some (exn_msg e)).
Proof.
  intros d. split; [|split; [|split]].
  - destruct (dynamic_cases enter capture leave url)
      as [(c & d' & _ & C & _ & B & E)|(e & E)]; fold d in E; rewrite E.
    + left. destruct (dynamic_body_shape _ _ _ B) as (K1 & K2 & K3 & _).
      split; [exact K2|]. exists c. split; [exact C|]. split; assumption.
    + right. repeat split. eexists. reflexivity.
  - intros e ->. reflexivity.
  - intros e -> ->. unfold d, Stages._dynamic_screenshot_analysis.
    destruct capture as [c|e0]; cbn [bind];
      [destruct (dynamic_body url c)|]; split; reflexivity.
  - intros e -> -> ->. reflexivity.
Qed.

(** X12.  A successful dynamic analysis reports at most two indicators per
    detected form and at most one about scripts; the latter appears exactly
    when more than five of the listed resources are external scripts. *)
Theorem dynamic_indicator_count url capture d :
  dynamic_body url capture = Ok d ->
  let scripts := Stages.external_script_count
                   (ScreenshotService.external_resources capture) in
  List.length (Stages.dyn_phishing_indicators d)
  <= 2 * List.length (ScreenshotService.forms_detected capture) + 1 /\
  (In (ExtraSpec.scripts_text scripts) (Stages.dyn_phishing_indicators d)
   <-> 5 < scripts)%nat /\
  (scripts <= List.length (ScreenshotService.external_resources capture))%nat.
Proof.
  intros B scripts.
  destruct (dynamic_body_shape _ _ _ B) as (_ & _ & _ & ff & L & F & S).
  fold scripts in S. rewrite S. split; [|split].
  - rewrite List.length_app. destruct (5 <? scripts)%nat; simpl; lia.
  - destruct (5 <? scripts)%nat eqn:N.
    + apply Nat.ltb_lt in N. split; [intros _; exact N|].
      intros _. apply in_or_app. right. left. reflexivity.
    + apply Nat.ltb_ge in N. split; [|lia].
      intros Hin. apply in_app_or in Hin. destruct Hin as [Hin|[]].
      rewrite List.Forall_forall in F. specialize (F _ Hin).
      exfalso. destruct F as [F|F];
        apply (f_equal (fun t => contains t (lit "external scripts"))) in F;
        rewrite (proj2 (proj2 (TextFacts.scripts_text_substrings scripts))) in F;
        discriminate.
  - unfold scripts, Stages.external_script_count. apply List.filter_length_le.
Qed.

End MoreOnDynamic.

Lemma capture_value (body : ScreenshotService.BodyOutcome) (close : result unit)
    (c : ScreenshotService.Capture) :
  ScreenshotService.capture_screenshot_and_analyze body close = Ok c ->
  c = match body with
      | ScreenshotService.Loaded o =>
          ScreenshotService.updated o ScreenshotService.initial_result
      | ScreenshotService.TimedOut _ =>
          ScreenshotService.with_error (lit "Page load timeout")
            ScreenshotService.initial_result
      | ScreenshotService.Failed _ e =>
          ScreenshotService.with_error (exn_msg e)
            ScreenshotService.initial_result
      end.
Proof.
  unfold ScreenshotService.capture_screenshot_and_analyze.
  destruct body as [o|page|page e0]; [|destruct page|destruct page];
    destruct close as [[]|e1]; cbn [bind]; try discriminate;
    intros E; injection E as <-; reflexivity.
Qed.

Lemma nil_length_le {A} (n : nat) : List.length (@nil A) <= n.
Proof. apply Nat.le_0_l. Qed.

(** X13.  The browser service records every failure of its page work in
    the [error] key and keeps the defaults of all data keys then; it sets
    no error when the page loaded.  What it returns is bounded: at most 50
    network requests, 20 console messages, 30 external resources, 10
    script errors and 10000 characters of DOM.  It raises only when closing
    an opened page raises. *)
Theorem capture_is_bounded (body : ScreenshotService.BodyOutcome)
    (close : result unit) :
  (forall c,
      ScreenshotService.capture_screenshot_and_analyze body close = Ok c ->
      List.length (ScreenshotService.network_requests c) <= 50 /\
      List.length (ScreenshotService.console_logs c) <= 20 /\
      List.length (ScreenshotService.external_resources c) <= 30 /\
      List.length (ScreenshotService.javascript_errors c) <= 10 /\
      (forall dom, ScreenshotService.dom_snapshot c = Some dom ->
                   List.length dom <= 10000) /\
      ((exists o, body = ScreenshotService.Loaded o) ->
       ScreenshotService.cap_error c = None) /\
      ((forall o, body <> ScreenshotService.Loaded o) ->
       exists msg,
         c = ScreenshotService.with_error msg ScreenshotService.initial_result)) /\
  (forall e,
      ScreenshotService.capture_screenshot_and_analyze body close = Raise e ->
      close = Raise e /\
      body <> ScreenshotService.TimedOut false /\
      forall e', body <> ScreenshotService.Failed false e').
Proof.
  split.
  - intros c E. apply capture_value in E. subst c.
    destruct body as [o|page|page e0].
    + cbn [ScreenshotService.updated ScreenshotService.network_requests
           ScreenshotService.console_logs ScreenshotService.external_resources
           ScreenshotService.javascript_errors ScreenshotService.dom_snapshot
           ScreenshotService.cap_error ScreenshotService.initial_result].
      split; [apply List.firstn_le_length|].
      split; [apply List.firstn_le_length|].
      split; [apply List.firstn_le_length|].
      split; [apply List.firstn_le_length|].
      split; [|split].
      * intros dom K. injection K as <-.
        destruct (ScreenshotService.obs_dom_content o) as [[|x s]|];
          [apply nil_length_le
          |exact (List.firstn_le_length 10000 (x :: s))
          |apply nil_length_le].
      * intros _. reflexivity.
      * intros K. exfalso. apply (K o). reflexivity.
    + cbn [ScreenshotService.with_error ScreenshotService.network_requests
           ScreenshotService.console_logs ScreenshotService.external_resources
           ScreenshotService.javascript_errors ScreenshotService.dom_snapshot
           ScreenshotService.cap_error ScreenshotService.initial_result].
      repeat (split; [apply nil_length_le|]).
      split; [discriminate|]. split.
      * intros [o K]. discriminate.
      * intros _. eexists. reflexivity.
    + cbn [ScreenshotService.with_error ScreenshotService.network_requests
           ScreenshotService.console_logs ScreenshotService.external_resources
           ScreenshotService.javascript_errors ScreenshotService.dom_snapshot
           ScreenshotService.cap_error ScreenshotService.initial_result].
      repeat (split; [apply nil_length_le|]).
      split; [discriminate|]. split.
      * intros [o K]. discriminate.
      * intros _. eexists. reflexivity.
  - intros e. unfold ScreenshotService.capture_screenshot_and_analyze.
    destruct body as [o|page|page e0]; [|destruct page|destruct page];
      destruct close as [[]|e1]; cbn [bind]; try discriminate;
      intros E; injection E as <-;
      (split; [reflexivity|]); (split; [discriminate|]); intros e'; discriminate.
Qed.

(** X14.  In the pipeline the dynamic stage sees at most 30 external
    resources, so the count printed in its scripts indicator is between 6
    and 30. *)
Theorem scripts_indicator_count_range urlparse lower url body close c d :
  ScreenshotService.capture_screenshot_and_analyze body close = Ok c ->
  Stages.dynamic_body urlparse lower url c = Ok d ->
  let scripts := Stages.external_script_count
                   (ScreenshotService.external_resources c) in
  scripts <= 30 /\
  (forall i, In i (Stages.dyn_phishing_indicators d) ->
             ExtraSpec.form_text i \/
             (i = ExtraSpec.scripts_text scripts /\ 6 <= scripts <= 30)).
Proof.
  intros C B scripts.
  assert (L : scripts <= 30).
  { unfold scripts, Stages.external_script_count.
    etransitivity; [apply List.filter_length_le|].
    apply capture_value in C. subst c. destruct body as [o|page|page e0].
    - apply List.firstn_le_length.
    - apply Nat.le_0_l.
    - apply Nat.le_0_l. }
  split; [exact L|]. intros i Hin.
  destruct (dynamic_body_shape _ _ _ _ _ B) as (_ & _ & _ & ff & _ & F & S).
  fold scripts in S. rewrite S in Hin. apply in_app_or in Hin.
  destruct Hin as [Hin|Hin].
  - left. rewrite List.Forall_forall in F. apply F. exact Hin.
  - right. destruct (5 <? scripts) eqn:N; [|contradiction].
    destruct Hin as [<-|[]]. apply Nat.ltb_lt in N.
    split; [reflexivity|lia].
Qed.

(** ** The HTTP stage on every session *)

Section MoreOnHttp.

Variable urljoin : pystr -> pystr -> result pystr.

Local Abbreviation follow_redirects := (URLAnalyzer.follow_redirects urljoin).
Local Abbreviation _http_fetch_and_redirects :=
  (URLAnalyzer._http_fetch_and_redirects urljoin).

Lemma follow_redirects_invariant (budget : nat) :
  forall session response cur d,
    let out := fst (follow_redirects budget session response cur d) in
    List.length (redirect_chain out) <= List.length (redirect_chain d) + budget /\
    (Forall ExtraSpec.valid_hop (redirect_chain d) ->
     Forall ExtraSpec.valid_hop (redirect_chain out)) /\
    final_url out = final_url d /\
    html_content out = html_content d /\
    headers out = headers d.
Proof.
  induction budget as [|b IH]; intros session response cur d; simpl.
  - repeat split; try reflexivity; try lia. intros H; exact H.
  - assert (Keep : List.length (redirect_chain d)
                   <= List.length (redirect_chain d) + S b /\
                   (Forall ExtraSpec.valid_hop (redirect_chain d) ->
                    Forall ExtraSpec.valid_hop (redirect_chain d)) /\
                   final_url d = final_url d /\
                   html_content d = html_content d /\ headers d = headers d).
    { repeat split; try lia. intros H; exact H. }
    destruct (URLAnalyzer.is_redirect (resp_status response)) eqn:R;
      [|exact Keep].
    destruct (resp_location response) as [[|c l]|]; try exact Keep.
    set (h := {| hop_url := cur; hop_status := resp_status response;
                 hop_location := c :: l |}).
    assert (Step : List.length (redirect_chain (URLAnalyzer.append_hop h d))
                   = List.length (redirect_chain d) + 1 /\
                   (Forall ExtraSpec.valid_hop (redirect_chain d) ->
                    Forall ExtraSpec.valid_hop
                      (redirect_chain (URLAnalyzer.append_hop h d)))).
    { simpl. rewrite List.length_app. split; [reflexivity|].
      intros H. apply List.Forall_app. split; [exact H|].
      constructor; [|constructor]. unfold ExtraSpec.valid_hop. simpl.
      split; [exact R|discriminate]. }
    destruct Step as [S1 S2].
    destruct (urljoin cur (c :: l)) as [next|e].
    + destruct (session_get session) as [[r|e] s'].
      * destruct (IH s' r next (URLAnalyzer.append_hop h d))
          as (A & B & C & D & E).
        rewrite S1 in A.
        split; [lia|]. split; [intros H; apply B, S2, H|].
        split; [rewrite C; reflexivity|].
        split; [rewrite D; reflexivity|rewrite E; reflexivity].
      * cbn [fst]. split; [lia|]. split; [exact S2|]. repeat split.
    + cbn [fst]. split; [lia|]. split; [exact S2|]. repeat split.
Qed.

Lemma http_stage_facts (session : Session) (url : pystr) :
  let d := _http_fetch_and_redirects session url in
  List.length (redirect_chain d) <= 5 /\
  Forall ExtraSpec.valid_hop (redirect_chain d) /\
  (html_content d <> [] -> status_code d = Some 200%Z /\ http_error d = None) /\
  (status_code d = None ->
   final_url d = url /\ html_content d = [] /\ headers d = [] /\
   exists msg, http_error d = Some msg).
Proof.
  intros d. unfold d, URLAnalyzer._http_fetch_and_redirects.
  destruct (session_get session) as [[response|e] s'].
  - pose proof (follow_redirects_invariant 5 s' response (resp_url response)
                  (URLAnalyzer.initial_http url)) as I.
    pose proof (follow_redirects_keeps urljoin 5 s' response (resp_url response)
                  (URLAnalyzer.initial_http url)) as K.
    destruct (follow_redirects 5 s' response (resp_url response)
                (URLAnalyzer.initial_http url)) as [d' [[r cur]|e]].
    + cbn [fst] in I, K. destruct I as (A & B & C & D & E).
      destruct K as [K1 K2]. simpl in A, K2, D.
      specialize (B (Forall_nil _)).
      destruct (Z.eqb (resp_status r) 200) eqn:H200.
      * apply Z.eqb_eq in H200.
        destruct (resp_text r) as [html|e]; simpl;
          (split; [exact A|]); (split; [exact B|]); split;
          try discriminate.
        -- intros _. rewrite H200, K2. split; reflexivity.
        -- intros H. rewrite D in H. contradiction.
      * simpl. split; [exact A|]. split; [exact B|]. split; [|discriminate].
        intros H. rewrite D in H. contradiction.
    + cbn [fst] in I, K. destruct I as (A & B & C & D & E).
      destruct K as [K1 K2]. simpl in A, K1, C, D, E.
      specialize (B (Forall_nil _)). simpl.
      split; [exact A|]. split; [exact B|]. split.
      * intros H. rewrite D in H. contradiction.
      * intros _. rewrite C, D, E. repeat split. eexists. reflexivity.
  - simpl. split; [lia|]. split; [constructor|]. split.
    + intros H. contradiction.
    + intros _. repeat split. eexists. reflexivity.
Qed.

(** X15.  For every sequence of replies, failures included, the HTTP stage
    records at most 5 hops, each with a redirect status and a non-empty
    [Location].  It stores a page body only together with status 200 and no
    error, and when it never reached a terminal response ([status_code]
    unset) [final_url] is still the requested URL and an error is
    recorded. *)
Theorem http_stage_invariants (session : Session) (url : pystr) :
  let d := _http_fetch_and_redirects session url in
  List.length (redirect_chain d) <= 5 /\
  Forall ExtraSpec.valid_hop (redirect_chain d) /\
  (html_content d <> [] -> status_code d = Some 200%Z /\ http_error d = None) /\
  (status_code d = None ->
   final_url d = url /\ html_content d = [] /\ headers d = [] /\
   exists msg, http_error d = Some msg).
Proof. exact (http_stage_facts session url). Qed.

End MoreOnHttp.

(** ** Content analysis, text extraction and feature names *)

Section MoreOnContent.

Variable BeautifulSoup : pystr -> result Soup.
Variable lower : pystr -> pystr.

Local Abbreviation _content_analysis :=
  (URLAnalyzer._content_analysis BeautifulSoup lower).

(** X16.  On an empty page the content analyzer reports
    ["No HTML content available"] without parsing; a parser exception
    becomes [content_analysis_error].  On a parsed page it lists one form
    per [<form>] tag, and [has_login_form] is true exactly when some input
    of some form has a [name] whose lower-cased text is [username], [email]
    or [password]; the input's [type] plays no part. *)
Theorem login_form_detection (html : pystr) :
  (html = [] ->
   _content_analysis html
   = URLAnalyzer.only_content_error (lit "No HTML content available")) /\
  (forall e, html <> [] -> BeautifulSoup html = Raise e ->
             _content_analysis html
             = URLAnalyzer.only_content_analysis_error (exn_msg e)) /\
  (forall soup,
      html <> [] -> BeautifulSoup html = Ok soup ->
      exists fs b,
        forms (_content_analysis html) = Some fs /\
        List.length fs = List.length (soup_forms soup) /\
        has_login_form (_content_analysis html) = Some b /\
        (b = true <->
         exists f t,
           In f (soup_forms soup) /\ In t (tag_inputs f) /\
           In (lower (match tag_name t with Some n => n | None => [] end))
              URLAnalyzer.login_names)).
Proof.
  unfold URLAnalyzer._content_analysis. split; [|split].
  - intros ->. reflexivity.
  - intros e H E. destruct html as [|c html]; [contradiction|].
    rewrite E. reflexivity.
  - intros soup H E. destruct html as [|c html]; [contradiction|].
    rewrite E. cbn [forms has_login_form]. eexists. eexists.
    split; [reflexivity|]. split; [apply List.length_map|].
    split; [reflexivity|].
    rewrite List.existsb_exists. split.
    + intros (fd & Hfd & Hex). apply List.in_map_iff in Hfd.
      destruct Hfd as (f & <- & Hf).
      apply List.existsb_exists in Hex. destruct Hex as (inp & Hinp & Hl).
      cbn [form_inputs URLAnalyzer.form_data] in Hinp.
      apply List.in_map_iff in Hinp. destruct Hinp as (t & <- & Ht).
      exists f, t. split; [exact Hf|]. split; [exact Ht|].
      unfold URLAnalyzer.is_login_input in Hl.
      apply ListFacts.existsb_eqb_In in Hl. exact Hl.
    + intros (f & t & Hf & Ht & Hl).
      exists (URLAnalyzer.form_data lower f). split.
      * apply List.in_map. exact Hf.
      * apply List.existsb_exists. exists (URLAnalyzer.input_data t). split.
        -- cbn [form_inputs URLAnalyzer.form_data]. apply List.in_map. exact Ht.
        -- unfold URLAnalyzer.is_login_input.
           apply ListFacts.existsb_eqb_In. exact Hl.
Qed.

End MoreOnContent.

Module StripFacts.

Lemma lstrip_split (s : pystr) :
  exists pre, s = pre ++ lstrip s /\ Forall (fun c => isspace c = true) pre.
Proof.
  induction s as [|x s IH]; simpl.
  - exists []. split; [reflexivity|constructor].
  - destruct (isspace x) eqn:E.
    + destruct IH as (pre & H & F). exists (x :: pre). split.
      * simpl. f_equal. exact H.
      * constructor; assumption.
    + exists []. split; [reflexivity|constructor].
Qed.

Lemma lstrip_head (s : pystr) (c : N) (r : pystr) :
  lstrip s = c :: r -> isspace c = false.
Proof.
  induction s as [|x s IH]; simpl; [discriminate|].
  destruct (isspace x) eqn:E; [exact IH|].
  intros K. injection K as <- _. exact E.
Qed.

(** A stripped string neither starts nor ends with white space. *)
Lemma strip_ends (s : pystr) (c : N) (r : pystr) :
  strip s = c :: r ->
  isspace c = false /\ isspace (List.last (c :: r) 0%N) = false.
Proof.
  unfold strip, rstrip. intros H.
  set (t := lstrip s) in *.
  destruct (lstrip (List.rev t)) as [|y u] eqn:U; [discriminate|].
  pose proof (lstrip_head _ _ _ U) as Hy.
  destruct (lstrip_split (List.rev t)) as (pre & Hpre & _).
  rewrite U in Hpre.
  assert (Ht : t = List.rev u ++ y :: List.rev pre).
  { rewrite <- (List.rev_involutive t), Hpre, List.rev_app_distr. simpl.
    rewrite <- app_assoc. reflexivity. }
  simpl in H. split.
  - (* the head of [rev u ++ [y]] is the head of [t] *)
    assert (Hc : exists r', t = c :: r').
    { rewrite Ht. destruct (List.rev u) as [|z w] eqn:W.
      - simpl in H. injection H as <- _. eexists. reflexivity.
      - simpl in H. injection H as <- _. eexists. reflexivity. }
    destruct Hc as [r' Hc]. unfold t in Hc. apply (lstrip_head _ _ _ Hc).
  - rewrite <- H. rewrite List.last_last. exact Hy.
Qed.

End StripFacts.

(** X17.  The text handed to the keyword scorer is never empty: it is
    ["no content"] when no stage supplied text, and otherwise it neither
    starts nor ends with white space. *)
Theorem text_features_nonempty (analysis_data : AnalysisResult) :
  let text := MLClassifier.extract_text_features analysis_data in
  text <> [] /\
  (forall c r, text = c :: r ->
               isspace c = false /\ isspace (List.last text 0%N) = false) /\
  (get (screenshot_analysis (steps analysis_data)) page_title = None ->
   get (screenshot_analysis (steps analysis_data)) meta_description = None ->
   get (screenshot_analysis (steps analysis_data)) viewport_content = None ->
   get (content_analysis (steps analysis_data)) title = None ->
   get (content_analysis (steps analysis_data)) content_meta_description = None ->
   text = lit "no content").
Proof.
  intros text. unfold text, MLClassifier.extract_text_features.
  split; [|split].
  - destruct (strip _); discriminate.
  - intros c r. destruct (strip _) as [|x s] eqn:S.
    + intros E. injection E as <- <-. split; reflexivity.
    + intros E. injection E as <- <-. apply (StripFacts.strip_ends _ _ _ S).
  - intros -> -> -> -> ->. reflexivity.
Qed.

Module DictFacts.

Lemma dict_set_fresh {V} (k : pystr) (v : V) (d : Stages.Dict V) :
  ~ In k (List.map fst d) -> Stages.dict_set k v d = d ++ [(k, v)].
Proof.
  induction d as [|[k' v'] d IH]; simpl; intros H; [reflexivity|].
  destruct (PyStr.eqb k' k) eqn:E.
  - apply pystr_eqb_eq in E. subst. exfalso. apply H. left. reflexivity.
  - rewrite IH; [reflexivity|]. intros K. apply H. right. exact K.
Qed.

(** [dict(pairs)] is [pairs] itself when no key repeats. *)
Lemma dict_fold_nodup {V} (pairs : list (pystr * V)) :
  forall d : Stages.Dict V,
    NoDup (List.map fst (d ++ pairs)) ->
    List.fold_left (fun d kv => Stages.dict_set (fst kv) (snd kv) d) pairs d
    = d ++ pairs.
Proof.
  induction pairs as [|[k v] pairs IH]; intros d H; simpl.
  - rewrite app_nil_r. reflexivity.
  - rewrite dict_set_fresh.
    + rewrite IH; rewrite <- app_assoc; [reflexivity|exact H].
    + rewrite List.map_app in H. simpl in H.
      apply List.NoDup_remove_2 in H. intros K. apply H.
      apply in_or_app. left. exact K.
Qed.

End DictFacts.

(** X18.  [get_feature_importance] is empty for an untrained classifier or
    a model without importances.  Otherwise it pairs the fixed feature
    names with the importances position by position and stops at the
    shorter of the two: at most 15 entries, one per name, in the order of
    the feature vector. *)
Theorem feature_importance_entries (self : MLClassifier.Fitted)
    (importances : list float) :
  (MLClassifier.is_trained self = false ->
   forall fi, FeatureImportance.get_feature_importance self fi = []) /\
  FeatureImportance.get_feature_importance self None = [] /\
  (MLClassifier.is_trained self = true ->
   let d := FeatureImportance.get_feature_importance self (Some importances) in
   d = List.combine FeatureImportance.feature_names importances /\
   List.length d = Nat.min 15 (List.length importances) /\
   NoDup (List.map fst d) /\
   (forall i name v,
       List.nth_error FeatureImportance.feature_names i = Some name ->
       List.nth_error importances i = Some v ->
       List.nth_error d i = Some (name, v))).
Proof.
  unfold FeatureImportance.get_feature_importance. split; [|split].
  - intros ->. reflexivity.
  - destruct (negb _); reflexivity.
  - intros ->. cbn [negb].
    assert (N : NoDup FeatureImportance.feature_names)
      by (apply ListFacts.nodupb_sound; reflexivity).
    assert (K : forall (l : list float) (names : list pystr),
               NoDup names -> NoDup (List.map fst (List.combine names l))).
    { intros l names. revert l. induction names as [|n names IHn];
        intros l Hn; [constructor|].
      destruct l as [|x l]; [constructor|]. simpl.
      inversion Hn as [|? ? Hnot Hrest]; subst. constructor.
      - intros Hin. apply Hnot. apply List.in_map_iff in Hin.
        destruct Hin as ([n' x'] & <- & Hin). apply List.in_combine_l in Hin.
        exact Hin.
      - apply IHn. exact Hrest. }
    assert (E : Stages.dict_of (List.combine FeatureImportance.feature_names importances)
                = List.combine FeatureImportance.feature_names importances).
    { unfold Stages.dict_of. rewrite DictFacts.dict_fold_nodup; [reflexivity|].
      apply K. exact N. }
    rewrite E. split; [reflexivity|]. split; [|split].
    + rewrite List.length_combine. reflexivity.
    + apply K. exact N.
    + intros i. generalize FeatureImportance.feature_names.
      revert importances N K E. intros importances _ _ _.
      revert importances. induction i as [|i IHi]; intros imps names name v Hn Hv.
      * destruct names, imps; try discriminate.
        simpl in *. injection Hn as <-. injection Hv as <-. reflexivity.
      * destruct names, imps; try discriminate. simpl in *.
        apply IHi; assumption.
Qed.

(** ** The summarizer *)

Section MoreOnSummary.

Variable format_0f : float -> pystr.

Local Abbreviation _generate_fallback_summary :=
  (LLMSummarizer._generate_fallback_summary format_0f).
Local Abbreviation generate_swedish_summary :=
  (LLMSummarizer.generate_swedish_summary format_0f).

Lemma firstn_2_nil {A} (l l' : list A) :
  List.firstn 2 l = List.firstn 2 l' -> (l = [] <-> l' = []).
Proof.
  destruct l as [|x [|y l]], l' as [|x' [|y' l']]; simpl; intros H;
    try discriminate; split; intros K; try discriminate; reflexivity.
Qed.

Lemma template_parts {A} (p1 p2 p3 v d a act : list A) :
  ((p1 ++ p2 ++ p3 ++ v ++ d) ++ a) ++ act
  = p1 ++ p2 ++ p3 ++ v ++ d ++ a ++ act.
Proof. rewrite <- !app_assoc. reflexivity. Qed.

(** X19.  Without an API key, when the chat request raises, or when its
    reply has no content, the summary is the template.  The template starts
    with the Swedish verdict, ends with the action recommended for the
    verdict, and uses the evidence only through its first two entries:
    assessments that agree on verdict, confidence and those two entries get
    the same text. *)
Theorem summary_template (risk_assessment : option URLAnalyzer.RiskAssessment) :
  (forall completion,
      generate_swedish_summary None completion risk_assessment
      = _generate_fallback_summary risk_assessment /\
      generate_swedish_summary (Some []) completion risk_assessment
      = _generate_fallback_summary risk_assessment) /\
  (forall api_key e,
      generate_swedish_summary api_key (Raise e) risk_assessment
      = _generate_fallback_summary risk_assessment) /\
  (forall api_key,
      generate_swedish_summary api_key (Ok None) risk_assessment
      = _generate_fallback_summary risk_assessment) /\
  (exists middle,
      _generate_fallback_summary risk_assessment
      = lit "Bed" ++ LLMSummarizer.oe ++ lit "mning: "
        ++ LLMSummarizer.verdict_map (option_map URLAnalyzer.verdict risk_assessment)
        ++ lit ". " ++ middle
        ++ LLMSummarizer.action_map (option_map URLAnalyzer.verdict risk_assessment)) /\
  (forall r r',
      risk_assessment = Some r ->
      URLAnalyzer.verdict r = URLAnalyzer.verdict r' ->
      URLAnalyzer.confidence r = URLAnalyzer.confidence r' ->
      List.firstn 2 (URLAnalyzer.evidence r) = List.firstn 2 (URLAnalyzer.evidence r') ->
      _generate_fallback_summary (Some r) = _generate_fallback_summary (Some r')).
Proof.
  split; [|split; [|split; [|split]]].
  - intros completion. split; reflexivity.
  - intros [[|k ks]|] e; reflexivity.
  - intros [[|k ks]|]; reflexivity.
  - unfold LLMSummarizer._generate_fallback_summary. cbv zeta.
    destruct (match risk_assessment with
              | Some r => URLAnalyzer.evidence r
              | None => []
              end) as [|x ev].
    + eexists. apply template_parts.
    + eexists. rewrite <- (app_assoc _ _ (lit "Viktiga fynd: " ++ _)).
      apply template_parts.
  - intros r r' _ Hv Hc He.
    unfold LLMSummarizer._generate_fallback_summary. cbn [option_map].
    rewrite Hv, Hc.
    pose proof (firstn_2_nil _ _ He) as Hn.
    destruct (URLAnalyzer.evidence r) as [|x ev] eqn:E1;
      destruct (URLAnalyzer.evidence r') as [|x' ev'] eqn:E2.
    + reflexivity.
    + destruct Hn as [Hn _]. specialize (Hn eq_refl). discriminate.
    + destruct Hn as [_ Hn]. specialize (Hn eq_refl). discriminate.
    + rewrite He. reflexivity.
Qed.

End MoreOnSummary.

(** ** The orchestrator *)

Section MoreOnAnalyze.

Variable urlparse : pystr -> result ParseResult.
Variable urljoin : pystr -> pystr -> result pystr.
Variable tldextract : pystr -> ExtractResult.
Variable inet_aton : pystr -> result unit.
Variable idna_decode : pystr -> result pystr.
Variable dns_resolve : pystr -> result (list pystr).
Variable whois : pystr -> result WhoisRecord.
Variable BeautifulSoup : pystr -> result Soup.
Variable lower : pystr -> pystr.
Variable isdigit : N -> bool.
Variable format_0f : float -> pystr.
Variable port_of : ParseResult -> result (option Z).
Variable getpeercert : pystr -> Z -> result Stages.Certificate.
Variable is_confusable : pystr -> result (option (list Stages.Confusable)).

Local Abbreviation normalize :=
  (URLAnalyzer._normalize_and_check_url urlparse tldextract inet_aton idna_decode).
Local Abbreviation stages :=
  (Pipeline.stages urlparse urljoin tldextract inet_aton idna_decode dns_resolve
     whois BeautifulSoup lower isdigit format_0f port_of getpeercert
     is_confusable).
Local Abbreviation analyze :=
  (Pipeline.analyze urlparse urljoin tldextract inet_aton idna_decode dns_resolve
     whois BeautifulSoup lower isdigit format_0f port_of getpeercert
     is_confusable).

Lemma normalize_returns_parsed url nu features :
  normalize url = Ok (nu, features) ->
  nu = URLAnalyzer.normalized url /\
  original_url features = nu /\
  url_length features = List.length nu /\
  exists parsed, urlparse nu = Ok parsed.
Proof.
  unfold URLAnalyzer._normalize_and_check_url.
  destruct (urlparse (URLAnalyzer.normalized url)) as [parsed|e] eqn:P;
    cbn [bind]; [|discriminate].
  destruct (URLAnalyzer._is_ip_address inet_aton (netloc parsed)); cbn [bind];
    [|discriminate].
  destruct (URLAnalyzer._has_punycode idna_decode (netloc parsed)); cbn [bind];
    [|discriminate].
  intros E. injection E as <- <-. cbn.
  repeat split. exists parsed. exact P.
Qed.

(** What the stages produce when none of them raises. *)
Lemma stages_value run session url job_id r :
  stages run session url job_id = Ok r ->
  exists features parsed port,
    normalize url = Ok (URLAnalyzer.normalized url, features) /\
    urlparse (URLAnalyzer.normalized url) = Ok parsed /\
    port_of parsed = Ok port /\
    Pipeline.pr_job_id r = job_id /\ Pipeline.pr_url r = url /\
    Pipeline.st_normalization (Pipeline.pr_steps r) = features /\
    Pipeline.st_http_analysis (Pipeline.pr_steps r)
    = URLAnalyzer._http_fetch_and_redirects urljoin session
        (URLAnalyzer.normalized url) /\
    Pipeline.st_content_analysis (Pipeline.pr_steps r)
    = URLAnalyzer._content_analysis BeautifulSoup lower
        (html_content (Pipeline.st_http_analysis (Pipeline.pr_steps r))) /\
    Stages.found_keywords (Pipeline.st_token_analysis (Pipeline.pr_steps r))
    = Stages.collect_keywords (lower (URLAnalyzer.normalized url)) /\
    Pipeline.st_screenshot_analysis (Pipeline.pr_steps r)
    = Stages._dynamic_screenshot_analysis urlparse lower
        (Pipeline.browser_enter run) (Pipeline.browser_capture run)
        (Pipeline.browser_leave run) (URLAnalyzer.normalized url) /\
    Pipeline.pr_risk_assessment r
    = URLAnalyzer._compile_risk_assessment urlparse lower isdigit format_0f
        (Pipeline.classifier run)
        {| job_id := job_id; url := url;
           steps := Pipeline.steps_view (Pipeline.pr_steps r) |} /\
    Pipeline.pr_swedish_summary r
    = LLMSummarizer.generate_swedish_summary format_0f
        (Pipeline.openai_api_key run) (Pipeline.completion run)
        (Some (Pipeline.pr_risk_assessment r)).
Proof.
  unfold Pipeline.stages.
  destruct (normalize url) as [[nu features]|e] eqn:Nz; cbn [bind];
    [|discriminate].
  destruct (normalize_returns_parsed _ _ _ Nz) as (-> & _ & _ & parsed & P).
  unfold URLAnalyzer._dns_and_whois_lookup, Stages._tls_cert_analysis,
    Stages._url_token_analysis.
  rewrite P. cbn [bind].
  destruct (port_of parsed) as [port|e] eqn:Po; cbn [bind]; [|discriminate].
  destruct (if PyStr.eqb (scheme parsed) (lit "https") then _ else _)
    as [cert|e]; cbn [bind]; [|discriminate].
  intros E. injection E as <-.
  exists features, parsed, port.
  cbn [Pipeline.pr_job_id Pipeline.pr_url Pipeline.pr_steps
       Pipeline.pr_risk_assessment Pipeline.pr_swedish_summary
       Pipeline.st_normalization Pipeline.st_http_analysis
       Pipeline.st_content_analysis Pipeline.st_token_analysis
       Pipeline.st_screenshot_analysis Stages.found_keywords].
  split; [reflexivity|]. split; [reflexivity|]. split; [exact Po|].
  repeat (split; [reflexivity|]). reflexivity.
Qed.

Lemma stages_returns run session url job_id :
  returns (stages run session url job_id) <->
  returns (normalize url) /\
  (forall parsed, urlparse (URLAnalyzer.normalized url) = Ok parsed ->
                  returns (port_of parsed)).
Proof.
  split.
  - intros [r H].
    destruct (stages_value _ _ _ _ _ H) as (f & parsed & port & Nz & P & Po & _).
    split; [eexists; exact Nz|].
    intros parsed' P'. rewrite P in P'. injection P' as <-.
    eexists. exact Po.
  - intros [[[nu features] Nz] Hport].
    destruct (normalize_returns_parsed _ _ _ Nz) as (-> & _ & _ & parsed & P).
    destruct (Hport parsed P) as [port Po].
    unfold Pipeline.stages. rewrite Nz. cbn [bind].
    unfold URLAnalyzer._dns_and_whois_lookup, Stages._tls_cert_analysis,
      Stages._url_token_analysis.
    rewrite P. cbn [bind]. rewrite Po. cbn [bind].
    destruct (PyStr.eqb (scheme parsed) (lit "https")).
    + destruct (bind (getpeercert _ _) _); cbn [bind]; eexists; reflexivity.
    + cbn [bind]. eexists; reflexivity.
Qed.

(** X20.  [analyze] returns exactly when the client session can be created
    and closed, the normalizer returns, and [parsed.port] of the normalized
    URL can be read.  No answer of the resolver, the WHOIS server, the TLS
    peer, the web server, the browser, the classifier's model or the
    summarizer's service can make it raise. *)
Theorem analyze_returns_iff (run : Pipeline.Run) (url job_id : pystr) :
  returns (analyze run url job_id) <->
  returns (Pipeline.new_session run) /\
  returns (Pipeline.close_session run) /\
  returns (normalize url) /\
  (forall parsed, urlparse (URLAnalyzer.normalized url) = Ok parsed ->
                  returns (port_of parsed)).
Proof.
  unfold Pipeline.analyze.
  destruct (Pipeline.new_session run) as [session|e].
  - rewrite <- (stages_returns run session url job_id).
    destruct (stages run session url job_id) as [r|e];
      destruct (Pipeline.close_session run) as [[]|e']; split.
    + intros _. repeat split; eexists; reflexivity.
    + intros _. eexists; reflexivity.
    + intros [r' K]. discriminate.
    + intros (_ & [u K] & _). discriminate.
    + intros [r' K]. discriminate.
    + intros (_ & _ & [r' K]). discriminate.
    + intros [r' K]. discriminate.
    + intros (_ & [u K] & _). discriminate.
  - split.
    + intros [r K]. discriminate.
    + intros ([s K] & _). discriminate.
Qed.

Local Open Scope float_scope.

(** X21.  In every analysis that [analyze] returns: the normalization
    record describes the trimmed URL with its scheme; the HTTP stage holds
    at most 5 hops; the content stage analysed a page only if the HTTP
    stage ended on status 200 without error, and otherwise holds
    ["No HTML content available"] and no login-form flag; at most 13
    keywords are reported; the assessment lists at most 6 evidence strings
    and a confidence between 60 and 95; and the record carries the job id
    and the URL as submitted. *)
Theorem analysis_record_invariants (run : Pipeline.Run) (url job_id : pystr)
    (r : Pipeline.PipelineResult) :
  analyze run url job_id = Ok r ->
  let s := Pipeline.pr_steps r in
  Pipeline.pr_job_id r = job_id /\ Pipeline.pr_url r = url /\
  original_url (Pipeline.st_normalization s) = URLAnalyzer.normalized url /\
  url_length (Pipeline.st_normalization s)
  = List.length (URLAnalyzer.normalized url) /\
  (List.length (redirect_chain (Pipeline.st_http_analysis s)) <= 5)%nat /\
  (content_error (Pipeline.st_content_analysis s) = None ->
   status_code (Pipeline.st_http_analysis s) = Some 200%Z /\
   http_error (Pipeline.st_http_analysis s) = None) /\
  (status_code (Pipeline.st_http_analysis s) <> Some 200%Z ->
   content_error (Pipeline.st_content_analysis s)
   = Some (lit "No HTML content available") /\
   has_login_form (Pipeline.st_content_analysis s) = None) /\
  (List.length (Stages.found_keywords (Pipeline.st_token_analysis s)) <= 13)%nat /\
  (List.length (URLAnalyzer.evidence (Pipeline.pr_risk_assessment r)) <= 6)%nat /\
  (60 <=? URLAnalyzer.confidence (Pipeline.pr_risk_assessment r)) = true /\
  (URLAnalyzer.confidence (Pipeline.pr_risk_assessment r) <=? 95) = true.
Proof.
  intros E s. unfold Pipeline.analyze in E.
  destruct (Pipeline.new_session run) as [session|e]; [|discriminate].
  destruct (stages run session url job_id) as [r'|e] eqn:St;
    destruct (Pipeline.close_session run) as [[]|e']; try discriminate.
  injection E as ->.
  destruct (stages_value _ _ _ _ _ St)
    as (features & parsed & port & Nz & P & Po & Hj & Hu & Hn & Hh & Hc & Hk
        & Hd & Hr & Hs).
  fold s in Hn, Hh, Hc, Hk, Hd, Hr.
  destruct (normalize_returns_parsed _ _ _ Nz) as (_ & On & Ln & _).
  split; [exact Hj|]. split; [exact Hu|].
  rewrite Hn. split; [exact On|]. split; [exact Ln|].
  pose proof (http_stage_facts urljoin session (URLAnalyzer.normalized url))
    as (Hcap & _ & Hhtml & _).
  rewrite <- Hh in Hcap, Hhtml.
  split; [exact Hcap|].
  assert (Hcontent : forall html,
             content_error (URLAnalyzer._content_analysis BeautifulSoup lower html)
             = None -> html <> []).
  { intros html K ->. discriminate. }
  split; [|split; [|split; [|split]]].
  - intros K. rewrite Hc in K. apply Hhtml. apply (Hcontent _ K).
  - intros K. rewrite Hc.
    destruct (html_content (Pipeline.st_http_analysis s)) as [|c html] eqn:H.
    + split; reflexivity.
    + exfalso. apply K. apply Hhtml. discriminate.
  - rewrite Hk.
    unfold Stages.collect_keywords.
    rewrite (ListFacts.fold_append_filter
               (contains (lower (URLAnalyzer.normalized url)))).
    etransitivity; [apply List.filter_length_le|]. simpl. lia.
  - rewrite Hr.
    rewrite (proj2 (compiled_fields urlparse lower isdigit format_0f _ _)).
    apply List.firstn_le_length.
  - rewrite Hr. unfold URLAnalyzer._compile_risk_assessment.
    destruct (URLAnalyzer.accumulate _ _ _ _ _ _) as [score ev].
    cbn [URLAnalyzer.confidence]. apply FloatFacts.confidence_of_range.
Qed.

End MoreOnAnalyze.

(** ** The job table *)

Module JobFacts.

Import Jobs.

Lemma set_processing_id j : id (set_processing j) = id j.
Proof. reflexivity. Qed.

Lemma select_update_same job_id values (db : Table) :
  (forall j, id (values j) = id j) ->
  select_by_id job_id (update_by_id job_id values db)
  = List.map values (select_by_id job_id db).
Proof.
  intros Hid. unfold select_by_id, update_by_id.
  induction db as [|j db IH]; simpl; [reflexivity|].
  destruct (PyStr.eqb (id j) job_id) eqn:E.
  - rewrite Hid, E. simpl. f_equal. exact IH.
  - rewrite E. exact IH.
Qed.

Lemma select_update_other job_id other values (db : Table) :
  (forall j, id (values j) = id j) ->
  other <> job_id ->
  select_by_id other (update_by_id job_id values db) = select_by_id other db.
Proof.
  intros Hid Hneq. unfold select_by_id, update_by_id.
  induction db as [|j db IH]; simpl; [reflexivity|].
  destruct (PyStr.eqb (id j) job_id) eqn:E.
  - rewrite Hid. apply pystr_eqb_eq in E.
    assert (F : PyStr.eqb (id j) other = false).
    { apply pystr_eqb_neq. intros K. apply Hneq. congruence. }
    rewrite F. exact IH.
  - destruct (PyStr.eqb (id j) other); [f_equal|]; exact IH.
Qed.

Lemma update_ids job_id values (db : Table) :
  (forall j, id (values j) = id j) ->
  List.map id (update_by_id job_id values db) = List.map id db.
Proof.
  intros Hid. unfold update_by_id. rewrite List.map_map.
  apply List.map_ext. intros j. destruct (PyStr.eqb (id j) job_id);
    [apply Hid|reflexivity].
Qed.

Lemma update_absent job_id values (db : Table) :
  select_by_id job_id db = [] -> update_by_id job_id values db = db.
Proof.
  unfold select_by_id, update_by_id.
  induction db as [|j db IH]; simpl; [reflexivity|].
  destruct (PyStr.eqb (id j) job_id); [discriminate|].
  intros H. f_equal. apply IH. exact H.
Qed.

Local Abbreviation finished := ExtraSpec.finished.

Lemma finished_id analysis now j : id (finished analysis now j) = id j.
Proof. destruct analysis; reflexivity. Qed.

Lemma task_as_update analysis now job_id (db : Table) :
  analyze_url_task analysis now job_id db
  = update_by_id job_id (finished analysis now) db.
Proof.
  unfold analyze_url_task, update_by_id.
  destruct analysis as [r|e]; rewrite List.map_map; apply List.map_ext;
    intros j; simpl; destruct (PyStr.eqb (id j) job_id) eqn:E;
    simpl; rewrite ?E; reflexivity.
Qed.

Lemma select_nodup job_id (db : Table) :
  NoDup (List.map id db) ->
  select_by_id job_id db = [] \/ exists j, select_by_id job_id db = [j].
Proof.
  unfold select_by_id. induction db as [|j db IH]; simpl; intros H.
  - left. reflexivity.
  - inversion H as [|? ? Hnot Hrest]; subst.
    destruct (PyStr.eqb (id j) job_id) eqn:E.
    + right. exists j. f_equal. apply pystr_eqb_eq in E.
      destruct (List.filter _ db) as [|j' l] eqn:F; [reflexivity|].
      exfalso. apply Hnot.
      assert (Hin : In j' (List.filter (fun j0 => PyStr.eqb (id j0) job_id) db))
        by (rewrite F; left; reflexivity).
      apply List.filter_In in Hin. destruct Hin as [Hin Hid].
      apply pystr_eqb_eq in Hid. rewrite E, <- Hid.
      apply List.in_map. exact Hin.
    + apply IH. exact Hrest.
Qed.

End JobFacts.

Section MoreOnJobs.

Import Jobs.

(** X22.  The analysis task leaves the job it was given in a terminal
    state: [completed], with the verdict, confidence and evidence of the
    assessment and the whole analysis stored, when the analysis returned;
    [failed], with the exception's message, when it raised.  The job is
    never left [queued] or [processing], its completion time is set, and the
    worker's report names the same state. *)
Theorem job_reaches_terminal_state (analysis : result Pipeline.PipelineResult)
    (now : Z) (job_id : pystr) (db : Table) :
  let db' := analyze_url_task analysis now job_id db in
  (forall j,
      In j db' -> id j = job_id ->
      (status j = Completed \/ status j = JobFailed) /\
      completed_at j = Some now /\
      (forall r, analysis = Ok r ->
                 status j = Completed /\
                 verdict j = Some (URLAnalyzer.verdict (Pipeline.pr_risk_assessment r)) /\
                 confidence j
                 = Some (URLAnalyzer.confidence (Pipeline.pr_risk_assessment r)) /\
                 evidence j
                 = Some (URLAnalyzer.evidence (Pipeline.pr_risk_assessment r)) /\
                 analysis_data j = Some r) /\
      (forall e, analysis = Raise e ->
                 status j = JobFailed /\ error_message j = Some (exn_msg e))) /\
  fst (_analyze_url_async analysis now job_id db) = db' /\
  report_status (snd (_analyze_url_async analysis now job_id db))
  = (match analysis with Ok _ => Completed | Raise _ => JobFailed end) /\
  ((exists j, In j db /\ id j = job_id) ->
   exists j, In j db' /\ id j = job_id).
Proof.
  intros db'. unfold db'. rewrite JobFacts.task_as_update.
  split; [|split; [|split]].
  - intros j Hin Hid. unfold update_by_id in Hin.
    apply List.in_map_iff in Hin. destruct Hin as (j0 & <- & Hin).
    destruct (PyStr.eqb (id j0) job_id) eqn:E.
    + destruct analysis as [r|e]; simpl.
      * split; [left; reflexivity|]. split; [reflexivity|]. split.
        -- intros r' K. injection K as <-. repeat split.
        -- intros e K. discriminate.
      * split; [right; reflexivity|]. split; [reflexivity|]. split.
        -- intros r K. discriminate.
        -- intros e' K. injection K as <-. split; reflexivity.
    + apply pystr_eqb_neq in E. contradiction.
  - unfold _analyze_url_async. cbn [fst]. apply JobFacts.task_as_update.
  - destruct analysis; reflexivity.
  - intros (j & Hin & Hid). exists (ExtraSpec.finished analysis now j). split.
    + unfold update_by_id. apply List.in_map_iff. exists j. split; [|exact Hin].
      rewrite Hid, ListFacts.eqb_refl. reflexivity.
    + rewrite JobFacts.finished_id. exact Hid.
Qed.

(** X23.  The analysis task touches only the rows of its own job: the ids
    of the table and their order stay the same, every request for another
    job gets the same reply as before, and when the table has no row for
    the job nothing changes at all (the task creates none). *)
Theorem task_leaves_other_jobs (analysis : result Pipeline.PipelineResult)
    (now : Z) (job_id : pystr) (db : Table) :
  let db' := analyze_url_task analysis now job_id db in
  List.map id db' = List.map id db /\
  (forall other, other <> job_id ->
                 select_by_id other db' = select_by_id other db /\
                 get_analysis_result other db' = get_analysis_result other db) /\
  (select_by_id job_id db = [] -> db' = db).
Proof.
  intros db'. unfold db'. rewrite JobFacts.task_as_update.
  split; [|split].
  - apply JobFacts.update_ids. intros j. apply JobFacts.finished_id.
  - intros other Hneq.
    assert (S : select_by_id other
                  (update_by_id job_id (ExtraSpec.finished analysis now) db)
                = select_by_id other db).
    { apply JobFacts.select_update_other; [|exact Hneq].
      intros j. apply JobFacts.finished_id. }
    split; [exact S|]. unfold get_analysis_result. rewrite S. reflexivity.
  - apply JobFacts.update_absent.
Qed.

(** X24.  On a table whose ids are distinct: a request for an unknown job
    is answered 404; submitting a URL under a fresh id adds one [queued]
    row, keeps the ids distinct, and a request for that id then shows the
    URL as submitted with no verdict; submitting under an id that exists is
    rejected.  After the analysis task ran on the new job, the request
    shows [completed] with the assessment's verdict, confidence and
    evidence and the stored summary. *)
Theorem submit_then_fetch (job_id url : pystr) (user : option pystr) (now : Z)
    (db : Table) :
  NoDup (List.map id db) ->
  (select_by_id job_id db = [] ->
   get_analysis_result job_id db = HttpException 404 (lit "Job not found") /\
   exists db',
     analyze_url job_id url user now db = Ok (db', (job_id, Queued)) /\
     db' = db ++ [ExtraSpec.queued_job job_id url user now] /\
     NoDup (List.map id db') /\
     (exists resp,
         get_analysis_result job_id db' = Respond resp /\
         resp_status resp = Queued /\ resp_job_url resp = url /\
         resp_verdict resp = None /\ resp_swedish_summary resp = None /\
         resp_artifacts resp = [] /\ resp_timestamp resp = now) /\
     (forall r later,
         exists resp,
           get_analysis_result job_id (analyze_url_task (Ok r) later job_id db')
           = Respond resp /\
           resp_status resp = Completed /\ resp_job_url resp = url /\
           resp_verdict resp
           = Some (URLAnalyzer.verdict (Pipeline.pr_risk_assessment r)) /\
           resp_confidence resp
           = Some (URLAnalyzer.confidence (Pipeline.pr_risk_assessment r)) /\
           resp_evidence resp
           = Some (URLAnalyzer.evidence (Pipeline.pr_risk_assessment r)) /\
           resp_swedish_summary resp = Some (Pipeline.pr_swedish_summary r) /\
           resp_timestamp resp = now)) /\
  (select_by_id job_id db <> [] ->
   raises (analyze_url job_id url user now db) /\
   exists resp, get_analysis_result job_id db = Respond resp).
Proof.
  intros Hnd. split.
  - intros Habs. split.
    + unfold get_analysis_result. rewrite Habs. reflexivity.
    + exists (db ++ [ExtraSpec.queued_job job_id url user now]).
      assert (Sel : select_by_id job_id
                      (db ++ [ExtraSpec.queued_job job_id url user now])
                    = [ExtraSpec.queued_job job_id url user now]).
      { unfold select_by_id in *. rewrite List.filter_app, Habs. simpl.
        rewrite ListFacts.eqb_refl. reflexivity. }
      split; [unfold analyze_url; rewrite Habs; reflexivity|].
      split; [reflexivity|]. split; [|split].
      * rewrite List.map_app. simpl.
        apply List.NoDup_app; [exact Hnd|constructor; [intros []|constructor]|].
        intros x Hx [<-|[]]. apply List.in_map_iff in Hx.
        destruct Hx as (j & Hid & Hin).
        assert (K : In j (select_by_id job_id db)).
        { unfold select_by_id. apply List.filter_In. split; [exact Hin|].
          apply pystr_eqb_eq. exact Hid. }
        rewrite Habs in K. contradiction.
      * eexists. unfold get_analysis_result. rewrite Sel.
        split; [reflexivity|]. repeat split.
      * intros r later. rewrite JobFacts.task_as_update.
        eexists. unfold get_analysis_result.
        rewrite JobFacts.select_update_same
          by (intros j; apply JobFacts.finished_id).
        rewrite Sel. cbn [List.map]. split; [reflexivity|]. repeat split.
  - intros Hex. split.
    + unfold analyze_url. destruct (select_by_id job_id db); [contradiction|].
      eexists. reflexivity.
    + destruct (JobFacts.select_nodup job_id db Hnd) as [K|[j K]];
        [contradiction|].
      unfold get_analysis_result. rewrite K. eexists. reflexivity.
Qed.

End MoreOnJobs.

(** ** Forms seen by the browser *)

Section MoreOnForms.

Variable urlparse : pystr -> result ParseResult.
Variable lower : pystr -> pystr.

Local Abbreviation form_indicators := (Stages.form_indicators urlparse lower).

Lemma external_is_not_login :
  ExtraSpec.external_form_text <> ExtraSpec.login_form_text.
Proof. discriminate. Qed.

(** X25.  A form is reported as posting to an external domain exactly when
    its action is non-empty and does not begin with the text of the URL's
    network location.  The action is compared as text, not as a URL: an
    action whose first character differs from the first character of the
    host is reported, so a relative action and an absolute action on the
    page's own host are reported too. *)
Theorem external_form_rule (url : pystr) (form : ScreenshotService.DetectedForm)
    (acc : list pystr) (parsed : ParseResult) :
  urlparse url = Ok parsed ->
  exists out,
    form_indicators url form acc = Ok out /\
    (In ExtraSpec.external_form_text out <->
     In ExtraSpec.external_form_text acc \/
     exists action,
       ScreenshotService.df_action form = Some action /\ action <> [] /\
       startswith action (netloc parsed) = false) /\
    (forall a action c host,
        ScreenshotService.df_action form = Some (a :: action) ->
        netloc parsed = c :: host -> a <> c ->
        In ExtraSpec.external_form_text out).
Proof.
  intros P.
  assert (G : forall mid (login : bool),
             In ExtraSpec.external_form_text
               (if login then mid ++ [ExtraSpec.login_form_text] else mid)
             <-> In ExtraSpec.external_form_text mid).
  { intros mid [|]; [|reflexivity]. rewrite List.in_app_iff. split.
    - intros [H|[H|[]]]; [exact H|].
      exfalso. apply external_is_not_login. symmetry. exact H.
    - intros H. left. exact H. }
  assert (R : exists out,
             form_indicators url form acc = Ok out /\
             (In ExtraSpec.external_form_text out <->
              In ExtraSpec.external_form_text acc \/
              exists action,
                ScreenshotService.df_action form = Some action /\
                action <> [] /\ startswith action (netloc parsed) = false)).
  { unfold Stages.form_indicators.
    set (login := List.existsb _ _ && List.existsb _ _).
    destruct (ScreenshotService.df_action form) as [[|a action]|] eqn:A.
    - cbn [bind]. exists (if login then acc ++ [ExtraSpec.login_form_text] else acc).
      split; [destruct login; reflexivity|]. rewrite G. split.
      + intros H. left. exact H.
      + intros [H|(x & E & N & _)]; [exact H|].
        injection E as <-. contradiction.
    - rewrite P. cbn [bind].
      destruct (startswith (a :: action) (netloc parsed)) eqn:S; cbn [negb bind].
      + exists (if login then acc ++ [ExtraSpec.login_form_text] else acc).
        split; [destruct login; reflexivity|]. rewrite G. split.
        * intros H. left. exact H.
        * intros [H|(x & E & _ & K)]; [exact H|].
          injection E as <-. rewrite S in K. discriminate.
      + exists (if login
                then (acc ++ [ExtraSpec.external_form_text])
                     ++ [ExtraSpec.login_form_text]
                else acc ++ [ExtraSpec.external_form_text]).
        split; [destruct login; reflexivity|]. rewrite G. split.
        * intros _. right. exists (a :: action).
          split; [reflexivity|]. split; [discriminate|exact S].
        * intros _. apply List.in_or_app. right. left. reflexivity.
    - cbn [bind]. exists (if login then acc ++ [ExtraSpec.login_form_text] else acc).
      split; [destruct login; reflexivity|]. rewrite G. split.
      + intros H. left. exact H.
      + intros [H|(x & E & _)]; [exact H|discriminate]. }
  destruct R as (out & E & I). exists out. split; [exact E|]. split; [exact I|].
  intros a action c host A N Hne. apply I. right. exists (a :: action).
  split; [exact A|]. split; [discriminate|].
  rewrite N. simpl. destruct (N.eqb a c) eqn:Q; [|reflexivity].
  apply N.eqb_eq in Q. contradiction.
Qed.

End MoreOnForms.

(* ================================================================== *)
(** * The entries of [steps]: payload and error *)

Section StageEntries.

Variable urlparse : pystr -> result ParseResult.
Variable urljoin : pystr -> pystr -> result pystr.
Variable tldextract : pystr -> ExtractResult.
Variable inet_aton : pystr -> result unit.
Variable idna_decode : pystr -> result pystr.
Variable dns_resolve : pystr -> result (list pystr).
Variable whois : pystr -> result WhoisRecord.
Variable BeautifulSoup : pystr -> result Soup.
Variable lower : pystr -> pystr.
Variable isdigit : N -> bool.
Variable format_0f : float -> pystr.
Variable port_of : ParseResult -> result (option Z).
Variable getpeercert : pystr -> Z -> result Stages.Certificate.
Variable is_confusable : pystr -> result (option (list Stages.Confusable)).

Local Abbreviation expected_trace := (TraceSpec.expected_trace urljoin).
Local Abbreviation follow_redirects := (URLAnalyzer.follow_redirects urljoin).
Local Abbreviation _dns_and_whois_lookup :=
  (URLAnalyzer._dns_and_whois_lookup urlparse tldextract dns_resolve whois).
Local Abbreviation _tls_cert_analysis :=
  (Stages._tls_cert_analysis urlparse port_of getpeercert).
Local Abbreviation _http_fetch_and_redirects :=
  (URLAnalyzer._http_fetch_and_redirects urljoin).
Local Abbreviation _url_token_analysis :=
  (Stages._url_token_analysis urlparse lower is_confusable).
Local Abbreviation _content_analysis :=
  (URLAnalyzer._content_analysis BeautifulSoup lower).
Local Abbreviation _dynamic_screenshot_analysis :=
  (Stages._dynamic_screenshot_analysis urlparse lower).
Local Abbreviation analyze :=
  (Pipeline.analyze urlparse urljoin tldextract inet_aton idna_decode dns_resolve
     whois BeautifulSoup lower isdigit format_0f port_of getpeercert
     is_confusable).

Import StageSpec.

Lemma expected_trace_cons (cur : pystr) (r : Response) (rest : list Response) :
  expected_trace cur (r :: rest)
  = if URLAnalyzer.is_redirect (resp_status r) then
      match resp_location r with
      | Some (c :: l) =>
          match urljoin cur (c :: l) with
          | Ok next =>
              match expected_trace next rest with
              | Some (hops, final) =>
                  Some ({| hop_url := cur; hop_status := resp_status r;
                           hop_location := c :: l |} :: hops, final)
              | None => None
              end
          | Raise _ => None
          end
      | _ => None
      end
    else None.
Proof. reflexivity. Qed.

(** A run of redirects followed by a request that fails: the loop returns
    the hops of the run and the exception. *)
Lemma follow_then_failure (rest : list Response) :
  forall budget first e tail cur d hops final,
    expected_trace cur (first :: rest) = Some (hops, final) ->
    List.length (first :: rest) <= budget ->
    follow_redirects budget (List.map Ok rest ++ Raise e :: tail) first cur d
    = (TraceSpec.extend_chain hops d, Raise e).
Proof.
  induction rest as [|r rs IH];
    intros budget first e tail cur d hops final Hexp Hlen;
    rewrite expected_trace_cons in Hexp;
    destruct (URLAnalyzer.is_redirect (resp_status first)) eqn:Hr;
    try discriminate;
    destruct (resp_location first) as [[|c l]|] eqn:Hl; try discriminate;
    destruct (urljoin cur (c :: l)) as [next|e0] eqn:Hj; try discriminate;
    (destruct budget as [|b]; [simpl in Hlen; lia|]).
  - simpl in Hexp. injection Hexp as <- <-.
    simpl. rewrite Hr, Hl, Hj. reflexivity.
  - destruct (expected_trace next (r :: rs)) as [[hs f]|] eqn:E;
      [|discriminate].
    injection Hexp as <- <-.
    cbn [URLAnalyzer.follow_redirects]. rewrite Hr, Hl, Hj.
    cbn [List.map app session_get].
    rewrite (IH b r e tail next _ hs f E) by (simpl in Hlen |- *; lia).
    rewrite extend_chain_cons. reflexivity.
Qed.

Lemma expected_trace_nonempty first rest cur hops final :
  expected_trace cur (first :: rest) = Some (hops, final) -> hops <> [].
Proof.
  intros H. apply expected_trace_length in H. intros ->. discriminate.
Qed.

(** The stage on such a script: the hops stay beside the error. *)
Lemma fetch_then_failure first rest e tail url hops final :
  expected_trace (resp_url first) (first :: rest) = Some (hops, final) ->
  List.length (first :: rest) <= 5 ->
  let d := _http_fetch_and_redirects
             (List.map Ok (first :: rest) ++ Raise e :: tail) url in
  redirect_chain d = hops /\ http_error d = Some (exn_msg e) /\
  status_code d = None /\ final_url d = url.
Proof.
  intros Hexp Hlen d. unfold d, URLAnalyzer._http_fetch_and_redirects.
  cbn [List.map app session_get].
  rewrite (follow_then_failure rest 5 first e tail _ _ hops final Hexp Hlen).
  repeat split.
Qed.

(** The stage on a script that ends in a page whose body cannot be read. *)
Lemma fetch_then_unreadable redirects terminal e tail url hops final :
  expected_trace (TraceSpec.first_url redirects terminal) redirects
  = Some (hops, final) ->
  List.length redirects <= 5 ->
  resp_status terminal = 200%Z ->
  resp_text terminal = Raise e ->
  let d := _http_fetch_and_redirects
             (List.map Ok (redirects ++ [terminal]) ++ tail) url in
  redirect_chain d = hops /\ final_url d = final /\
  status_code d = Some 200%Z /\ headers d = resp_headers terminal /\
  http_error d = Some (exn_msg e).
Proof.
  intros Hexp Hlen H200 Htext d.
  assert (Hstop : TraceSpec.stops terminal = true).
  { unfold TraceSpec.stops. rewrite H200. reflexivity. }
  destruct (redirects ++ [terminal]) as [|first rest] eqn:Hrs.
  { destruct redirects; discriminate. }
  assert (Hfirst : TraceSpec.first_url redirects terminal = resp_url first).
  { unfold TraceSpec.first_url. destruct redirects as [|r rs]; simpl in *;
      injection Hrs as <- _; reflexivity. }
  rewrite Hfirst in Hexp.
  unfold d, URLAnalyzer._http_fetch_and_redirects.
  change (List.map Ok (first :: rest) ++ tail)
    with (Ok first :: (List.map Ok rest ++ tail)).
  unfold session_get. cbv beta iota.
  rewrite (follow_chain urljoin redirects 5 first rest terminal tail _ _ hops
             final Hrs Hexp Hlen (or_intror Hstop)).
  rewrite H200, Htext. simpl. rewrite H200. repeat split.
Qed.

(** Each entry of a returned record is the value of its stage function at
    the normalized URL. *)
Lemma stage_entries (run : Pipeline.Run) (url job_id : pystr)
    (r : Pipeline.PipelineResult) :
  analyze run url job_id = Ok r ->
  _dns_and_whois_lookup (URLAnalyzer.normalized url)
  = Ok (Pipeline.st_dns_whois (Pipeline.pr_steps r)) /\
  _tls_cert_analysis (URLAnalyzer.normalized url)
  = Ok (Pipeline.st_tls_cert (Pipeline.pr_steps r)) /\
  (exists session,
      Pipeline.new_session run = Ok session /\
      Pipeline.st_http_analysis (Pipeline.pr_steps r)
      = _http_fetch_and_redirects session (URLAnalyzer.normalized url)) /\
  _url_token_analysis (URLAnalyzer.normalized url)
  = Ok (Pipeline.st_token_analysis (Pipeline.pr_steps r)) /\
  Pipeline.st_reputation (Pipeline.pr_steps r)
  = Stages._reputation_checks (URLAnalyzer.normalized url) /\
  Pipeline.st_content_analysis (Pipeline.pr_steps r)
  = _content_analysis
      (html_content (Pipeline.st_http_analysis (Pipeline.pr_steps r))) /\
  Pipeline.st_screenshot_analysis (Pipeline.pr_steps r)
  = _dynamic_screenshot_analysis (Pipeline.browser_enter run)
      (Pipeline.browser_capture run) (Pipeline.browser_leave run)
      (URLAnalyzer.normalized url).
Proof.
  unfold Pipeline.analyze.
  destruct (Pipeline.new_session run) as [session|e]; [|discriminate].
  destruct (Pipeline.stages _ _ _ _ _ _ _ _ _ _ _ _ _ _ run session url job_id)
    as [r'|e] eqn:St;
    destruct (Pipeline.close_session run) as [[]|e']; try discriminate.
  intros E. injection E as <-.
  unfold Pipeline.stages in St.
  destruct (URLAnalyzer._normalize_and_check_url urlparse tldextract inet_aton
              idna_decode url) as [[nu features]|e] eqn:Nz; cbn [bind] in St;
    [|discriminate].
  destruct (normalize_returns_parsed urlparse tldextract inet_aton idna_decode
              _ _ _ Nz) as (-> & _ & _ & parsed & P).
  destruct (_dns_and_whois_lookup (URLAnalyzer.normalized url)) as [dns|e];
    cbn [bind] in St; [|discriminate].
  destruct (_tls_cert_analysis (URLAnalyzer.normalized url)) as [tls|e];
    cbn [bind] in St; [|discriminate].
  destruct (_url_token_analysis (URLAnalyzer.normalized url)) as [tok|e];
    cbn [bind] in St; [|discriminate].
  injection St as <-.
  cbn [Pipeline.pr_steps Pipeline.st_dns_whois Pipeline.st_tls_cert
       Pipeline.st_http_analysis Pipeline.st_token_analysis
       Pipeline.st_reputation Pipeline.st_content_analysis
       Pipeline.st_screenshot_analysis].
  repeat (split; [reflexivity|]).
  split; [exists session; split; reflexivity|].
  repeat (split; [reflexivity|]). reflexivity.
Qed.

(** What the dynamic stage returns on what the browser service returns. *)
Lemma dynamic_entry (enter : result unit) (body : ScreenshotService.BodyOutcome)
    (close leave : result unit) (url : pystr) :
  let d := _dynamic_screenshot_analysis enter
             (ScreenshotService.capture_screenshot_and_analyze body close)
             leave url in
  (Stages.analysis_success d = true /\
   exists c,
     Stages.captured d = Some c /\
     Stages.dyn_error d = ScreenshotService.cap_error c /\
     (ScreenshotService.cap_error c = None <-> exists o, body = ScreenshotService.Loaded o)) \/
  (Stages.analysis_success d = false /\ Stages.captured d = None /\
   Stages.dyn_phishing_indicators d = [] /\
   exists msg, Stages.dyn_error d = Some msg).
Proof.
  intros d.
  destruct (dynamic_cases urlparse lower enter
              (ScreenshotService.capture_screenshot_and_analyze body close)
              leave url) as [(c & d' & _ & C & _ & B & E)|(e & E)];
    fold d in E; rewrite E.
  - left.
    destruct (dynamic_body_shape urlparse lower _ _ _ B) as (K1 & K2 & K3 & _).
    split; [exact K2|]. exists c. split; [exact K1|]. split; [exact K3|].
    rewrite (capture_value _ _ _ C).
    destruct body as [o|page|page e0]; cbn; split.
    + intros _. exists o. reflexivity.
    + reflexivity.
    + discriminate.
    + intros [o K]. discriminate.
    + discriminate.
    + intros [o K]. discriminate.
  - right. repeat split. eexists. reflexivity.
Qed.

(** C1, as the code has it.  The entries of [steps] are not uniformly
    "payload or error".
    - [content_analysis] holds exactly one of the two.
    - [dns_whois] decides for each of its two lookups separately
      ([a_records] or [dns_error]; the three WHOIS keys together or
      [whois_error]), so it is never empty, and whenever one lookup answers
      and the other fails it holds the data of the one beside the error of
      the other.
    - [http_analysis] gains [http_error] beside what it has collected: after
      a run of redirects followed by a failed request it holds the hops of
      the run and the error; when the body of a 200 response cannot be read
      it holds hops, [final_url], [status_code], [headers] and the error.
      Without an error [status_code] is set, and the entry is never empty.
    - [tls_cert] is the empty dictionary for every URL whose scheme is not
      [https]; for [https] it holds exactly one of: all five certificate
      fields, or [cert_error] alone.
    - [screenshot_analysis] is never empty: either the failure dictionary
      (the error, no data of the browser service), or a success that holds
      the service's dictionary, with the service's own [error] beside it
      exactly when the page did not load.
    - [normalization], [token_analysis] and [reputation] have no error key;
      with the others they are, in every record [analyze] returns, the values
      of the stage functions at the normalized URL. *)
Theorem stage_results_payload_or_error :
  (forall html,
      exclusive (content_has_error (_content_analysis html))
                (content_has_payload (_content_analysis html)) = true) /\
  (forall url d,
      _dns_and_whois_lookup url = Ok d ->
      exclusive (present (dns_error d)) (present (a_records d)) = true /\
      exclusive (present (whois_error d))
                (present (creation_date d) && present (registrar d)
                 && present (name_servers d)) = true /\
      (present (whois_error d) = true ->
       present (creation_date d) || present (registrar d)
       || present (name_servers d) = false) /\
      dns_has_error d || dns_has_payload d = true /\
      EntrySpec.dns_shape d <> EntrySpec.Neither) /\
  (forall url parsed,
      urlparse url = Ok parsed ->
      let domain := ext_registered_domain (tldextract (netloc parsed)) in
      (forall answers e,
          dns_resolve domain = Ok answers -> whois domain = Raise e ->
          exists d,
            _dns_and_whois_lookup url = Ok d /\
            a_records d = Some answers /\ whois_error d = Some (exn_msg e) /\
            EntrySpec.dns_shape d = EntrySpec.Both) /\
      (forall e w,
          dns_resolve domain = Raise e -> whois domain = Ok w ->
          exists d,
            _dns_and_whois_lookup url = Ok d /\
            dns_error d = Some (exn_msg e) /\
            registrar d = Some (w_registrar w) /\
            EntrySpec.dns_shape d = EntrySpec.Both)) /\
  (forall session url,
      let d := _http_fetch_and_redirects session url in
      (http_has_error d = false -> present (status_code d) = true) /\
      http_has_error d || http_has_payload d = true /\
      EntrySpec.http_shape d <> EntrySpec.Neither) /\
  (forall first rest e tail url hops final,
      expected_trace (resp_url first) (first :: rest) = Some (hops, final) ->
      List.length (first :: rest) <= 5 ->
      let d := _http_fetch_and_redirects
                 (List.map Ok (first :: rest) ++ Raise e :: tail) url in
      redirect_chain d = hops /\
      List.length (redirect_chain d) = List.length (first :: rest) /\
      http_error d = Some (exn_msg e) /\
      EntrySpec.http_shape d = EntrySpec.Both) /\
  (forall redirects terminal e tail url hops final,
      expected_trace (TraceSpec.first_url redirects terminal) redirects
      = Some (hops, final) ->
      List.length redirects <= 5 ->
      resp_status terminal = 200%Z ->
      resp_text terminal = Raise e ->
      let d := _http_fetch_and_redirects
                 (List.map Ok (redirects ++ [terminal]) ++ tail) url in
      redirect_chain d = hops /\ final_url d = final /\
      status_code d = Some 200%Z /\ headers d = resp_headers terminal /\
      http_error d = Some (exn_msg e) /\
      EntrySpec.http_shape d = EntrySpec.Both) /\
  (forall url parsed p,
      urlparse url = Ok parsed -> port_of parsed = Ok p ->
      exists d,
        _tls_cert_analysis url = Ok d /\
        (PyStr.eqb (scheme parsed) (lit "https") = false ->
         d = Stages.empty_cert_data /\
         EntrySpec.tls_shape d = EntrySpec.Neither) /\
        (PyStr.eqb (scheme parsed) (lit "https") = true ->
         exclusive (present (Stages.cert_error d)) (ExtraSpec.tls_complete d)
         = true /\
         (EntrySpec.tls_shape d = EntrySpec.PayloadOnly \/
          EntrySpec.tls_shape d = EntrySpec.ErrorOnly))) /\
  (forall enter body close leave url,
      let d := _dynamic_screenshot_analysis enter
                 (ScreenshotService.capture_screenshot_and_analyze body close)
                 leave url in
      (Stages.analysis_success d = true ->
       (exists c,
           Stages.captured d = Some c /\
           Stages.dyn_error d = ScreenshotService.cap_error c) /\
       ((exists o, body = ScreenshotService.Loaded o) ->
        EntrySpec.dynamic_shape d = EntrySpec.PayloadOnly) /\
       ((forall o, body <> ScreenshotService.Loaded o) ->
        EntrySpec.dynamic_shape d = EntrySpec.Both)) /\
      (Stages.analysis_success d = false ->
       EntrySpec.dynamic_shape d = EntrySpec.ErrorOnly /\
       Stages.dyn_phishing_indicators d = []) /\
      EntrySpec.dynamic_shape d <> EntrySpec.Neither) /\
  (forall run url job_id r,
      analyze run url job_id = Ok r ->
      let s := Pipeline.pr_steps r in
      let nu := URLAnalyzer.normalized url in
      _dns_and_whois_lookup nu = Ok (Pipeline.st_dns_whois s) /\
      _tls_cert_analysis nu = Ok (Pipeline.st_tls_cert s) /\
      (exists session,
          Pipeline.new_session run = Ok session /\
          Pipeline.st_http_analysis s = _http_fetch_and_redirects session nu) /\
      _url_token_analysis nu = Ok (Pipeline.st_token_analysis s) /\
      Pipeline.st_reputation s = Stages._reputation_checks nu /\
      Pipeline.st_content_analysis s
      = _content_analysis (html_content (Pipeline.st_http_analysis s)) /\
      Pipeline.st_screenshot_analysis s
      = _dynamic_screenshot_analysis (Pipeline.browser_enter run)
          (Pipeline.browser_capture run) (Pipeline.browser_leave run) nu).
Proof.
  split; [|split; [|split; [|split; [|split; [|split; [|split; [|split]]]]]]].
  - intros html. unfold URLAnalyzer._content_analysis.
    destruct html as [|c html]; [reflexivity|].
    destruct (BeautifulSoup (c :: html)); reflexivity.
  - intros url d. unfold URLAnalyzer._dns_and_whois_lookup.
    destruct (urlparse url) as [parsed|e]; cbn [bind]; [|discriminate].
    intros E. injection E as <-.
    unfold URLAnalyzer.whois_step, URLAnalyzer.dns_step, EntrySpec.dns_shape.
    destruct (dns_resolve _), (whois _); cbn;
      repeat split; try reflexivity; discriminate.
  - intros url parsed P domain. unfold URLAnalyzer._dns_and_whois_lookup.
    rewrite P. cbn [bind]. fold domain.
    unfold URLAnalyzer.whois_step, URLAnalyzer.dns_step. split.
    + intros answers e -> ->. eexists. split; [reflexivity|]. repeat split.
    + intros e w -> ->. eexists. split; [reflexivity|]. repeat split.
  - intros session url d.
    assert (G : http_has_error d = false -> present (status_code d) = true).
    { unfold d, URLAnalyzer._http_fetch_and_redirects.
      destruct (session_get session) as [[response|e] s']; [|discriminate].
      pose proof (follow_redirects_keeps urljoin 5 s' response (resp_url response)
                    (URLAnalyzer.initial_http url)) as K.
      destruct (URLAnalyzer.follow_redirects urljoin 5 s' response
                  (resp_url response) (URLAnalyzer.initial_http url))
        as [d' [[r cur]|e]]; [|discriminate].
      destruct (Z.eqb (resp_status r) 200); [|reflexivity].
      destruct (resp_text r); [reflexivity|discriminate]. }
    split; [exact G|].
    unfold EntrySpec.http_shape, http_has_payload.
    destruct (http_has_error d); [split; [reflexivity|]|].
    + destruct (_ || _); discriminate.
    + rewrite (G eq_refl), orb_true_r. split; [reflexivity|discriminate].
  - intros first rest e tail url hops final Hexp Hlen d.
    destruct (fetch_then_failure first rest e tail url hops final Hexp Hlen)
      as (A & B & _).
    fold d in A, B.
    split; [exact A|]. split.
    + rewrite A. exact (expected_trace_length urljoin _ _ _ _ Hexp).
    + split; [exact B|].
      unfold EntrySpec.http_shape, http_has_error, http_has_payload.
      rewrite A, B.
      destruct hops as [|h hs];
        [exfalso; exact (expected_trace_nonempty _ _ _ _ _ Hexp eq_refl)|].
      reflexivity.
  - intros redirects terminal e tail url hops final Hexp Hlen H200 Htext d.
    destruct (fetch_then_unreadable redirects terminal e tail url hops final
                Hexp Hlen H200 Htext) as (A & B & C & D & E).
    fold d in A, B, C, D, E.
    repeat (split; [assumption|]).
    unfold EntrySpec.http_shape, http_has_error, http_has_payload.
    rewrite C, E. cbn. rewrite orb_true_r. reflexivity.
  - intros url parsed p P Po. unfold Stages._tls_cert_analysis.
    rewrite P. cbn [bind]. rewrite Po. cbn [bind].
    destruct (PyStr.eqb (scheme parsed) (lit "https")) eqn:S.
    + destruct (getpeercert _ _) as [cert|e]; cbn [bind].
      * pose proof (cert_fields_shape cert) as K.
        destruct (Stages.cert_fields cert) as [d|e].
        -- exists d. split; [reflexivity|]. split; [discriminate|].
           intros _. destruct K as [K1 K2].
           unfold EntrySpec.tls_shape. rewrite K1, K2.
           split; [reflexivity|]. left.
           unfold ExtraSpec.tls_complete in K1.
           unfold ExtraSpec.tls_has_payload.
           destruct (present (Stages.subject d)); [reflexivity|discriminate].
        -- eexists. split; [reflexivity|]. split; [discriminate|].
           intros _. split; [reflexivity|right; reflexivity].
      * eexists. split; [reflexivity|]. split; [discriminate|].
        intros _. split; [reflexivity|right; reflexivity].
    + eexists. split; [reflexivity|]. split; [|discriminate].
      intros _. split; reflexivity.
  - intros enter body close leave url d.
    destruct (dynamic_entry enter body close leave url)
      as [(S & c & C & E & L)|(S & C & I & msg & E)]; fold d in S, C, E.
    + unfold EntrySpec.dynamic_shape. rewrite S, C, E.
      split; [|split; [discriminate|]].
      * intros _. split; [exists c; split; reflexivity|]. split.
        -- intros Hl. rewrite (proj2 L Hl). reflexivity.
        -- intros Hn. destruct (ScreenshotService.cap_error c) as [m|] eqn:Q;
             [reflexivity|].
           destruct (proj1 L eq_refl) as [o K]. exfalso. exact (Hn o K).
      * destruct (ScreenshotService.cap_error c); discriminate.
    + fold d in I. unfold EntrySpec.dynamic_shape. rewrite S, C, E.
      split; [discriminate|]. split; [|discriminate].
      intros _. split; [reflexivity|exact I].
  - intros run url job_id r E s nu. exact (stage_entries run url job_id r E).
Qed.

End StageEntries.

(* ================================================================== *)
(** * The further properties at concrete inputs *)

Section FurtherAtReference.

Local Abbreviation token_analysis :=
  (Stages._url_token_analysis Reference.urlparse Reference.lower).
Local Abbreviation tls :=
  (Stages._tls_cert_analysis Reference.urlparse Sample.port_of Sample.getpeercert).
Local Abbreviation dynamic :=
  (Stages._dynamic_screenshot_analysis Reference.urlparse Reference.lower).
Local Abbreviation dynamic_body :=
  (Stages.dynamic_body Reference.urlparse Reference.lower).
Local Abbreviation http_fetch :=
  (URLAnalyzer._http_fetch_and_redirects Reference.urljoin).
Local Abbreviation content :=
  (URLAnalyzer._content_analysis Reference.BeautifulSoup Reference.lower).
Local Abbreviation fallback_summary :=
  (LLMSummarizer._generate_fallback_summary Reference.format_0f).

(** A text without any of the keywords scores 0. *)
Lemma text_score_range_witness :
  MLClassifier._analyze_text_content Reference.lower (lit "Hello world") = 0%float.
Proof.
  pose proof (text_score_range Reference.lower (lit "Hello world")) as H.
  cbv zeta in H. destruct H as (_ & _ & _ & H). apply H.
  intros kw Hin. apply negb_true_iff.
  exact (proj1 (List.forallb_forall
                  (fun kw => negb (contains (Reference.lower (lit "Hello world"))
                                     (fst kw)))
                  MLClassifier.phishing_keywords) eq_refl kw Hin).
Defined.

(** Keywords are reported in table order, whatever their order and case in
    the URL; without the homoglyph library the flag stays false. *)
Lemma token_stage_keywords_witness :
  exists t,
    token_analysis Sample.confusables_unavailable
      (lit "https://Secure-Login.a.example/") = Ok t /\
    Stages.found_keywords t = [lit "login"; lit "secure"] /\
    Stages.has_homoglyphs t = None.
Proof.
  destruct (token_stage_keywords Reference.urlparse Reference.lower
              Sample.confusables_unavailable
              (lit "https://Secure-Login.a.example/")) as [_ H].
  destruct (H _ eq_refl) as (t & E & K & _ & _ & _ & G).
  exists t. split; [exact E|]. split; [rewrite K; reflexivity|].
  apply G. eexists. reflexivity.
Defined.

(** A host of five labels. *)
Lemma subdomain_count_witness :
  (exists t,
      token_analysis Sample.is_confusable (lit "http://a.b.c.d.example/") = Ok t /\
      Stages.subdomain_count t = 5) /\
  List.nth 9 (MLClassifier.extract_url_features Reference.urlparse
                Reference.isdigit (lit "http://a.b.c.d.example/") Scenario.quiet)
           0%Z = 1%Z.
Proof.
  exact (subdomain_count_counts_labels Reference.urlparse Reference.lower
           Sample.is_confusable Reference.isdigit
           (lit "http://a.b.c.d.example/") Scenario.quiet _ eq_refl).
Defined.

(** A refused connection: the error and nothing else. *)
Lemma tls_stage_outcomes_witness :
  exists d,
    tls (lit "https://b.example/") = Ok d /\
    StageSpec.exclusive (StageSpec.present (Stages.cert_error d))
      (ExtraSpec.tls_complete d) = true /\
    ExtraSpec.tls_has_payload d = false.
Proof.
  destruct (tls_stage_outcomes Reference.urlparse Sample.port_of
              Sample.getpeercert (lit "https://b.example/")) as [_ H].
  destruct (H _ eq_refl) as [_ Hp].
  destruct (Hp _ eq_refl) as (d & E & _ & Hh).
  destruct (Hh eq_refl) as [X Hpay].
  exists d. split; [exact E|]. split; [exact X|]. apply Hpay.
  vm_compute in E. injection E as <-. reflexivity.
Defined.

Lemma tls_endpoint_witness :
  Stages.port_or_default (Some 8443%Z) (lit "http") = 8443%Z /\
  Stages.port_or_default None (lit "http") = 80%Z.
Proof.
  destruct (tls_endpoint (lit "a.example:8443") (lit "http"))
    as (_ & _ & Hp & _ & _ & Hd).
  split; [apply Hp; discriminate|apply Hd; discriminate].
Defined.

(** Of two organizational units, the second is kept. *)
Lemma certificate_names_witness :
  exists d sd,
    Stages.cert_fields Sample.certificate = Ok d /\
    Stages.subject d = Some sd /\
    NoDup (List.map fst sd) /\
    Stages.dict_get (lit "organizationalUnitName") sd = Some (lit "Payments").
Proof.
  destruct (Stages.cert_fields Sample.certificate) as [d|e] eqn:E;
    [|vm_compute in E; discriminate].
  destruct (certificate_names_keep_last_value Sample.certificate d E)
    as (rdns & pairs & sd & R & Pp & S & N & G & _).
  exists d, sd. split; [reflexivity|]. split; [exact S|]. split; [exact N|].
  rewrite G. vm_compute in R. injection R as <-.
  vm_compute in Pp. injection Pp as <-. reflexivity.
Defined.

(** The scripts indicator of the sign-in page is scored. *)
Lemma dynamic_indicators_witness :
  exists points,
    forall acc,
      URLAnalyzer.indicator_step acc (ExtraSpec.scripts_text 7)
      = ((fst acc + points)%float, snd acc ++ [ExtraSpec.scripts_text 7]).
Proof.
  destruct (dynamic_indicators_are_scored Reference.urlparse Reference.lower
              (Ok tt) (Ok Sample.signin_capture) (Ok tt)
              (lit "https://a.example/signin") (ExtraSpec.scripts_text 7))
    as (points & _ & H).
  - vm_compute. right. right. left. reflexivity.
  - exists points. exact H.
Defined.

(** A browser that cannot be started. *)
Lemma dynamic_stage_failure_witness :
  Stages.dyn_error
    (dynamic (Raise (Exn OtherError (lit "Executable doesn't exist")))
       (Ok Sample.signin_capture) (Ok tt) (lit "https://a.example/signin"))
  = Some (lit "Executable doesn't exist").
Proof.
  pose proof (dynamic_stage_failure_is_recorded Reference.urlparse
                Reference.lower
                (Raise (Exn OtherError (lit "Executable doesn't exist")))
                (Ok Sample.signin_capture) (Ok tt)
                (lit "https://a.example/signin")) as H.
  cbv zeta in H. destruct H as (_ & H & _). exact (H _ eq_refl).
Defined.

Lemma dynamic_indicator_count_witness :
  exists d,
    dynamic_body (lit "https://a.example/signin") Sample.signin_capture = Ok d /\
    List.length (Stages.dyn_phishing_indicators d) <= 3 /\
    In (ExtraSpec.scripts_text 7) (Stages.dyn_phishing_indicators d).
Proof.
  destruct (dynamic_body (lit "https://a.example/signin") Sample.signin_capture)
    as [d|e] eqn:E; [|vm_compute in E; discriminate].
  pose proof (dynamic_indicator_count Reference.urlparse Reference.lower
                (lit "https://a.example/signin") Sample.signin_capture d E) as H.
  cbv zeta in H. destruct H as (L & I & _).
  exists d. split; [reflexivity|]. split; [exact L|].
  apply I. vm_compute. lia.
Defined.

(** A page-load timeout: the defaults and the error. *)
Lemma capture_is_bounded_witness :
  exists msg,
    ScreenshotService.capture_screenshot_and_analyze
      (ScreenshotService.TimedOut true) (Ok tt)
    = Ok (ScreenshotService.with_error msg ScreenshotService.initial_result).
Proof.
  destruct (capture_is_bounded (ScreenshotService.TimedOut true) (Ok tt))
    as [H _].
  destruct (H _ eq_refl) as (_ & _ & _ & _ & _ & _ & K).
  destruct K as [msg E]; [intros o; discriminate|].
  exists msg. rewrite <- E. reflexivity.
Defined.

Lemma scripts_indicator_witness :
  exists d,
    dynamic_body (lit "https://a.example/signin") Sample.signin_capture = Ok d /\
    forall i,
      In i (Stages.dyn_phishing_indicators d) ->
      ExtraSpec.form_text i \/ (i = ExtraSpec.scripts_text 7 /\ 6 <= 7 <= 30).
Proof.
  destruct (dynamic_body (lit "https://a.example/signin") Sample.signin_capture)
    as [d|e] eqn:E; [|vm_compute in E; discriminate].
  pose proof (scripts_indicator_count_range Reference.urlparse Reference.lower
                (lit "https://a.example/signin")
                (ScreenshotService.Loaded Sample.signin_page) (Ok tt)
                Sample.signin_capture d eq_refl E) as H.
  cbv zeta in H. destruct H as [_ H].
  exists d. split; [reflexivity|exact H].
Defined.

(** A redirect and then a dropped connection: a hop is recorded, the final
    URL is still the requested one. *)
Lemma http_stage_invariants_witness :
  final_url (http_fetch Scenario.dropped_session (lit "http://a.example/"))
  = lit "http://a.example/" /\
  exists msg,
    http_error (http_fetch Scenario.dropped_session (lit "http://a.example/"))
    = Some msg.
Proof.
  pose proof (http_stage_invariants Reference.urljoin Scenario.dropped_session
                (lit "http://a.example/")) as H.
  cbv zeta in H. destruct H as (_ & _ & _ & H).
  destruct (H eq_refl) as (F & _ & _ & M). split; [exact F|exact M].
Defined.

(** The parse of the sign-in markup. *)
Example signin_soup :
  Reference.BeautifulSoup Sample.signin_html
  = Ok {| soup_title := Some (Some (lit "Sign in"));
          soup_forms :=
            [ {| tag_action := Some (lit "/session");
                 tag_method := Some (lit "POST");
                 tag_inputs :=
                   [ {| tag_type := Some (lit "text");
                        tag_name := Some (lit "Email") |};
                     {| tag_type := Some (lit "password");
                        tag_name := Some (lit "pw") |} ] |} ] |}.
Proof. vm_compute. reflexivity. Qed.

(** An input named [Email] makes a login form. *)
Lemma login_form_detection_witness :
  has_login_form (content Sample.signin_html) = Some true.
Proof.
  destruct (login_form_detection Reference.BeautifulSoup Reference.lower
              Sample.signin_html) as (_ & _ & H).
  destruct (H _ ltac:(discriminate) signin_soup) as (fs & b & _ & _ & Hb & Hiff).
  rewrite Hb. f_equal. apply Hiff.
  eexists. eexists. split; [left; reflexivity|].
  split; [left; reflexivity|]. right. left. reflexivity.
Defined.

Lemma text_features_witness :
  MLClassifier.extract_text_features Scenario.quiet = lit "no content".
Proof.
  pose proof (text_features_nonempty Scenario.quiet) as H.
  cbv zeta in H. destruct H as (_ & _ & H). apply H; reflexivity.
Defined.

(** A model with two importances. *)
Lemma feature_importance_witness :
  FeatureImportance.get_feature_importance (Scenario.model 0.5) (Some [0.5; 0.25]%float)
  = [(lit "url_length", 0.5%float); (lit "domain_length", 0.25%float)].
Proof.
  destruct (feature_importance_entries (Scenario.model 0.5) [0.5; 0.25]%float)
    as (_ & _ & H).
  pose proof (H eq_refl) as K. cbv zeta in K. destruct K as (K & _).
  rewrite K. reflexivity.
Defined.

(** The third evidence string does not reach the text. *)
Lemma summary_template_witness :
  fallback_summary
    (Some {| URLAnalyzer.verdict := URLAnalyzer.Dangerous;
             URLAnalyzer.confidence := 76.5%float; URLAnalyzer.risk_score := 73.5%float;
             URLAnalyzer.evidence := [lit "a"; lit "b"; lit "c"] |})
  = fallback_summary
      (Some {| URLAnalyzer.verdict := URLAnalyzer.Dangerous;
               URLAnalyzer.confidence := 76.5%float; URLAnalyzer.risk_score := 20%float;
               URLAnalyzer.evidence := [lit "a"; lit "b"] |}).
Proof.
  destruct (summary_template Reference.format_0f
              (Some {| URLAnalyzer.verdict := URLAnalyzer.Dangerous;
                       URLAnalyzer.confidence := 76.5%float;
                       URLAnalyzer.risk_score := 73.5%float;
                       URLAnalyzer.evidence := [lit "a"; lit "b"; lit "c"] |}))
    as (_ & _ & _ & _ & H).
  apply (H _ _ eq_refl); reflexivity.
Defined.

(** The sample run returns, also without a browser. *)
Lemma analyze_returns_witness :
  returns (Sample.analyze Sample.run_without_browser (lit " a.example/login")
             (lit "job-a")).
Proof.
  apply (proj2 (analyze_returns_iff Reference.urlparse Reference.urljoin
                  Reference.tldextract Reference.inet_aton Reference.idna_decode
                  Reference.dns_resolve Reference.whois Reference.BeautifulSoup
                  Reference.lower Reference.isdigit Reference.format_0f
                  Sample.port_of Sample.getpeercert Sample.is_confusable
                  Sample.run_without_browser (lit " a.example/login")
                  (lit "job-a"))).
  split; [eexists; reflexivity|]. split; [eexists; reflexivity|].
  split; [eexists; vm_compute; reflexivity|].
  intros parsed E. vm_compute in E. injection E as <-.
  eexists. vm_compute. reflexivity.
Defined.

Lemma analysis_record_witness :
  exists r,
    Sample.analyze Sample.run (lit " a.example/login") (lit "job-a") = Ok r /\
    Pipeline.pr_job_id r = lit "job-a" /\
    Pipeline.pr_url r = lit " a.example/login" /\
    original_url (Pipeline.st_normalization (Pipeline.pr_steps r))
    = lit "https://a.example/login" /\
    (List.length (URLAnalyzer.evidence (Pipeline.pr_risk_assessment r)) <= 6)%nat.
Proof.
  destruct (Sample.analyze Sample.run (lit " a.example/login") (lit "job-a"))
    as [r|e] eqn:E; [|vm_compute in E; discriminate].
  pose proof (analysis_record_invariants Reference.urlparse Reference.urljoin
                Reference.tldextract Reference.inet_aton Reference.idna_decode
                Reference.dns_resolve Reference.whois Reference.BeautifulSoup
                Reference.lower Reference.isdigit Reference.format_0f
                Sample.port_of Sample.getpeercert Sample.is_confusable
                Sample.run (lit " a.example/login") (lit "job-a") r E) as H.
  cbv zeta in H. destruct H as (A & B & C & _ & _ & _ & _ & _ & D & _).
  exists r. split; [reflexivity|]. split; [exact A|]. split; [exact B|].
  split; [exact C|exact D].
Defined.

(** A failed analysis of the first job. *)
Lemma job_terminal_state_witness :
  exists j,
    In j (Jobs.analyze_url_task (Raise (Exn ValueError (lit "Invalid IPv6 URL")))
            200 (lit "job-a") Sample.jobs) /\
    Jobs.id j = lit "job-a" /\ Jobs.status j = Jobs.JobFailed /\
    Jobs.error_message j = Some (lit "Invalid IPv6 URL") /\
    Jobs.completed_at j = Some 200%Z.
Proof.
  pose proof (job_reaches_terminal_state
                (Raise (Exn ValueError (lit "Invalid IPv6 URL"))) 200
                (lit "job-a") Sample.jobs) as H.
  cbv zeta in H. destruct H as (H & _ & _ & Hex).
  destruct Hex as (j & Hin & Hid).
  - eexists. split; [left; reflexivity|reflexivity].
  - destruct (H j Hin Hid) as (_ & T & _ & F).
    destruct (F _ eq_refl) as [S M].
    exists j. split; [exact Hin|]. split; [exact Hid|]. split; [exact S|].
    split; [exact M|exact T].
Defined.

Lemma task_leaves_other_jobs_witness :
  Jobs.get_analysis_result (lit "job-b")
    (Jobs.analyze_url_task (Raise (Exn ValueError (lit "Invalid IPv6 URL")))
       200 (lit "job-a") Sample.jobs)
  = Jobs.get_analysis_result (lit "job-b") Sample.jobs.
Proof.
  pose proof (task_leaves_other_jobs
                (Raise (Exn ValueError (lit "Invalid IPv6 URL"))) 200
                (lit "job-a") Sample.jobs) as H.
  cbv zeta in H. destruct H as (_ & H & _).
  apply H. discriminate.
Defined.

Lemma submit_then_fetch_witness :
  exists db' resp,
    Jobs.analyze_url (lit "job-c") (lit "http://c.example/") None 102 Sample.jobs
    = Ok (db', (lit "job-c", Jobs.Queued)) /\
    Jobs.get_analysis_result (lit "job-c") db' = Jobs.Respond resp /\
    Jobs.resp_status resp = Jobs.Queued /\
    Jobs.resp_job_url resp = lit "http://c.example/".
Proof.
  destruct (submit_then_fetch (lit "job-c") (lit "http://c.example/") None 102
              Sample.jobs) as [H _].
  - apply ListFacts.nodupb_sound. reflexivity.
  - destruct (H eq_refl) as (_ & db' & E & _ & _ & (resp & G & S & U & _) & _).
    exists db', resp. split; [exact E|]. split; [exact G|].
    split; [exact S|exact U].
Defined.

(** A form that posts to the page's own host, with an absolute action. *)
Lemma external_form_rule_witness :
  exists out,
    Stages.form_indicators Reference.urlparse Reference.lower
      (lit "https://a.example/signin")
      {| ScreenshotService.df_action := Some (lit "https://a.example/session");
         ScreenshotService.df_method := Some (lit "post");
         ScreenshotService.df_inputs := Some [] |} [] = Ok out /\
    In ExtraSpec.external_form_text out.
Proof.
  destruct (external_form_rule Reference.urlparse Reference.lower
              (lit "https://a.example/signin")
              {| ScreenshotService.df_action := Some (lit "https://a.example/session");
                 ScreenshotService.df_method := Some (lit "post");
                 ScreenshotService.df_inputs := Some [] |} [] _ eq_refl)
    as (out & E & _ & H).
  exists out. split; [exact E|].
  apply (H 104%N (lit "ttps://a.example/session") 97%N (lit ".example"));
    [reflexivity|reflexivity|discriminate].
Defined.

(** One analysis whose record holds an entry with data beside an error
    (HTTP: a recorded hop and the dropped connection; DNS and WHOIS: the
    addresses and the failed WHOIS query; the browser: a successful
    analysis with the page-load timeout) and an entry with neither (TLS,
    the URL being [http]). *)
Lemma stage_result_with_error_and_payload :
  exists r,
    Sample.analyze Sample.dropped_run (lit "http://www.example.com/") (lit "job-1")
    = Ok r /\
    let s := Pipeline.pr_steps r in
    (EntrySpec.http_shape (Pipeline.st_http_analysis s) = EntrySpec.Both /\
     List.length (redirect_chain (Pipeline.st_http_analysis s)) = 1 /\
     http_error (Pipeline.st_http_analysis s)
     = Some (lit "Connection reset by peer")) /\
    (EntrySpec.dns_shape (Pipeline.st_dns_whois s) = EntrySpec.Both /\
     a_records (Pipeline.st_dns_whois s) = Some [lit "93.184.216.34"] /\
     whois_error (Pipeline.st_dns_whois s) = Some (lit "timed out")) /\
    (EntrySpec.tls_shape (Pipeline.st_tls_cert s) = EntrySpec.Neither /\
     Pipeline.st_tls_cert s = Stages.empty_cert_data) /\
    (EntrySpec.dynamic_shape (Pipeline.st_screenshot_analysis s) = EntrySpec.Both /\
     Stages.analysis_success (Pipeline.st_screenshot_analysis s) = true /\
     Stages.dyn_error (Pipeline.st_screenshot_analysis s)
     = Some (lit "Page load timeout")) /\
    StageSpec.exclusive
      (StageSpec.http_has_error
         (http_fetch Scenario.dropped_session (lit "http://a.example/")))
      (StageSpec.http_has_payload
         (http_fetch Scenario.dropped_session (lit "http://a.example/")))
    = false.
Proof.
  destruct (Sample.analyze Sample.dropped_run (lit "http://www.example.com/")
              (lit "job-1")) as [r|e] eqn:E; [|vm_compute in E; discriminate].
  exists r. split; [reflexivity|].
  vm_compute in E. injection E as <-. vm_compute. repeat split.
Qed.

(** The HTTP stage after one redirect and a dropped connection, the TLS
    stage on an [http] URL, and the dynamic stage on a page-load
    timeout. *)
Lemma stage_results_payload_or_error_witness :
  (let d := http_fetch Scenario.dropped_session (lit "http://a.example/") in
   List.length (redirect_chain d) = 1 /\
   http_error d = Some (lit "Connection reset by peer") /\
   EntrySpec.http_shape d = EntrySpec.Both) /\
  (exists d,
      tls (lit "http://www.example.com/") = Ok d /\
      EntrySpec.tls_shape d = EntrySpec.Neither) /\
  (exists d,
      URLAnalyzer._dns_and_whois_lookup Reference.urlparse Reference.tldextract
        Reference.dns_resolve Reference.whois (lit "http://www.example.com/")
      = Ok d /\
      a_records d = Some [lit "93.184.216.34"] /\
      whois_error d = Some (lit "timed out") /\
      EntrySpec.dns_shape d = EntrySpec.Both) /\
  EntrySpec.dynamic_shape
    (dynamic (Ok tt)
       (ScreenshotService.capture_screenshot_and_analyze
          (ScreenshotService.TimedOut true) (Ok tt))
       (Ok tt) (lit "http://www.example.com/"))
  = EntrySpec.Both.
Proof.
  destruct (stage_results_payload_or_error Reference.urlparse Reference.urljoin
              Reference.tldextract Reference.inet_aton Reference.idna_decode
              Reference.dns_resolve Reference.whois Reference.BeautifulSoup
              Reference.lower Reference.isdigit Reference.format_0f
              Sample.port_of Sample.getpeercert Sample.is_confusable)
    as (_ & _ & W & _ & H & _ & T & D & _).
  split; [|split; [|split]].
  - edestruct (H (Scenario.response "http://a.example/" 301
                    (Some "http://b.example/"%string) (Ok []))
                 [] (Exn OSError (lit "Connection reset by peer")) []
                 (lit "http://a.example/")) as (_ & L & E & S);
      [vm_compute; reflexivity|simpl; lia|].
    split; [exact L|]. split; [exact E|exact S].
  - destruct (T (lit "http://www.example.com/") _ _ eq_refl eq_refl)
      as (d & E & N & _).
    exists d. split; [exact E|]. exact (proj2 (N eq_refl)).
  - pose proof (W (lit "http://www.example.com/") _ eq_refl) as K.
    cbv zeta in K. destruct K as [K _].
    exact (K [lit "93.184.216.34"] (Exn OSError (lit "timed out"))
             eq_refl eq_refl).
  - pose proof (D (Ok tt) (ScreenshotService.TimedOut true) (Ok tt) (Ok tt)
                  (lit "http://www.example.com/")) as K.
    cbv zeta in K. destruct K as (K & _).
    destruct (K eq_refl) as (_ & _ & B).
    apply B. intros o. discriminate.
Defined.

End FurtherAtReference.
